(** * Nyra HAR engine: activity classification and sudden-stop detection

    A shallow embedding of [harModelService.js] (module-level publisher,
    [HARModelService] class) and proofs about its behaviour.

    Number model.  A JavaScript number is modelled by [num]: a finite value is
    an exact rational, and the three IEEE special values [NaN], [+Infinity]
    and [-Infinity] are kept with their arithmetic rules, so that every
    [isFinite] guard of the source keeps its meaning (division by zero, a
    non-numeric sensitivity).  Rounding and overflow of binary64 and the sign
    of zero are not represented.  The arithmetic operations return their
    result in lowest terms.  [Math.sqrt] on a finite non-negative value is a
    parameter [sqrtQ] of the development.

    Effects.  The module-level variables [listeners] and
    [latestActivityState] form the [World]; the fields of the service object
    form [HARModelService]; a method takes both and returns both, together
    with its [Outcome] (a returned value or a propagated exception).
    [Date.now()] is an argument of the method that reads it.  Console output
    is not represented. *)

From Stdlib Require Import String QArith Qabs Qround Qminmax ZArith List Bool Lia Lqa.
Import ListNotations.

Open Scope Q_scope.

(** ** JavaScript numbers *)

Inductive num : Type :=
| Fin (q : Q)
| PInf
| NInf
| NaN.

Definition isFinite (x : num) : bool :=
  match x with Fin _ => true | _ => false end.

(** A finite result, in lowest terms. *)
Definition fin (q : Q) : num := Fin (Qred q).

Definition add (x y : num) : num :=
  match x, y with
  | NaN, _ => NaN
  | _, NaN => NaN
  | Fin a, Fin b => fin (a + b)
  | PInf, NInf => NaN
  | NInf, PInf => NaN
  | PInf, _ => PInf
  | _, PInf => PInf
  | NInf, _ => NInf
  | _, NInf => NInf
  end.

Definition sub (x y : num) : num :=
  match x, y with
  | NaN, _ => NaN
  | _, NaN => NaN
  | Fin a, Fin b => fin (a - b)
  | PInf, PInf => NaN
  | NInf, NInf => NaN
  | PInf, _ => PInf
  | _, NInf => PInf
  | NInf, _ => NInf
  | _, PInf => NInf
  end.

(** The infinity with the sign of [q], flipped unless [positive]; [NaN] when
    [q] is 0. *)
Definition signedInf (positive : bool) (q : Q) : num :=
  match q ?= 0 with
  | Eq => NaN
  | Gt => if positive then PInf else NInf
  | Lt => if positive then NInf else PInf
  end.

Definition mul (x y : num) : num :=
  match x, y with
  | NaN, _ => NaN
  | _, NaN => NaN
  | Fin a, Fin b => fin (a * b)
  | PInf, Fin b => signedInf true b
  | NInf, Fin b => signedInf false b
  | Fin a, PInf => signedInf true a
  | Fin a, NInf => signedInf false a
  | PInf, PInf => PInf
  | NInf, NInf => PInf
  | PInf, NInf => NInf
  | NInf, PInf => NInf
  end.

Definition div (x y : num) : num :=
  match x, y with
  | NaN, _ => NaN
  | _, NaN => NaN
  | Fin a, Fin b =>
      if Qeq_bool b 0 then signedInf true a else fin (a / b)
  | Fin _, _ => Fin 0
  | PInf, Fin b => match b ?= 0 with Lt => NInf | _ => PInf end
  | NInf, Fin b => match b ?= 0 with Lt => PInf | _ => NInf end
  | _, _ => NaN
  end.

(** [x < y]; false as soon as one side is [NaN]. *)
Definition lt (x y : num) : bool :=
  match x, y with
  | NaN, _ => false
  | _, NaN => false
  | Fin a, Fin b => match a ?= b with Lt => true | _ => false end
  | NInf, NInf => false
  | NInf, _ => true
  | _, NInf => false
  | PInf, _ => false
  | _, PInf => true
  end.

(** [x > y]. *)
Definition gt (x y : num) : bool := lt y x.

Definition Math_abs (x : num) : num :=
  match x with
  | Fin q => Fin (Qabs q)
  | PInf => PInf
  | NInf => PInf
  | NaN => NaN
  end.

Definition Math_min (x y : num) : num :=
  match x, y with
  | NaN, _ => NaN
  | _, NaN => NaN
  | _, _ => if lt y x then y else x
  end.

Definition Math_max (x y : num) : num :=
  match x, y with
  | NaN, _ => NaN
  | _, NaN => NaN
  | _, _ => if lt x y then y else x
  end.

(** [parseFloat(x.toFixed(2))]: the nearest multiple of 1/100, a tie going
    away from zero; the special values print and parse back as themselves. *)
Definition toFixed2 (x : num) : num :=
  match x with
  | Fin q =>
      match q ?= 0 with
      | Lt => fin (- Qmake (Qfloor (- q * 100 + 0.5)) 100)
      | _ => fin (Qmake (Qfloor (q * 100 + 0.5)) 100)
      end
  | _ => x
  end.

(** Equality of numbers as values ([Q] has several fractions per value). *)
Definition num_eq (x y : num) : Prop :=
  match x, y with
  | Fin a, Fin b => a == b
  | PInf, PInf => True
  | NInf, NInf => True
  | NaN, NaN => True
  | _, _ => False
  end.

Definition num_eqb (x y : num) : bool :=
  match x, y with
  | Fin a, Fin b => Qeq_bool a b
  | PInf, PInf => true
  | NInf, NInf => true
  | NaN, NaN => true
  | _, _ => false
  end.

(** [x <= y]; false as soon as one side is [NaN]. *)
Definition le (x y : num) : bool := lt x y || num_eqb x y.

Definition ofNat (n : nat) : num := Fin (inject_Z (Z.of_nat n)).

(** ** JavaScript arrays *)

Section Arrays.
Context {A : Type}.

(** [arr.push(x)]. *)
Definition push (l : list A) (x : A) : list A := l ++ [x].

(** [arr.shift()], for its effect on the array. *)
Definition shift (l : list A) : list A := tl l.

(** A relative index of [slice], resolved against the length. *)
Definition relIndex (len : nat) (i : Z) : nat :=
  if (i <? 0)%Z then Z.to_nat (Z.max (Z.of_nat len + i) 0)
  else Nat.min (Z.to_nat i) len.

(** [arr.slice(start, end)]; [None] for an omitted [end]. *)
Definition slice (start : Z) (end_ : option Z) (l : list A) : list A :=
  let len := length l in
  let k := relIndex len start in
  let final := match end_ with None => len | Some e => relIndex len e end in
  firstn (final - k) (skipn k l).

(** The last [n] elements, and the [n] elements that end [k] before the
    end: the windows the anomaly detector speaks of. *)
Definition lastn (n : nat) (l : list A) : list A := skipn (length l - n) l.

Definition window (n k : nat) (l : list A) : list A :=
  firstn n (skipn (length l - (n + k)) l).
End Arrays.

(** [arr.reduce((a, b) => a + b, 0)]. *)
Definition sum (l : list num) : num := fold_left add l (Fin 0).

(** [arr.reduce((a, b) => a + b, 0) / arr.length]. *)
Definition average (l : list num) : num := div (sum l) (ofNat (length l)).

(** ** Published state and subscribers *)

Inductive Activity : Type := IDLE | STANDING | WALKING | RUNNING | CALIBRATING.

Definition Activity_eqb (a b : Activity) : bool :=
  match a, b with
  | IDLE, IDLE | STANDING, STANDING | WALKING, WALKING
  | RUNNING, RUNNING | CALIBRATING, CALIBRATING => true
  | _, _ => false
  end.

Inductive AnomalyType : Type := SUDDEN_STOP.
Inductive Severity : Type := HIGH.

Record Anomaly : Type := { type : AnomalyType; severity : Severity }.

Record ActivityState : Type := {
  name : Activity;
  confidence : num;
  isProtectionActive : bool;
  anomaly : option Anomaly
}.

(** The outcome of a call: a returned value, or an exception that leaves it. *)
Inductive Outcome (A : Type) : Type :=
| Returned (a : A)
| Thrown (e : string).
Arguments Returned {A} a.
Arguments Thrown {A} e.

(** A subscribed callback: called with a state it either returns or throws. *)
Record Listener : Type := {
  lid : nat;
  react : ActivityState -> option string
}.

(** The module-level variables, and the log of the callback calls made. *)
Record World : Type := {
  listeners : list Listener;
  latestActivityState : ActivityState;
  delivered : list (nat * ActivityState)
}.

Definition initialActivityState : ActivityState :=
  {| name := IDLE; confidence := Fin 1; isProtectionActive := false;
     anomaly := None |}.

Definition publish (w : World) (s : ActivityState) : World :=
  {| listeners := listeners w; latestActivityState := s;
     delivered := delivered w |}.

(** The [for (const listener of listeners)] loop of [notifyListeners]: each
    call is logged; a call that throws ends the loop with its exception. *)
Fixpoint notifyLoop (ls : list Listener) (s : ActivityState)
    (log : list (nat * ActivityState))
  : list (nat * ActivityState) * option string :=
  match ls with
  | [] => (log, None)
  | listener :: rest =>
      let log' := push log (lid listener, s) in
      match react listener s with
      | Some e => (log', Some e)
      | None => notifyLoop rest s log'
      end
  end.

Definition notifyListeners (w : World) : World * option string :=
  let (log, exn) := notifyLoop (listeners w) (latestActivityState w) (delivered w) in
  ({| listeners := listeners w; latestActivityState := latestActivityState w;
      delivered := log |}, exn).

(** What a method returns once [notifyListeners] has run: the published
    state, unless a callback's exception left the method first. *)
Definition afterNotify (r : World * option string) : World * Outcome ActivityState :=
  match snd r with
  | Some e => (fst r, Thrown e)
  | None => (fst r, Returned (latestActivityState (fst r)))
  end.

(** The result of a method of the service: the object, the module-level
    variables and the outcome. *)
Definition result {S A : Type} (this : S) (r : World * Outcome A)
  : S * World * Outcome A :=
  (this, fst r, snd r).

(** [subscribeToActivity(callback)]: the callback joins the list and is called
    at once with the current state. *)
Definition subscribeToActivity (callback : Listener) (w : World)
  : World * Outcome unit :=
  ({| listeners := push (listeners w) callback;
      latestActivityState := latestActivityState w;
      delivered := push (delivered w) (lid callback, latestActivityState w) |},
   match react callback (latestActivityState w) with
   | Some e => Thrown e
   | None => Returned tt
   end).

(** The function [subscribeToActivity] returns: the callback leaves the list. *)
Definition unsubscribe (callback : Listener) (w : World) : World :=
  {| listeners := filter (fun listener => negb (lid listener =? lid callback)%nat)
                         (listeners w);
     latestActivityState := latestActivityState w;
     delivered := delivered w |}.

Definition getLatestActivity (w : World) : ActivityState := latestActivityState w.

(** ** Sensor messages *)

Inductive jsval : Type :=
| JUndefined
| JNumber (x : num)
| JOther.

Inductive Field : Type := f_ax | f_ay | f_az | f_gx | f_gy | f_gz.

(** A message of the sensor feed, read through [sensorData[field]]. *)
Definition SensorData : Type := Field -> jsval.

Definition requiredFields : list Field := [f_ax; f_ay; f_az; f_gx; f_gy; f_gz].

(** [typeof sensorData[field] !== 'number' || !isFinite(sensorData[field])]. *)
Definition invalidField (sensorData : SensorData) (field : Field) : bool :=
  match sensorData field with
  | JNumber x => negb (isFinite x)
  | _ => true
  end.

(** A buffered message: past the validation its six fields are numbers. *)
Record Sample : Type := { ax : num; ay : num; az : num; gx : num; gy : num; gz : num }.

Definition numberOf (v : jsval) : num :=
  match v with JNumber x => x | _ => NaN end.

Definition readSample (sensorData : SensorData) : Sample :=
  {| ax := numberOf (sensorData f_ax); ay := numberOf (sensorData f_ay);
     az := numberOf (sensorData f_az); gx := numberOf (sensorData f_gx);
     gy := numberOf (sensorData f_gy); gz := numberOf (sensorData f_gz) |}.

(** ** The service object *)

Record Settings : Type := { detectionSensitivity : num }.

Record HARModelService : Type := {
  sensorDataBuffer : list Sample;
  lastHighMovementTime : Z;
  settings : option Settings;
  isMonitoring : bool;
  lastActivity : Activity;
  activityChangeCount : nat;
  sensorUnsubscribe : bool;
  movementHistory : list num;
  highMovementDuration : nat;
  lastMovementLevel : num;
  consecutiveStillReadings : nat;
  lastSuddenStopTime : Z;
  walkingSessionActive : bool
}.

(** The object the constructor leaves, before the settings are loaded. *)
Definition constructed : HARModelService :=
  {| sensorDataBuffer := []; lastHighMovementTime := 0; settings := None;
     isMonitoring := false; lastActivity := IDLE; activityChangeCount := 0;
     sensorUnsubscribe := false; movementHistory := [];
     highMovementDuration := 0; lastMovementLevel := Fin 0;
     consecutiveStillReadings := 0; lastSuddenStopTime := 0;
     walkingSessionActive := false |}.

Definition SENSOR_DATA_BUFFER_SIZE : nat := 25.

Definition BASE_MOVEMENT_THRESHOLD_IDLE : num := Fin 0.5.
Definition BASE_MOVEMENT_THRESHOLD_STANDING : num := Fin 2.
Definition BASE_MOVEMENT_THRESHOLD_WALKING : num := Fin 8.
Definition BASE_MOVEMENT_THRESHOLD_RUNNING : num := Fin 20.

(** [_refreshSettings], with the value [loadSettings] resolved to. *)
Definition _refreshSettings (loaded : option Settings) (this : HARModelService)
  : HARModelService :=
  {| sensorDataBuffer := sensorDataBuffer this;
     lastHighMovementTime := lastHighMovementTime this;
     settings := loaded;
     isMonitoring := isMonitoring this;
     lastActivity := lastActivity this;
     activityChangeCount := activityChangeCount this;
     sensorUnsubscribe := sensorUnsubscribe this;
     movementHistory := movementHistory this;
     highMovementDuration := highMovementDuration this;
     lastMovementLevel := lastMovementLevel this;
     consecutiveStillReadings := consecutiveStillReadings this;
     lastSuddenStopTime := lastSuddenStopTime this;
     walkingSessionActive := walkingSessionActive this |}.

(** [start()]: the subscription made when the dynamic import resolves is
    recorded at once. *)
Definition start (this : HARModelService) (w : World)
  : HARModelService * World * Outcome unit :=
  let this' :=
    {| sensorDataBuffer := sensorDataBuffer this;
       lastHighMovementTime := lastHighMovementTime this;
       settings := settings this;
       isMonitoring := true;
       lastActivity := lastActivity this;
       activityChangeCount := activityChangeCount this;
       sensorUnsubscribe := true;
       movementHistory := movementHistory this;
       highMovementDuration := highMovementDuration this;
       lastMovementLevel := lastMovementLevel this;
       consecutiveStillReadings := consecutiveStillReadings this;
       lastSuddenStopTime := lastSuddenStopTime this;
       walkingSessionActive := walkingSessionActive this |} in
  let old := latestActivityState w in
  let w1 := publish w {| name := name old; confidence := confidence old;
                         isProtectionActive := true; anomaly := anomaly old |} in
  let (w2, exn) := notifyListeners w1 in
  (this', w2, match exn with Some e => Thrown e | None => Returned tt end).

(** [stop()]. *)
Definition stop (this : HARModelService) (w : World)
  : HARModelService * World * Outcome unit :=
  let this' :=
    {| sensorDataBuffer := [];
       lastHighMovementTime := lastHighMovementTime this;
       settings := settings this;
       isMonitoring := false;
       lastActivity := lastActivity this;
       activityChangeCount := activityChangeCount this;
       sensorUnsubscribe := false;
       movementHistory := movementHistory this;
       highMovementDuration := highMovementDuration this;
       lastMovementLevel := lastMovementLevel this;
       consecutiveStillReadings := consecutiveStillReadings this;
       lastSuddenStopTime := lastSuddenStopTime this;
       walkingSessionActive := walkingSessionActive this |} in
  let w1 := publish w {| name := IDLE; confidence := Fin 1;
                         isProtectionActive := false; anomaly := None |} in
  let (w2, exn) := notifyListeners w1 in
  (this', w2, match exn with Some e => Thrown e | None => Returned tt end).

(** ** Classification *)

Record Thresholds : Type := {
  MOVEMENT_THRESHOLD_IDLE : num;
  MOVEMENT_THRESHOLD_STANDING : num;
  MOVEMENT_THRESHOLD_WALKING : num;
  MOVEMENT_THRESHOLD_RUNNING : num
}.

(** The four thresholds of a tick, from [settings.detectionSensitivity]. *)
Definition adjustThresholds (sensitivity : num) : Thresholds :=
  let modifier := sub (Fin 1) sensitivity in
  {| MOVEMENT_THRESHOLD_IDLE :=
       mul BASE_MOVEMENT_THRESHOLD_IDLE (add (Fin 1) (mul modifier (Fin 0.6)));
     MOVEMENT_THRESHOLD_STANDING :=
       mul BASE_MOVEMENT_THRESHOLD_STANDING (add (Fin 1) (mul modifier (Fin 0.6)));
     MOVEMENT_THRESHOLD_WALKING :=
       mul BASE_MOVEMENT_THRESHOLD_WALKING (add (Fin 1) (mul modifier (Fin 0.4)));
     MOVEMENT_THRESHOLD_RUNNING :=
       mul BASE_MOVEMENT_THRESHOLD_RUNNING (add (Fin 1) (mul modifier (Fin 0.3))) |}.

(** [_calculateVariance(arr)]. *)
Definition _calculateVariance (arr : list num) : num :=
  if (length arr <? 2)%nat then Fin 0
  else
    let validValues := filter isFinite arr in
    if (length validValues <? 2)%nat then Fin 0
    else
      let mean := div (fold_left add validValues (Fin 0)) (ofNat (length validValues)) in
      let variance :=
        div (fold_left (fun a b => add a (mul (sub b mean) (sub b mean)))
                       validValues (Fin 0))
            (ofNat (length validValues)) in
      if isFinite variance then variance else Fin 0.

(** The activity and confidence of a movement score, before smoothing. *)
Definition classify (T : Thresholds) (validTotalMovement : num) : Activity * num :=
  if gt validTotalMovement (MOVEMENT_THRESHOLD_RUNNING T) then
    let excessMovement := sub validTotalMovement (MOVEMENT_THRESHOLD_RUNNING T) in
    let confidenceCalc :=
      add (Fin 0.75) (mul (div excessMovement (MOVEMENT_THRESHOLD_RUNNING T)) (Fin 0.2)) in
    (RUNNING,
     Math_min (Fin 0.95) (if isFinite confidenceCalc then confidenceCalc else Fin 0.75))
  else if gt validTotalMovement (MOVEMENT_THRESHOLD_WALKING T) then
    let walkingRange := sub (MOVEMENT_THRESHOLD_RUNNING T) (MOVEMENT_THRESHOLD_WALKING T) in
    let walkingProgress :=
      if gt walkingRange (Fin 0)
      then div (sub validTotalMovement (MOVEMENT_THRESHOLD_WALKING T)) walkingRange
      else Fin 0 in
    let confidenceCalc := add (Fin 0.65) (mul walkingProgress (Fin 0.27)) in
    (WALKING,
     Math_min (Fin 0.92) (if isFinite confidenceCalc then confidenceCalc else Fin 0.65))
  else if gt validTotalMovement (MOVEMENT_THRESHOLD_STANDING T) then
    let standingRange := sub (MOVEMENT_THRESHOLD_WALKING T) (MOVEMENT_THRESHOLD_STANDING T) in
    let standingProgress :=
      if gt standingRange (Fin 0)
      then div (sub validTotalMovement (MOVEMENT_THRESHOLD_STANDING T)) standingRange
      else Fin 0 in
    let confidenceCalc := add (Fin 0.55) (mul standingProgress (Fin 0.33)) in
    (STANDING,
     Math_min (Fin 0.88) (if isFinite confidenceCalc then confidenceCalc else Fin 0.55))
  else if gt validTotalMovement (MOVEMENT_THRESHOLD_IDLE T) then
    let lightRange := sub (MOVEMENT_THRESHOLD_STANDING T) (MOVEMENT_THRESHOLD_IDLE T) in
    let lightProgress :=
      if gt lightRange (Fin 0)
      then div (sub validTotalMovement (MOVEMENT_THRESHOLD_IDLE T)) lightRange
      else Fin 0 in
    let confidenceCalc := add (Fin 0.45) (mul lightProgress (Fin 0.37)) in
    (STANDING,
     Math_min (Fin 0.82) (if isFinite confidenceCalc then confidenceCalc else Fin 0.45))
  else
    let idleRatio :=
      if gt (MOVEMENT_THRESHOLD_IDLE T) (Fin 0)
      then Math_min (Fin 1) (div validTotalMovement (MOVEMENT_THRESHOLD_IDLE T))
      else Fin 0 in
    let confidenceCalc := sub (Fin 0.95) (mul idleRatio (Fin 0.25)) in
    (IDLE,
     Math_max (Fin 0.7) (if isFinite confidenceCalc then confidenceCalc else Fin 0.7)).

(** The transitions the smoothing step holds back, for the incremented
    count. *)
Definition needsSmoothing (lastActivity activity : Activity) (activityChangeCount : nat)
  : bool :=
  (Activity_eqb lastActivity IDLE && Activity_eqb activity STANDING
     && (activityChangeCount <? 3)%nat) ||
  (Activity_eqb lastActivity STANDING && Activity_eqb activity IDLE
     && (activityChangeCount <? 3)%nat) ||
  (Activity_eqb lastActivity STANDING && Activity_eqb activity WALKING
     && (activityChangeCount <? 2)%nat) ||
  (Activity_eqb lastActivity WALKING && Activity_eqb activity STANDING
     && (activityChangeCount <? 2)%nat).

(** What the smoothing step leaves: the activity and confidence to publish,
    and the new [lastActivity] and [activityChangeCount]. *)
Record Smoothed : Type := {
  smoothedActivity : Activity;
  smoothedConfidence : num;
  nextLastActivity : Activity;
  nextChangeCount : nat
}.

Definition smoothActivity (lastActivity : Activity) (activityChangeCount : nat)
    (activity : Activity) (confidence : num) : Smoothed :=
  if negb (Activity_eqb activity lastActivity) then
    let activityChangeCount := S activityChangeCount in
    if needsSmoothing lastActivity activity activityChangeCount then
      {| smoothedActivity := lastActivity;
         smoothedConfidence := Math_max (Fin 0.3) (sub confidence (Fin 0.3));
         nextLastActivity := lastActivity;
         nextChangeCount := activityChangeCount |}
    else
      {| smoothedActivity := activity; smoothedConfidence := confidence;
         nextLastActivity := activity; nextChangeCount := 0 |}
  else
    {| smoothedActivity := activity; smoothedConfidence := confidence;
       nextLastActivity := lastActivity; nextChangeCount := 0 |}.

(** ** Sudden-stop detection *)

(** The walking-session bookkeeping of a tick. *)
Record Session : Type := {
  duration : nat;
  stillReadings : nat;
  sessionActive : bool
}.

Definition trackSession (activity : Activity)
    (highMovementDuration consecutiveStillReadings : nat) (walkingSessionActive : bool)
  : Session :=
  let isHighMovement :=
    Activity_eqb activity WALKING || Activity_eqb activity RUNNING in
  let isStill := Activity_eqb activity IDLE in
  if isHighMovement then
    let highMovementDuration := S highMovementDuration in
    {| duration := highMovementDuration;
       stillReadings := 0;
       sessionActive :=
         if negb walkingSessionActive && (30 <? highMovementDuration)%nat
         then true else walkingSessionActive |}
  else if isStill then
    let consecutiveStillReadings := S consecutiveStillReadings in
    if (30 <? consecutiveStillReadings)%nat
    then {| duration := 0; stillReadings := consecutiveStillReadings;
            sessionActive := false |}
    else {| duration := highMovementDuration;
            stillReadings := consecutiveStillReadings;
            sessionActive := walkingSessionActive |}
  else {| duration := highMovementDuration; stillReadings := 0;
          sessionActive := walkingSessionActive |}.

(** The inner condition, on the three windows of the movement history. *)
Definition dropDetected (T : Thresholds) (movementHistory : list num) : bool :=
  let recentMovement := slice (-3) None movementHistory in
  let previousMovement := slice (-20) (Some (-10)%Z) movementHistory in
  let longTermMovement := slice (-50) (Some (-20)%Z) movementHistory in
  let avgRecent := average recentMovement in
  let avgPrevious := average previousMovement in
  let avgLongTerm := average longTermMovement in
  let movementDrop := div (sub avgPrevious avgRecent) avgPrevious in
  let consistentHighMovement :=
    gt avgLongTerm (mul (MOVEMENT_THRESHOLD_WALKING T) (Fin 1.5)) &&
    gt avgPrevious (mul (MOVEMENT_THRESHOLD_WALKING T) (Fin 1.5)) in
  gt movementDrop (Fin 0.9) &&
  consistentHighMovement &&
  lt avgRecent (mul (MOVEMENT_THRESHOLD_IDLE T) (Fin 2)) &&
  gt avgPrevious (mul (MOVEMENT_THRESHOLD_RUNNING T) (Fin 0.8)).

(** The outer condition and the inner one: the tick raises the anomaly. *)
Definition suddenStop (T : Thresholds) (movementHistory : list num)
    (walkingSessionActive : bool) (highMovementDuration : nat)
    (timeSinceLastTrigger : Z) : bool :=
  (50 <=? length movementHistory)%nat &&
  walkingSessionActive &&
  (50 <=? highMovementDuration)%nat &&
  (30000 <? timeSinceLastTrigger)%Z &&
  dropDetected T movementHistory.

(** ** The tick *)

Section Tick.

(** [Math.sqrt] on the finite non-negative numbers. *)
Variable sqrtQ : Q -> Q.

Definition Math_sqrt (x : num) : num :=
  match x with
  | Fin q => match q ?= 0 with Lt => NaN | _ => fin (sqrtQ q) end
  | PInf => PInf
  | NInf => NaN
  | NaN => NaN
  end.

(** [_calculateMagnitude(x, y, z)]. *)
Definition _calculateMagnitude (x y z : num) : num :=
  let validX := if isFinite x then x else Fin 0 in
  let validY := if isFinite y then y else Fin 0 in
  let validZ := if isFinite z then z else Fin 0 in
  let magnitude :=
    Math_sqrt (add (add (mul validX validX) (mul validY validY)) (mul validZ validZ)) in
  if isFinite magnitude then magnitude else Fin 0.

Definition accelMagnitudes (buffer : list Sample) : list num :=
  map (fun d => _calculateMagnitude (ax d) (ay d) (az d)) buffer.

Definition gyroMagnitudes (buffer : list Sample) : list num :=
  map (fun d => _calculateMagnitude (gx d) (gy d) (gz d)) buffer.

(** The accelerometer magnitudes with the mean of the window removed. *)
Definition accelWithoutGravity (buffer : list Sample) : list num :=
  let accelMagnitudes := accelMagnitudes buffer in
  let meanAccel :=
    if (0 <? length accelMagnitudes)%nat
    then div (sum accelMagnitudes) (ofNat (length accelMagnitudes))
    else Fin 0 in
  let validMeanAccel := if isFinite meanAccel then meanAccel else Fin 0 in
  map (fun mag => Math_abs (sub mag validMeanAccel)) accelMagnitudes.

(** The weighted movement score of the window. *)
Definition totalMovement (buffer : list Sample) : num :=
  let accelVariance := _calculateVariance (accelWithoutGravity buffer) in
  let gyroVariance := _calculateVariance (gyroMagnitudes buffer) in
  let validAccelVariance := if isFinite accelVariance then accelVariance else Fin 0 in
  let validGyroVariance := if isFinite gyroVariance then gyroVariance else Fin 0 in
  add (mul validAccelVariance (Fin 15)) (mul validGyroVariance (Fin 85)).

(** The buffer once the message is pushed and the oldest one dropped. *)
Definition pushSample (buffer : list Sample) (d : Sample) : list Sample :=
  let buffer := push buffer d in
  if (SENSOR_DATA_BUFFER_SIZE <? length buffer)%nat then shift buffer else buffer.

(** The movement history once the score is pushed, capped at 100. *)
Definition pushMovement (movementHistory : list num) (x : num) : list num :=
  let movementHistory := push movementHistory x in
  if (100 <? length movementHistory)%nat then shift movementHistory
  else movementHistory.

(** The early return taken while no classification is made: the name is
    published, with confidence 0.5, when it differs from the current one. *)
Definition publishName (activityName : Activity) (w : World)
  : World * Outcome ActivityState :=
  let old := latestActivityState w in
  if negb (Activity_eqb (name old) activityName) then
    afterNotify
      (notifyListeners
         (publish w {| name := activityName; confidence := Fin 0.5;
                       isProtectionActive := isProtectionActive old;
                       anomaly := anomaly old |}))
  else (w, Returned old).

(** The rest of [predictActivity] once the window is full: classification,
    smoothing, sudden-stop detection and publication. *)
Definition classifyWindow (now nowFired : Z) (theSettings : Settings)
    (buffer : list Sample) (this : HARModelService) (w : World)
  : HARModelService * World * Outcome ActivityState :=
  let T := adjustThresholds (detectionSensitivity theSettings) in
  let totalMovement := totalMovement buffer in
  let validTotalMovement :=
    if isFinite totalMovement then totalMovement else Fin 0 in
  let raw := classify T validTotalMovement in
  let smoothed :=
    smoothActivity (lastActivity this) (activityChangeCount this) (fst raw) (snd raw) in
  let activity := smoothedActivity smoothed in
  let confidence := smoothedConfidence smoothed in
  let history := pushMovement (movementHistory this) totalMovement in
  let timeSinceLastTrigger := (now - lastSuddenStopTime this)%Z in
  let session :=
    trackSession activity (highMovementDuration this)
                 (consecutiveStillReadings this) (walkingSessionActive this) in
  let fired :=
    suddenStop T history (sessionActive session) (duration session)
               timeSinceLastTrigger in
  let anomaly :=
    if fired then Some {| type := SUDDEN_STOP; severity := HIGH |} else None in
  result
    {| sensorDataBuffer := buffer;
       lastHighMovementTime := lastHighMovementTime this;
       settings := settings this;
       isMonitoring := isMonitoring this;
       lastActivity := nextLastActivity smoothed;
       activityChangeCount := nextChangeCount smoothed;
       sensorUnsubscribe := sensorUnsubscribe this;
       movementHistory := history;
       highMovementDuration := if fired then 0%nat else duration session;
       lastMovementLevel := lastMovementLevel this;
       consecutiveStillReadings := stillReadings session;
       lastSuddenStopTime := if fired then nowFired else lastSuddenStopTime this;
       walkingSessionActive := if fired then false else sessionActive session |}
    (afterNotify
       (notifyListeners
          (publish w {| name := activity;
                        confidence := toFixed2 confidence;
                        isProtectionActive := isMonitoring this;
                        anomaly := anomaly |}))).

(** The service with the message pushed on the buffer, nothing else
    changed: the state the calibrating return leaves. *)
Definition buffering (buffer : list Sample) (this : HARModelService)
  : HARModelService :=
  {| sensorDataBuffer := buffer;
     lastHighMovementTime := lastHighMovementTime this;
     settings := settings this;
     isMonitoring := isMonitoring this;
     lastActivity := lastActivity this;
     activityChangeCount := activityChangeCount this;
     sensorUnsubscribe := sensorUnsubscribe this;
     movementHistory := movementHistory this;
     highMovementDuration := highMovementDuration this;
     lastMovementLevel := lastMovementLevel this;
     consecutiveStillReadings := consecutiveStillReadings this;
     lastSuddenStopTime := lastSuddenStopTime this;
     walkingSessionActive := walkingSessionActive this |}.

(** [predictActivity(sensorData)]; [None] for a message that is no object;
    [now] and [nowFired] are the two readings of [Date.now()]. *)
Definition predictActivity (now nowFired : Z) (sensorData : option SensorData)
    (this : HARModelService) (w : World)
  : HARModelService * World * Outcome ActivityState :=
  match sensorData with
  | None => (this, w, Returned (latestActivityState w))
  | Some sensorData =>
    if existsb (invalidField sensorData) requiredFields then
      (this, w, Returned (latestActivityState w))
    else
      match settings this, isMonitoring this with
      | None, _ | _, false =>
          let activityName := if isMonitoring this then CALIBRATING else IDLE in
          result this (publishName activityName w)
      | Some theSettings, true =>
          let buffer := pushSample (sensorDataBuffer this) (readSample sensorData) in
          if (length buffer <? SENSOR_DATA_BUFFER_SIZE)%nat then
            result (buffering buffer this) (publishName CALIBRATING w)
          else classifyWindow now nowFired theSettings buffer this w
      end
  end.

End Tick.

(** ** The sensor feed *)

Section Feed.

Variable sqrtQ : Q -> Q.

(** A message of the feed with the two clock readings of its tick. *)
Definition Delivery : Type := (Z * Z * option SensorData)%type.

(** The subscriber of [start()] run on one message; an exception of a
    callback leaves to the feed, the object and the module keep their state. *)
Definition deliver (d : Delivery) (st : HARModelService * World)
  : HARModelService * World :=
  let '(now, nowFired, sensorData) := d in
  fst (predictActivity sqrtQ now nowFired sensorData (fst st) (snd st)).

Definition feed (ds : list Delivery) (st : HARModelService * World)
  : HARModelService * World :=
  fold_left (fun st d => deliver d st) ds st.

(** The states published along a feed, one per message. *)
Fixpoint published (ds : list Delivery) (st : HARModelService * World)
  : list ActivityState :=
  match ds with
  | [] => []
  | d :: rest =>
      let st' := deliver d st in
      latestActivityState (snd st') :: published rest st'
  end.

End Feed.

(** * The values of a classification tick *)

Section TickValues.

Variable sqrtQ : Q -> Q.

(** The intermediate values of a classification tick, from the state before
    it, the full window and the settings. *)
Definition thresholdsOf (theSettings : Settings) : Thresholds :=
  adjustThresholds (detectionSensitivity theSettings).

Definition rawOf (theSettings : Settings) (buffer : list Sample) : Activity * num :=
  classify (thresholdsOf theSettings) (totalMovement sqrtQ buffer).

Definition smoothedOf (theSettings : Settings) (buffer : list Sample)
    (this : HARModelService) : Smoothed :=
  smoothActivity (lastActivity this) (activityChangeCount this)
                 (fst (rawOf theSettings buffer)) (snd (rawOf theSettings buffer)).

Definition historyOf (buffer : list Sample) (this : HARModelService) : list num :=
  pushMovement (movementHistory this) (totalMovement sqrtQ buffer).

Definition sessionOf (theSettings : Settings) (buffer : list Sample)
    (this : HARModelService) : Session :=
  trackSession (smoothedActivity (smoothedOf theSettings buffer this))
               (highMovementDuration this) (consecutiveStillReadings this)
               (walkingSessionActive this).

Definition firedOf (now : Z) (theSettings : Settings) (buffer : list Sample)
    (this : HARModelService) : bool :=
  suddenStop (thresholdsOf theSettings) (historyOf buffer this)
             (sessionActive (sessionOf theSettings buffer this))
             (duration (sessionOf theSettings buffer this))
             (now - lastSuddenStopTime this)%Z.

Definition publishedOf (now : Z) (theSettings : Settings) (buffer : list Sample)
    (this : HARModelService) : ActivityState :=
  {| name := smoothedActivity (smoothedOf theSettings buffer this);
     confidence := toFixed2 (smoothedConfidence (smoothedOf theSettings buffer this));
     isProtectionActive := isMonitoring this;
     anomaly := if firedOf now theSettings buffer this
                then Some {| type := SUDDEN_STOP; severity := HIGH |} else None |}.

Definition serviceOf (now nowFired : Z) (theSettings : Settings)
    (buffer : list Sample) (this : HARModelService) : HARModelService :=
  let fired := firedOf now theSettings buffer this in
  {| sensorDataBuffer := buffer;
     lastHighMovementTime := lastHighMovementTime this;
     settings := settings this;
     isMonitoring := isMonitoring this;
     lastActivity := nextLastActivity (smoothedOf theSettings buffer this);
     activityChangeCount := nextChangeCount (smoothedOf theSettings buffer this);
     sensorUnsubscribe := sensorUnsubscribe this;
     movementHistory := historyOf buffer this;
     highMovementDuration :=
       if fired then 0%nat else duration (sessionOf theSettings buffer this);
     lastMovementLevel := lastMovementLevel this;
     consecutiveStillReadings := stillReadings (sessionOf theSettings buffer this);
     lastSuddenStopTime := if fired then nowFired else lastSuddenStopTime this;
     walkingSessionActive :=
       if fired then false else sessionActive (sessionOf theSettings buffer this) |}.

(** A message that passes the validation of the six fields. *)
Definition accepted (sensorData : SensorData) : Prop :=
  existsb (invalidField sensorData) requiredFields = false.

(** A tick that reaches the classification: the message is accepted, the
    service monitors with its settings loaded, and the window is full. *)
Definition classifies (sensorData : SensorData) (this : HARModelService) : Prop :=
  accepted sensorData /\
  isMonitoring this = true /\
  settings this <> None /\
  (SENSOR_DATA_BUFFER_SIZE <=
     length (pushSample (sensorDataBuffer this) (readSample sensorData)))%nat.

End TickValues.

(** * Properties and reference definitions *)

(** [reads x q]: the number [x] is finite, of value [q]. *)
Definition reads (x : num) (q : Q) : Prop :=
  match x with
  | Fin a => a == q
  | _ => False
  end.

(** The value of a finite number (0 for the others). *)
Definition valueOf (x : num) : Q :=
  match x with Fin a => a | _ => 0 end.

(** A base threshold scaled for the sensitivity [s] with the factor [k]. *)
Definition scaled (base k s : Q) : Q := base * (1 + (1 - s) * k).

(** The four thresholds are finite, of the given values. *)
Definition thresholdsRead (T : Thresholds) (ti ts tw tr : Q) : Prop :=
  reads (MOVEMENT_THRESHOLD_IDLE T) ti /\
  reads (MOVEMENT_THRESHOLD_STANDING T) ts /\
  reads (MOVEMENT_THRESHOLD_WALKING T) tw /\
  reads (MOVEMENT_THRESHOLD_RUNNING T) tr.

(** The threshold interval a score falls in, lowest first: the five branches
    of the classification. *)
Inductive Bracket : Type := BIdle | BLight | BStanding | BWalking | BRunning.

Definition bracket (T : Thresholds) (validTotalMovement : num) : Bracket :=
  if gt validTotalMovement (MOVEMENT_THRESHOLD_RUNNING T) then BRunning
  else if gt validTotalMovement (MOVEMENT_THRESHOLD_WALKING T) then BWalking
  else if gt validTotalMovement (MOVEMENT_THRESHOLD_STANDING T) then BStanding
  else if gt validTotalMovement (MOVEMENT_THRESHOLD_IDLE T) then BLight
  else BIdle.

Definition labelOf (b : Bracket) : Activity :=
  match b with
  | BIdle => IDLE
  | BLight => STANDING
  | BStanding => STANDING
  | BWalking => WALKING
  | BRunning => RUNNING
  end.

(** The confidence of a score in a bracket, as a rational function. *)
Definition confidenceOf (ti ts tw tr : Q) (b : Bracket) (x : Q) : Q :=
  match b with
  | BIdle => Qmax 0.7 (0.95 - Qmin 1 (x / ti) * 0.25)
  | BLight => Qmin 0.82 (0.45 + (x - ti) / (ts - ti) * 0.37)
  | BStanding => Qmin 0.88 (0.55 + (x - ts) / (tw - ts) * 0.33)
  | BWalking => Qmin 0.92 (0.65 + (x - tw) / (tr - tw) * 0.27)
  | BRunning => Qmin 0.95 (0.75 + (x - tr) / tr * 0.2)
  end.

(** The nearest multiple of 1/100 of a non-negative rational, a tie going up. *)
Definition round2 (q : Q) : Q := Qfloor (q * 100 + 0.5) # 100.

(** The suppressed transitions: idle and standing either way while the
    count is below 3, standing and walking either way while it is below 2. *)
Definition suppressed (lastActivity activity : Activity) (count : nat) : Prop :=
  (lastActivity = IDLE /\ activity = STANDING /\ (count < 3)%nat) \/
  (lastActivity = STANDING /\ activity = IDLE /\ (count < 3)%nat) \/
  (lastActivity = STANDING /\ activity = WALKING /\ (count < 2)%nat) \/
  (lastActivity = WALKING /\ activity = STANDING /\ (count < 2)%nat).

Definition acceptedb (sensorData : SensorData) : bool :=
  negb (existsb (invalidField sensorData) requiredFields).

(** The number of messages of a feed that pass the validation. *)
Definition acceptedCount (ds : list Delivery) : nat :=
  length (filter (fun d : Delivery =>
                    match snd d with
                    | Some sensorData => acceptedb sensorData
                    | None => false
                    end) ds).

Definition realLabel (a : Activity) : Prop :=
  a = IDLE \/ a = STANDING \/ a = WALKING \/ a = RUNNING.

(** The state of a session in which [k] messages were accepted. *)
Definition calibrated (theSettings : Settings) (k : nat)
    (st : HARModelService * World) : Prop :=
  isMonitoring (fst st) = true /\
  settings (fst st) = Some theSettings /\
  length (sensorDataBuffer (fst st)) = Nat.min k SENSOR_DATA_BUFFER_SIZE /\
  realLabel (lastActivity (fst st)) /\
  (name (latestActivityState (snd st)) = CALIBRATING ->
   confidence (latestActivityState (snd st)) = Fin 0.5) /\
  ((1 <= k < SENSOR_DATA_BUFFER_SIZE)%nat ->
   name (latestActivityState (snd st)) = CALIBRATING) /\
  ((SENSOR_DATA_BUFFER_SIZE <= k)%nat ->
   realLabel (name (latestActivityState (snd st)))).

(** A service that monitors with its settings loaded, its window holding
    [k] messages, or 25 when [k] is more. *)
Definition windowed (theSettings : Settings) (k : nat)
    (st : HARModelService * World) : Prop :=
  isMonitoring (fst st) = true /\
  settings (fst st) = Some theSettings /\
  length (sensorDataBuffer (fst st)) = Nat.min k SENSOR_DATA_BUFFER_SIZE /\
  realLabel (lastActivity (fst st)) /\
  (name (latestActivityState (snd st)) = CALIBRATING ->
   confidence (latestActivityState (snd st)) = Fin 0.5).

(** The inner condition on the windows: the last 3 scores, the 10 scores
    that end 10 before the end, the 30 scores that end 20 before the end. *)
Definition dropOnWindows (T : Thresholds) (history : list num) : Prop :=
  let avgRecent := average (lastn 3 history) in
  let avgPrior := average (window 10 10 history) in
  let avgLong := average (window 30 20 history) in
  gt (div (sub avgPrior avgRecent) avgPrior) (Fin 0.9) = true /\
  gt avgLong (mul (MOVEMENT_THRESHOLD_WALKING T) (Fin 1.5)) = true /\
  gt avgPrior (mul (MOVEMENT_THRESHOLD_WALKING T) (Fin 1.5)) = true /\
  gt avgPrior (mul (MOVEMENT_THRESHOLD_RUNNING T) (Fin 0.8)) = true /\
  lt avgRecent (mul (MOVEMENT_THRESHOLD_IDLE T) (Fin 2)) = true.

(** The whole guard of a tick, on the values after its bookkeeping. *)
Definition guardHolds (T : Thresholds) (history : list num) (session : Session)
    (timeSinceLastTrigger : Z) : Prop :=
  (50 <= length history)%nat /\
  sessionActive session = true /\
  (50 <= duration session)%nat /\
  (30000 < timeSinceLastTrigger)%Z /\
  dropOnWindows T history.

(** The same guard with the cooldown as the specification and the comment of
    the code word it: at least 30000 ms since the last trigger. *)
Definition guardAsCommented (T : Thresholds) (history : list num) (session : Session)
    (timeSinceLastTrigger : Z) : Prop :=
  (50 <= length history)%nat /\
  sessionActive session = true /\
  (50 <= duration session)%nat /\
  (30000 <= timeSinceLastTrigger)%Z /\
  dropOnWindows T history.

(** Sum, mean and variance (of a population) of rationals. *)
Definition Qsum (l : list Q) : Q := fold_right Qplus 0 l.

Definition Qcount (l : list Q) : Q := inject_Z (Z.of_nat (length l)).

Definition Qmean (l : list Q) : Q := Qsum l / Qcount l.

Definition Qvariance (l : list Q) : Q :=
  Qsum (map (fun x => (x - Qmean l) * (x - Qmean l)) l) / Qcount l.

(** The longest run of consecutive elements that satisfy [p]. *)
Fixpoint longestRunFrom {A : Type} (p : A -> bool) (l : list A)
    (current best : nat) : nat :=
  match l with
  | [] => best
  | x :: rest =>
      if p x then longestRunFrom p rest (S current) (Nat.max best (S current))
      else longestRunFrom p rest 0 best
  end.

Definition longestRun {A : Type} (p : A -> bool) (l : list A) : nat :=
  longestRunFrom p l 0 0.

(** A published state of high movement: WALKING or RUNNING. *)
Definition highMovement (s : ActivityState) : bool :=
  Activity_eqb (name s) WALKING || Activity_eqb (name s) RUNNING.

(** The guard as the specification words it: "at least" for the time since
    the last trigger and for the three levels of the long-term and prior
    windows, where the code has "more than". *)
Definition suddenStopAsSpecified (T : Thresholds) (history : list num)
    (walkingSessionActive : bool) (highMovementDuration : nat)
    (timeSinceLastTrigger : Z) : bool :=
  let avgRecent := average (lastn 3 history) in
  let avgPrior := average (window 10 10 history) in
  let avgLong := average (window 30 20 history) in
  (50 <=? length history)%nat &&
  walkingSessionActive &&
  (50 <=? highMovementDuration)%nat &&
  (30000 <=? timeSinceLastTrigger)%Z &&
  gt (div (sub avgPrior avgRecent) avgPrior) (Fin 0.9) &&
  le (mul (MOVEMENT_THRESHOLD_WALKING T) (Fin 1.5)) avgLong &&
  le (mul (MOVEMENT_THRESHOLD_WALKING T) (Fin 1.5)) avgPrior &&
  le (mul (MOVEMENT_THRESHOLD_RUNNING T) (Fin 0.8)) avgPrior &&
  lt avgRecent (mul (MOVEMENT_THRESHOLD_IDLE T) (Fin 2)).


(** * Concrete services and feeds *)

(** [Math.sqrt] of a finite non-negative rational, exact on the squares
    [a * a] and the integer part of numerator and denominator elsewhere: the
    function the concrete runs below are made with. *)
Definition sqrtQ_floor (q : Q) : Q := Z.sqrt (Qnum q) # Pos.sqrt (Qden q).

(** A message with the given accelerometer and gyroscope readings. *)
Definition reading (a1 a2 a3 g1 g2 g3 : Q) : SensorData :=
  fun field =>
    match field with
    | f_ax => JNumber (Fin a1)
    | f_ay => JNumber (Fin a2)
    | f_az => JNumber (Fin a3)
    | f_gx => JNumber (Fin g1)
    | f_gy => JNumber (Fin g2)
    | f_gz => JNumber (Fin g3)
    end.

(** Messages at 10 Hz from the clock reading [t0], with the gyroscope
    turning about one axis at the given rates and the device otherwise at
    rest under gravity. *)
Fixpoint turning (t0 : Z) (rates : list Q) : list Delivery :=
  match rates with
  | [] => []
  | g :: rest =>
      (t0, t0, Some (reading 0 0 9.8 g 0 0)) :: turning (t0 + 100) rest
  end.

(** A service that monitors with its settings loaded and 24 messages of a
    device at rest in its window, and a module without subscribers. *)
Definition restingSample : Sample :=
  {| ax := Fin 0; ay := Fin 0; az := Fin 9.8; gx := Fin 0; gy := Fin 0; gz := Fin 0 |}.

Definition nearlyFull : HARModelService :=
  {| sensorDataBuffer := repeat restingSample 24; lastHighMovementTime := 0;
     settings := Some {| detectionSensitivity := Fin 1 |};
     isMonitoring := true; lastActivity := IDLE; activityChangeCount := 0;
     sensorUnsubscribe := true; movementHistory := [];
     highMovementDuration := 0; lastMovementLevel := Fin 0;
     consecutiveStillReadings := 0; lastSuddenStopTime := 0;
     walkingSessionActive := false |}.

Definition quietModule : World :=
  {| listeners := [];
     latestActivityState :=
       {| name := CALIBRATING; confidence := Fin 0.5; isProtectionActive := true;
          anomaly := None |};
     delivered := [] |}.

(** Two subscribers: the first throws on every state, the second returns. *)
Definition throwing : Listener :=
  {| lid := 1; react := fun _ => Some "listener failed"%string |}.

Definition returning : Listener := {| lid := 2; react := fun _ => None |}.

Definition twoSubscribers : World :=
  {| listeners := [throwing; returning];
     latestActivityState := initialActivityState;
     delivered := [] |}.

(** The service with its settings loaded at the highest sensitivity, a module
    without subscribers, and both once [start()] has run. *)
Definition loaded : HARModelService :=
  _refreshSettings (Some {| detectionSensitivity := Fin 1 |}) constructed.

Definition noSubscribers : World :=
  {| listeners := []; latestActivityState := initialActivityState; delivered := [] |}.

Definition started : HARModelService * World := fst (start loaded noSubscribers).

(** [n] rates, alternately [a] and [b]. *)
Fixpoint alternate (n : nat) (a b : Q) : list Q :=
  match n with
  | O => []
  | S k => a :: alternate k b a
  end.

(** 8.5 seconds of a device turned back and forth, classified WALKING. *)
Definition briskTurning : list Q := alternate 85 0.19 1.1.

(** A walk of 8.5 seconds, then the device at rest: the 111th message is the
    one whose tick raises the anomaly. *)
Definition walkThenRest (n : nat) : list Delivery :=
  turning 1700000000000 (briskTurning ++ repeat 0 n).

(** A walk of 3.5 seconds, two seconds of rest, 1.2 seconds of walk again,
    then rest: the published activity leaves WALKING for six ticks in between. *)
Definition interruptedWalk : list Delivery :=
  turning 1700000000000
          (alternate 35 0.19 1.1 ++ repeat 0 20 ++ alternate 12 0.19 1.1
           ++ repeat 0 27).

(** Two walks of 8.5 seconds, each followed by rest.  The first stop raises
    the anomaly on the 111th message, at 1700000011000; the 411th message,
    at 1700000041000, is the same point of the second stop. *)
Definition twoStops : list Delivery :=
  turning 1700000000000
          (briskTurning ++ repeat 0 215 ++ briskTurning ++ repeat 0 26).

(** * The service in use *)

(** ** Calls on the service *)

(** The calls the application makes on the module and on the service object.
    A callback that calls back into the service is not represented. *)
Inductive Call : Type :=
| CallStart
| CallStop
| CallRefreshSettings (loaded : option Settings)
| CallPredictActivity (d : Delivery)
| CallSubscribe (callback : Listener)
| CallUnsubscribe (callback : Listener).

Section Calls.

Variable sqrtQ : Q -> Q.

(** One call; an exception of a callback leaves to the caller, the object and
    the module keep the state the call made. *)
Definition call (c : Call) (st : HARModelService * World) : HARModelService * World :=
  match c with
  | CallStart => fst (start (fst st) (snd st))
  | CallStop => fst (stop (fst st) (snd st))
  | CallRefreshSettings loaded => (_refreshSettings loaded (fst st), snd st)
  | CallPredictActivity d => deliver sqrtQ d st
  | CallSubscribe callback => (fst st, fst (subscribeToActivity callback (snd st)))
  | CallUnsubscribe callback => (fst st, unsubscribe callback (snd st))
  end.

Definition calls (cs : list Call) (st : HARModelService * World)
  : HARModelService * World :=
  fold_left (fun st c => call c st) cs st.

End Calls.

(** The object and the module once the module is evaluated. *)
Definition atImport : HARModelService * World := (constructed, noSubscribers).

(** A buffered message with six finite fields. *)
Definition finiteSample (d : Sample) : Prop :=
  isFinite (ax d) = true /\ isFinite (ay d) = true /\ isFinite (az d) = true /\
  isFinite (gx d) = true /\ isFinite (gy d) = true /\ isFinite (gz d) = true.

(** A finite number that is not negative. *)
Definition nonNegative (x : num) : Prop := exists q, reads x q /\ 0 <= q.

(** A number that is not [NaN] and not negative: finite and at least 0, or
    [Infinity]. *)
Definition atLeastZero (x : num) : Prop :=
  match x with
  | Fin q => 0 <= q
  | PInf => True
  | NInf | NaN => False
  end.

(** What every call keeps true of the object and the module. *)
Record consistent (st : HARModelService * World) : Prop := {
  window_bounded :
    (length (sensorDataBuffer (fst st)) <= SENSOR_DATA_BUFFER_SIZE)%nat;
  window_finite : Forall finiteSample (sensorDataBuffer (fst st));
  window_stopped : isMonitoring (fst st) = false -> sensorDataBuffer (fst st) = [];
  history_bounded : (length (movementHistory (fst st)) <= 100)%nat;
  history_scores : Forall nonNegative (movementHistory (fst st));
  session_long :
    walkingSessionActive (fst st) = true -> (30 < highMovementDuration (fst st))%nat;
  last_real : realLabel (lastActivity (fst st));
  flag_published :
    isProtectionActive (latestActivityState (snd st)) = isMonitoring (fst st);
  stopped_idle :
    isMonitoring (fst st) = false -> name (latestActivityState (snd st)) = IDLE;
  calibrating_half :
    name (latestActivityState (snd st)) = CALIBRATING ->
    confidence (latestActivityState (snd st)) = Fin 0.5;
  anomaly_resets :
    anomaly (latestActivityState (snd st)) <> None ->
    highMovementDuration (fst st) = 0%nat /\ walkingSessionActive (fst st) = false
}.

(** Settings with a sensitivity of the slider: a number from 0 to 1. *)
Definition sensible (theSettings : Settings) : Prop :=
  exists s, reads (detectionSensitivity theSettings) s /\ 0 <= s /\ s <= 1.

Definition sensibleCall (c : Call) : Prop :=
  match c with
  | CallRefreshSettings (Some theSettings) => sensible theSettings
  | _ => True
  end.

(** A published confidence from 0.3 to 1. *)
Definition confidenceInRange (s : ActivityState) : Prop :=
  exists c, reads (confidence s) c /\ 0.3 <= c /\ c <= 1.

(** The accepted messages of a feed, as the window buffers them. *)
Definition samplesOf (ds : list Delivery) : list Sample :=
  flat_map (fun d : Delivery =>
              match snd d with
              | Some sensorData =>
                  if acceptedb sensorData then [readSample sensorData] else []
              | None => []
              end) ds.

(** A message whose tick, if it classifies, cannot raise the anomaly. *)
Definition cannotFire (now : Z) (this : HARModelService) : Prop :=
  (now - lastSuddenStopTime this <= 30000)%Z \/
  (highMovementDuration this < 49)%nat \/
  (length (movementHistory this) < 49)%nat.

(** The activities in the order of the movement they stand for. *)
Definition rank (a : Activity) : nat :=
  match a with
  | IDLE | CALIBRATING => 0
  | STANDING => 1
  | WALKING => 2
  | RUNNING => 3
  end.

(** ** Consecutive ticks *)

(** The smoothing step over the raw classifications of consecutive ticks:
    the activities published. *)
Fixpoint smoothRun (lastActivity : Activity) (activityChangeCount : nat)
    (raws : list (Activity * num)) : list Activity :=
  match raws with
  | [] => []
  | raw :: rest =>
      let s := smoothActivity lastActivity activityChangeCount (fst raw) (snd raw) in
      smoothedActivity s :: smoothRun (nextLastActivity s) (nextChangeCount s) rest
  end.

(** The number of consecutive ticks a change of activity has to last before
    it is published. *)
Definition holdTicks (from to : Activity) : nat :=
  match from, to with
  | IDLE, STANDING | STANDING, IDLE => 3
  | STANDING, WALKING | WALKING, STANDING => 2
  | _, _ => 1
  end.

(** The session bookkeeping over the published activities of consecutive
    ticks, none of which raises the anomaly. *)
Definition sessionRun (activities : list Activity) (s : Session) : Session :=
  fold_left (fun s activity =>
               trackSession activity (duration s) (stillReadings s) (sessionActive s))
            activities s.

(** ** The settings store ([storageService.js]) *)

Module storageService.

(** A settings object: each key is present, with its value, or absent.  The
    values are those the settings screen saves, booleans and a finite number
    (what [JSON.parse] gives back for them); a stored item that is no such
    object is not represented. *)
Record SettingsObject : Type := {
  isAutoDetectionEnabled : option bool;
  sendSmsAlerts : option bool;
  sendEmailAlerts : option bool;
  shareLiveLocation : option bool;
  detectionSensitivity : option Q
}.

Definition defaultSettings : SettingsObject :=
  {| isAutoDetectionEnabled := Some false; sendSmsAlerts := Some true;
     sendEmailAlerts := Some true; shareLiveLocation := Some true;
     detectionSensitivity := None |}.

(** [{ ...a, ...b }]. *)
Definition spread (a b : SettingsObject) : SettingsObject :=
  let over {A : Type} (x y : option A) := match y with Some _ => y | None => x end in
  {| isAutoDetectionEnabled := over (isAutoDetectionEnabled a) (isAutoDetectionEnabled b);
     sendSmsAlerts := over (sendSmsAlerts a) (sendSmsAlerts b);
     sendEmailAlerts := over (sendEmailAlerts a) (sendEmailAlerts b);
     shareLiveLocation := over (shareLiveLocation a) (shareLiveLocation b);
     detectionSensitivity := over (detectionSensitivity a) (detectionSensitivity b) |}.

(** What [AsyncStorage.getItem] and [JSON.parse] make of the stored item:
    no item, an object, or a failure of one of the two. *)
Inductive Stored : Type :=
| NoItem
| Item (parsed : SettingsObject)
| Unreadable.

Definition loadSettings (stored : Stored) : Outcome SettingsObject :=
  match stored with
  | NoItem => Returned defaultSettings
  | Item parsed => Returned (spread defaultSettings parsed)
  | Unreadable => Thrown "Failed to load settings from storage."
  end.

End storageService.

(** The settings object as the engine reads it: an absent
    [detectionSensitivity] is [undefined], which [1 - sensitivity] takes for
    [NaN]. *)
Definition settingsRead (o : storageService.SettingsObject) : Settings :=
  {| detectionSensitivity :=
       match storageService.detectionSensitivity o with
       | Some value => Fin value
       | None => NaN
       end |}.

(** [_refreshSettings] on the stored item: a rejected [loadSettings] leaves
    the assignment undone. *)
Definition _refreshSettingsFrom (stored : storageService.Stored)
    (this : HARModelService) : HARModelService :=
  match storageService.loadSettings stored with
  | Returned o => _refreshSettings (Some (settingsRead o)) this
  | Thrown _ => this
  end.

(** ** The settings hook ([useSettings]) and the settings screen *)

Module useSettings.

Definition defaultSettings : storageService.SettingsObject :=
  {| storageService.isAutoDetectionEnabled := Some false;
     storageService.sendSmsAlerts := Some true;
     storageService.sendEmailAlerts := Some true;
     storageService.shareLiveLocation := Some true;
     storageService.detectionSensitivity := Some 0.5 |}.

(** The state of the hook, the argument of the call of [debouncedSave] that
    is still to run, and the item of the storage under the settings key. *)
Record Hook : Type := {
  settings : storageService.SettingsObject;
  isLoading : bool;
  error : option string;
  pending : option storageService.SettingsObject;
  item : option storageService.SettingsObject
}.

(** The hook when the screen mounts, over the item the storage holds. *)
Definition mount (item : option storageService.SettingsObject) : Hook :=
  {| settings := defaultSettings; isLoading := true; error := None;
     pending := None; item := item |}.

(** The effect on [settings], [isLoading] and [error]: once the loading is
    over without error, the settings go to [debouncedSave]. *)
Definition saveEffect (h : Hook) : Hook :=
  if negb (isLoading h) && match error h with None => true | Some _ => false end
  then {| settings := settings h; isLoading := isLoading h; error := error h;
          pending := Some (settings h); item := item h |}
  else h.

(** The calls [updateSetting(key, value)] of the settings screen. *)
Inductive Change : Type :=
| IsAutoDetectionEnabled (value : bool)
| DetectionSensitivity (value : Q)
| SendSmsAlerts (value : bool)
| SendEmailAlerts (value : bool)
| ShareLiveLocation (value : bool).

(** [{ ...prevSettings, [key]: value }]. *)
Definition updateSetting (c : Change) (prevSettings : storageService.SettingsObject)
  : storageService.SettingsObject :=
  let isAutoDetectionEnabled :=
    match c with
    | IsAutoDetectionEnabled value => Some value
    | _ => storageService.isAutoDetectionEnabled prevSettings
    end in
  let sendSmsAlerts :=
    match c with
    | SendSmsAlerts value => Some value
    | _ => storageService.sendSmsAlerts prevSettings
    end in
  let sendEmailAlerts :=
    match c with
    | SendEmailAlerts value => Some value
    | _ => storageService.sendEmailAlerts prevSettings
    end in
  let shareLiveLocation :=
    match c with
    | ShareLiveLocation value => Some value
    | _ => storageService.shareLiveLocation prevSettings
    end in
  let detectionSensitivity :=
    match c with
    | DetectionSensitivity value => Some value
    | _ => storageService.detectionSensitivity prevSettings
    end in
  {| storageService.isAutoDetectionEnabled := isAutoDetectionEnabled;
     storageService.sendSmsAlerts := sendSmsAlerts;
     storageService.sendEmailAlerts := sendEmailAlerts;
     storageService.shareLiveLocation := shareLiveLocation;
     storageService.detectionSensitivity := detectionSensitivity |}.

(** What a read of the storage makes of the item. *)
Definition read (fails : bool) (item : option storageService.SettingsObject)
  : storageService.Stored :=
  if fails then storageService.Unreadable
  else match item with
       | Some parsed => storageService.Item parsed
       | None => storageService.NoItem
       end.

(** What happens to the hook: [fetchSettings] starts (on mount, or on
    retry); the [loadSettings] it awaits settles, on the item the storage
    holds then; the screen calls [updateSetting]; the debounced
    [saveSettings] runs, the item becoming the object saved unless the write
    fails; [clearData] runs. *)
Inductive Event : Type :=
| FetchStarts
| FetchSettles (readFails : bool)
| Update (c : Change)
| DebounceRuns (writeFails : bool)
| ClearData (clearFails : bool).

Definition step (e : Event) (h : Hook) : Hook :=
  match e with
  | FetchStarts =>
      saveEffect {| settings := settings h; isLoading := true; error := None;
                    pending := pending h; item := item h |}
  | FetchSettles readFails =>
      match storageService.loadSettings (read readFails (item h)) with
      | Returned storedSettings =>
          saveEffect {| settings := storedSettings; isLoading := false;
                        error := error h; pending := pending h; item := item h |}
      | Thrown _ =>
          saveEffect {| settings := settings h; isLoading := false;
                        error := Some "We couldn't load your settings. Please try again."%string;
                        pending := pending h; item := item h |}
      end
  | Update c =>
      saveEffect {| settings := updateSetting c (settings h); isLoading := isLoading h;
                    error := error h; pending := pending h; item := item h |}
  | DebounceRuns writeFails =>
      match pending h with
      | Some newSettings =>
          {| settings := settings h; isLoading := isLoading h; error := error h;
             pending := None;
             item := if writeFails then item h else Some newSettings |}
      | None => h
      end
  | ClearData clearFails =>
      if clearFails then h
      else saveEffect {| settings := defaultSettings; isLoading := isLoading h;
                         error := error h; pending := pending h; item := None |}
  end.

Definition run (es : list Event) (h : Hook) : Hook :=
  fold_left (fun h e => step e h) es h.

(** The events that leave the sensitivity alone: all but a move of the
    slider and [clearData]. *)
Definition leavesSensitivity (e : Event) : Prop :=
  match e with
  | Update (DetectionSensitivity _) => False
  | ClearData _ => False
  | _ => True
  end.

End useSettings.

Module SettingsScreen.

Inductive Label : Type := Low | Medium | High.

(** [getSensitivityLabel(value)]; [None] for [undefined], which compares
    false both ways. *)
Definition getSensitivityLabel (value : option Q) : Label :=
  match value with
  | Some v =>
      match v ?= 0.25 with
      | Lt => Low
      | _ => match v ?= 0.75 with Gt => High | _ => Medium end
      end
  | None => Medium
  end.

End SettingsScreen.

(** An item, a pending save or a settings object without sensitivity. *)
Definition lacksSensitivity (o : option storageService.SettingsObject) : Prop :=
  match o with
  | Some settings => storageService.detectionSensitivity settings = None
  | None => True
  end.

(** ** The sensor feed ([sensorService.js]) *)

Module sensorService.

(** The reading an [expo-sensors] listener is called with. *)
Record Measurement : Type := { x : jsval; y : jsval; z : jsval }.

(** The module-level variables [lastAccel] and [lastGyro]. *)
Record Readings : Type := { lastAccel : Measurement; lastGyro : Measurement }.

Definition initial : Readings :=
  {| lastAccel := {| x := JNumber (Fin 0); y := JNumber (Fin 0); z := JNumber (Fin 0) |};
     lastGyro := {| x := JNumber (Fin 0); y := JNumber (Fin 0); z := JNumber (Fin 0) |} |}.

(** [{ ...lastAccel, ...lastGyro }]; the [svm] property, which the engine
    does not read, is left out. *)
Definition combinedData (accel gyro : Measurement) : SensorData :=
  fun field =>
    match field with
    | f_ax => x accel
    | f_ay => y accel
    | f_az => z accel
    | f_gx => x gyro
    | f_gy => y gyro
    | f_gz => z gyro
    end.

Inductive Event : Type :=
| AccelerometerData (accelerometerData : Measurement)
| GyroscopeData (gyroscopeData : Measurement).

(** The two listeners of [startSensorUpdates]: the variables after the event
    and the message sent to the subscribers, if one is.  The gyroscope
    listener is registered only if the gyroscope is available. *)
Definition onEvent (isGyroAvailable : bool) (e : Event) (s : Readings)
  : Readings * option SensorData :=
  match e with
  | AccelerometerData accelerometerData =>
      let s' := {| lastAccel := accelerometerData; lastGyro := lastGyro s |} in
      (s',
       if negb isGyroAvailable
       then Some (combinedData (lastAccel s')
                    {| x := JNumber (Fin 0); y := JNumber (Fin 0); z := JNumber (Fin 0) |})
       else None)
  | GyroscopeData gyroscopeData =>
      if isGyroAvailable then
        let s' := {| lastAccel := lastAccel s; lastGyro := gyroscopeData |} in
        (s', Some (combinedData (lastAccel s') (lastGyro s')))
      else (s, None)
  end.

(** The messages sent over a run of events. *)
Fixpoint messages (isGyroAvailable : bool) (es : list Event) (s : Readings)
  : list SensorData :=
  match es with
  | [] => []
  | e :: rest =>
      let (s', m) := onEvent isGyroAvailable e s in
      match m with
      | Some sensorData => sensorData :: messages isGyroAvailable rest s'
      | None => messages isGyroAvailable rest s'
      end
  end.

Definition finiteMeasurement (m : Measurement) : Prop :=
  exists a b c, x m = JNumber (Fin a) /\ y m = JNumber (Fin b) /\ z m = JNumber (Fin c).

Definition finiteEvent (e : Event) : Prop :=
  match e with
  | AccelerometerData m => finiteMeasurement m
  | GyroscopeData m => finiteMeasurement m
  end.

(** The events that send a message. *)
Definition sends (isGyroAvailable : bool) (e : Event) : bool :=
  match e with
  | AccelerometerData _ => negb isGyroAvailable
  | GyroscopeData _ => isGyroAvailable
  end.

End sensorService.

(** ** The activity screen ([ActivityDetectionScreen]) *)

Module ActivityDetectionScreen.

Record Entry : Type := {
  entryName : Activity;
  entryConfidence : num;
  timestamp : Z
}.

(** The state and the ref [handleActivityUpdate] writes. *)
Record Screen : Type := {
  currentActivity : ActivityState;
  protectionActive : bool;
  recentActivities : list Entry;
  lastActivityRef : Activity
}.

(** The screen once mounted.  The initial [currentActivity] has a name and a
    confidence only; the two other fields are given the values of the initial
    published state. *)
Definition mounted : Screen :=
  {| currentActivity := {| name := IDLE; confidence := Fin 1;
                           isProtectionActive := false; anomaly := None |};
     protectionActive := false;
     recentActivities := [];
     lastActivityRef := IDLE |}.

(** [handleActivityUpdate(newActivity)]; [date] is the [new Date()] of the
    entry. *)
Definition handleActivityUpdate (date : Z) (newActivity : ActivityState) (s : Screen)
  : Screen :=
  {| currentActivity := newActivity;
     protectionActive := isProtectionActive newActivity;
     recentActivities :=
       if negb (Activity_eqb (name newActivity) (lastActivityRef s)) &&
          negb (Activity_eqb (name newActivity) CALIBRATING)
       then
         let newEntry := {| entryName := name newActivity;
                            entryConfidence := confidence newActivity;
                            timestamp := date |} in
         slice 0 (Some 5%Z) (newEntry :: recentActivities s)
       else recentActivities s;
     lastActivityRef := name newActivity |}.

Definition updates (us : list (Z * ActivityState)) (s : Screen) : Screen :=
  fold_left (fun s u => handleActivityUpdate (fst u) (snd u) s) us s.

End ActivityDetectionScreen.

(** * Proofs *)

(** ** Arithmetic of finite numbers *)

Lemma reads_Fin (q : Q) : reads (Fin q) q.
Proof. unfold reads. reflexivity. Qed.

Lemma reads_fin (q r : Q) : q == r -> reads (fin q) r.
Proof. intros H. unfold reads, fin. rewrite Qred_correct. exact H. Qed.

Lemma reads_finite (x : num) (q : Q) : reads x q -> isFinite x = true.
Proof. destruct x; cbn; intros H; try contradiction; reflexivity. Qed.

Lemma finite_reads (x : num) : isFinite x = true -> reads x (valueOf x).
Proof. destruct x; cbn; intros H; try discriminate; reflexivity. Qed.

Lemma reads_valueOf (x : num) (q : Q) : reads x q -> valueOf x == q.
Proof. destruct x; cbn [reads valueOf]; intros H; try contradiction; exact H. Qed.

Lemma reads_unique (x : num) (q r : Q) : reads x q -> reads x r -> q == r.
Proof.
  destruct x; cbn [reads]; intros H1 H2; try contradiction.
  rewrite <- H1. exact H2.
Qed.

Lemma reads_compat (x : num) (q r : Q) : reads x q -> q == r -> reads x r.
Proof.
  destruct x; cbn [reads]; intros H1 H2; try contradiction.
  rewrite H1. exact H2.
Qed.

Lemma reads_add (x y : num) (a b : Q) :
  reads x a -> reads y b -> reads (add x y) (a + b).
Proof.
  destruct x, y; cbn [reads]; intros Hx Hy; try contradiction.
  apply reads_fin. rewrite Hx, Hy. reflexivity.
Qed.

Lemma reads_sub (x y : num) (a b : Q) :
  reads x a -> reads y b -> reads (sub x y) (a - b).
Proof.
  destruct x, y; cbn [reads]; intros Hx Hy; try contradiction.
  apply reads_fin. rewrite Hx, Hy. reflexivity.
Qed.

Lemma reads_mul (x y : num) (a b : Q) :
  reads x a -> reads y b -> reads (mul x y) (a * b).
Proof.
  destruct x, y; cbn [reads]; intros Hx Hy; try contradiction.
  apply reads_fin. rewrite Hx, Hy. reflexivity.
Qed.

Lemma reads_div (x y : num) (a b : Q) :
  reads x a -> reads y b -> ~ b == 0 -> reads (div x y) (a / b).
Proof.
  destruct x as [p| | |], y as [r| | |]; cbn [reads]; intros Hx Hy Hb;
    try contradiction.
  unfold div. destruct (Qeq_bool r 0) eqn:E.
  - apply Qeq_bool_iff in E. rewrite Hy in E. contradiction.
  - apply reads_fin. rewrite Hx, Hy. reflexivity.
Qed.


Lemma lt_reads (x y : num) (a b : Q) :
  reads x a -> reads y b -> (lt x y = true <-> a < b).
Proof.
  destruct x as [p| | |], y as [r| | |]; cbn [reads lt]; intros Hx Hy;
    try contradiction.
  rewrite <- Hx, <- Hy. rewrite Qlt_alt.
  destruct (p ?= r); split; intros H; try discriminate; reflexivity.
Qed.

Lemma lt_reads_false (x y : num) (a b : Q) :
  reads x a -> reads y b -> (lt x y = false <-> b <= a).
Proof.
  intros Hx Hy. pose proof (lt_reads x y a b Hx Hy) as H.
  destruct (lt x y); split; intros H1; try reflexivity; try discriminate.
  - exfalso. apply (Qlt_not_le a b); [apply H; reflexivity | exact H1].
  - apply Qnot_lt_le. intros Hlt. apply H in Hlt. discriminate.
Qed.

Lemma reads_min (x y : num) (a b : Q) :
  reads x a -> reads y b -> reads (Math_min x y) (Qmin a b).
Proof.
  intros Hx Hy.
  assert (Hd : Math_min x y = if lt y x then y else x)
    by (destruct x, y; cbn [reads] in *; try contradiction; reflexivity).
  rewrite Hd. destruct (lt y x) eqn:E.
  - apply (lt_reads y x b a Hy Hx) in E.
    apply (reads_compat y b); [exact Hy|].
    symmetry. apply Q.min_r. apply Qlt_le_weak. exact E.
  - apply (lt_reads_false y x b a Hy Hx) in E.
    apply (reads_compat x a); [exact Hx|].
    symmetry. apply Q.min_l. exact E.
Qed.

Lemma reads_max (x y : num) (a b : Q) :
  reads x a -> reads y b -> reads (Math_max x y) (Qmax a b).
Proof.
  intros Hx Hy.
  assert (Hd : Math_max x y = if lt x y then y else x)
    by (destruct x, y; cbn [reads] in *; try contradiction; reflexivity).
  rewrite Hd. destruct (lt x y) eqn:E.
  - apply (lt_reads x y a b Hx Hy) in E.
    apply (reads_compat y b); [exact Hy|].
    symmetry. apply Q.max_r. apply Qlt_le_weak. exact E.
  - apply (lt_reads_false x y a b Hx Hy) in E.
    apply (reads_compat x a); [exact Hx|].
    symmetry. apply Q.max_l. exact E.
Qed.

Lemma le_reads (x y : num) (a b : Q) :
  reads x a -> reads y b -> (le x y = true <-> a <= b).
Proof.
  intros Hx Hy. unfold le. rewrite orb_true_iff.
  rewrite (lt_reads x y a b Hx Hy).
  destruct x as [p| | |], y as [r| | |]; cbn [reads num_eqb] in *;
    try contradiction.
  rewrite Qeq_bool_iff, Hx, Hy. split.
  - intros [H|H]; [apply Qlt_le_weak; exact H | rewrite H; apply Qle_refl].
  - intros H. apply Qle_lteq in H. exact H.
Qed.

Lemma le_reads_false (x y : num) (a b : Q) :
  reads x a -> reads y b -> (le x y = false <-> b < a).
Proof.
  intros Hx Hy. pose proof (le_reads x y a b Hx Hy) as H.
  destruct (le x y); split; intros H1; try reflexivity; try discriminate.
  - exfalso. apply (Qlt_not_le b a H1). apply H. reflexivity.
  - apply Qnot_le_lt. intros Hle. apply H in Hle. discriminate.
Qed.

Lemma guard_reads (c d : num) (q : Q) :
  reads c q -> (if isFinite c then c else d) = c.
Proof. intros H. rewrite (reads_finite c q H). reflexivity. Qed.

(** ** Thresholds *)

Lemma adjustThresholds_reads (s : Q) :
  thresholdsRead (adjustThresholds (Fin s))
    (scaled 0.5 0.6 s) (scaled 2 0.6 s) (scaled 8 0.4 s) (scaled 20 0.3 s).
Proof.
  unfold thresholdsRead, adjustThresholds, scaled; cbn [MOVEMENT_THRESHOLD_IDLE
    MOVEMENT_THRESHOLD_STANDING MOVEMENT_THRESHOLD_WALKING MOVEMENT_THRESHOLD_RUNNING].
  repeat split;
    (apply reads_mul; [apply reads_Fin |];
     apply reads_add; [apply reads_Fin |];
     apply reads_mul; [| apply reads_Fin];
     apply reads_sub; apply reads_Fin).
Qed.

Lemma scaled_antitone (base k s1 s2 : Q) :
  0 <= base -> 0 <= k -> s1 <= s2 -> scaled base k s2 <= scaled base k s1.
Proof.
  unfold scaled. intros Hb Hk Hs.
  assert (H1 : 0 <= (s2 - s1) * k) by (apply Qmult_le_0_compat; lra).
  assert (H2 : 0 <= base * ((s2 - s1) * k)) by (apply Qmult_le_0_compat; assumption).
  lra.
Qed.

(** ** The five branches of [classify] on finite thresholds *)

Section Classify.

Variables (T : Thresholds) (ti ts tw tr : Q).
Hypothesis HT : thresholdsRead T ti ts tw tr.

Ltac thresholds := pose proof HT as (Hi & Hs & Hw & Hr).

Lemma gt_threshold (x : Q) (t : num) (q : Q) :
  reads t q -> (gt (Fin x) t = true <-> q < x).
Proof. intros H. unfold gt. apply lt_reads; [exact H | apply reads_Fin]. Qed.

Lemma gt_threshold_false (x : Q) (t : num) (q : Q) :
  reads t q -> (gt (Fin x) t = false <-> x <= q).
Proof. intros H. unfold gt. apply lt_reads_false; [exact H | apply reads_Fin]. Qed.

Lemma bracket_running (x : Q) : tr < x -> bracket T (Fin x) = BRunning.
Proof.
  thresholds.
  intros H. unfold bracket.
  rewrite (proj2 (gt_threshold x _ tr Hr) H). reflexivity.
Qed.

Lemma bracket_walking (x : Q) : x <= tr -> tw < x -> bracket T (Fin x) = BWalking.
Proof.
  thresholds.
  intros H1 H2. unfold bracket.
  rewrite (proj2 (gt_threshold_false x _ tr Hr) H1).
  rewrite (proj2 (gt_threshold x _ tw Hw) H2). reflexivity.
Qed.

Lemma bracket_standing (x : Q) :
  x <= tr -> x <= tw -> ts < x -> bracket T (Fin x) = BStanding.
Proof.
  thresholds.
  intros H1 H2 H3. unfold bracket.
  rewrite (proj2 (gt_threshold_false x _ tr Hr) H1).
  rewrite (proj2 (gt_threshold_false x _ tw Hw) H2).
  rewrite (proj2 (gt_threshold x _ ts Hs) H3). reflexivity.
Qed.

Lemma bracket_light (x : Q) :
  x <= tr -> x <= tw -> x <= ts -> ti < x -> bracket T (Fin x) = BLight.
Proof.
  thresholds.
  intros H1 H2 H3 H4. unfold bracket.
  rewrite (proj2 (gt_threshold_false x _ tr Hr) H1).
  rewrite (proj2 (gt_threshold_false x _ tw Hw) H2).
  rewrite (proj2 (gt_threshold_false x _ ts Hs) H3).
  rewrite (proj2 (gt_threshold x _ ti Hi) H4). reflexivity.
Qed.

Lemma bracket_idle (x : Q) :
  x <= tr -> x <= tw -> x <= ts -> x <= ti -> bracket T (Fin x) = BIdle.
Proof.
  thresholds.
  intros H1 H2 H3 H4. unfold bracket.
  rewrite (proj2 (gt_threshold_false x _ tr Hr) H1).
  rewrite (proj2 (gt_threshold_false x _ tw Hw) H2).
  rewrite (proj2 (gt_threshold_false x _ ts Hs) H3).
  rewrite (proj2 (gt_threshold_false x _ ti Hi) H4). reflexivity.
Qed.

Lemma classify_running (x : Q) :
  tr < x -> 0 < tr ->
  exists c, classify T (Fin x) = (RUNNING, c) /\
            reads c (Qmin 0.95 (0.75 + (x - tr) / tr * 0.2)).
Proof.
  thresholds.
  intros H Hpos. unfold classify.
  rewrite (proj2 (gt_threshold x _ tr Hr) H). cbv zeta.
  eexists; split; [reflexivity|].
  assert (Hc : reads (add (Fin 0.75)
                        (mul (div (sub (Fin x) (MOVEMENT_THRESHOLD_RUNNING T))
                                  (MOVEMENT_THRESHOLD_RUNNING T)) (Fin 0.2)))
                     (0.75 + (x - tr) / tr * 0.2)).
  { apply reads_add; [apply reads_Fin|].
    apply reads_mul; [|apply reads_Fin].
    apply reads_div; [apply reads_sub; [apply reads_Fin|exact Hr] | exact Hr |].
    intros E. rewrite E in Hpos. apply (Qlt_irrefl 0 Hpos). }
  rewrite (guard_reads _ _ _ Hc).
  apply reads_min; [apply reads_Fin | exact Hc].
Qed.

(** A branch between two thresholds [lo < hi]: the confidence rises
    linearly from [base] by [slope], capped at [cap]. *)
Lemma progress_reads (x lo hi : Q) (tlo thi : num) (base slope : Q) :
  reads tlo lo -> reads thi hi -> lo < hi ->
  let range := sub thi tlo in
  let progress := if gt range (Fin 0) then div (sub (Fin x) tlo) range else Fin 0 in
  reads (add (Fin base) (mul progress (Fin slope)))
        (base + (x - lo) / (hi - lo) * slope).
Proof.
  intros Hlo Hhi Hlt range progress.
  assert (Hrange : reads range (hi - lo)) by (apply reads_sub; assumption).
  assert (Hgt : gt range (Fin 0) = true).
  { unfold gt. apply (lt_reads _ _ 0 (hi - lo) (reads_Fin 0) Hrange). lra. }
  unfold progress. rewrite Hgt.
  apply reads_add; [apply reads_Fin|].
  apply reads_mul; [|apply reads_Fin].
  apply reads_div; [apply reads_sub; [apply reads_Fin|exact Hlo] | exact Hrange |].
  intros E. lra.
Qed.

Lemma classify_walking (x : Q) :
  x <= tr -> tw < x -> tw < tr ->
  exists c, classify T (Fin x) = (WALKING, c) /\
            reads c (Qmin 0.92 (0.65 + (x - tw) / (tr - tw) * 0.27)).
Proof.
  thresholds.
  intros H1 H2 Hlt. unfold classify.
  rewrite (proj2 (gt_threshold_false x _ tr Hr) H1).
  rewrite (proj2 (gt_threshold x _ tw Hw) H2). cbv zeta.
  eexists; split; [reflexivity|].
  pose proof (progress_reads x tw tr _ _ 0.65 0.27 Hw Hr Hlt) as Hc.
  cbv zeta in Hc. rewrite (guard_reads _ _ _ Hc).
  apply reads_min; [apply reads_Fin | exact Hc].
Qed.

Lemma classify_standing (x : Q) :
  x <= tr -> x <= tw -> ts < x -> ts < tw ->
  exists c, classify T (Fin x) = (STANDING, c) /\
            reads c (Qmin 0.88 (0.55 + (x - ts) / (tw - ts) * 0.33)).
Proof.
  thresholds.
  intros H1 H2 H3 Hlt. unfold classify.
  rewrite (proj2 (gt_threshold_false x _ tr Hr) H1).
  rewrite (proj2 (gt_threshold_false x _ tw Hw) H2).
  rewrite (proj2 (gt_threshold x _ ts Hs) H3). cbv zeta.
  eexists; split; [reflexivity|].
  pose proof (progress_reads x ts tw _ _ 0.55 0.33 Hs Hw Hlt) as Hc.
  cbv zeta in Hc. rewrite (guard_reads _ _ _ Hc).
  apply reads_min; [apply reads_Fin | exact Hc].
Qed.

Lemma classify_light (x : Q) :
  x <= tr -> x <= tw -> x <= ts -> ti < x -> ti < ts ->
  exists c, classify T (Fin x) = (STANDING, c) /\
            reads c (Qmin 0.82 (0.45 + (x - ti) / (ts - ti) * 0.37)).
Proof.
  thresholds.
  intros H1 H2 H3 H4 Hlt. unfold classify.
  rewrite (proj2 (gt_threshold_false x _ tr Hr) H1).
  rewrite (proj2 (gt_threshold_false x _ tw Hw) H2).
  rewrite (proj2 (gt_threshold_false x _ ts Hs) H3).
  rewrite (proj2 (gt_threshold x _ ti Hi) H4). cbv zeta.
  eexists; split; [reflexivity|].
  pose proof (progress_reads x ti ts _ _ 0.45 0.37 Hi Hs Hlt) as Hc.
  cbv zeta in Hc. rewrite (guard_reads _ _ _ Hc).
  apply reads_min; [apply reads_Fin | exact Hc].
Qed.

Lemma classify_idle (x : Q) :
  x <= tr -> x <= tw -> x <= ts -> x <= ti -> 0 < ti ->
  exists c, classify T (Fin x) = (IDLE, c) /\
            reads c (Qmax 0.7 (0.95 - Qmin 1 (x / ti) * 0.25)).
Proof.
  thresholds.
  intros H1 H2 H3 H4 Hpos. unfold classify.
  rewrite (proj2 (gt_threshold_false x _ tr Hr) H1).
  rewrite (proj2 (gt_threshold_false x _ tw Hw) H2).
  rewrite (proj2 (gt_threshold_false x _ ts Hs) H3).
  rewrite (proj2 (gt_threshold_false x _ ti Hi) H4). cbv zeta.
  eexists; split; [reflexivity|].
  assert (Hgt : gt (MOVEMENT_THRESHOLD_IDLE T) (Fin 0) = true).
  { unfold gt. apply (lt_reads _ _ 0 ti (reads_Fin 0) Hi). exact Hpos. }
  rewrite Hgt.
  assert (Hc : reads (sub (Fin 0.95)
                        (mul (Math_min (Fin 1)
                                (div (Fin x) (MOVEMENT_THRESHOLD_IDLE T))) (Fin 0.25)))
                     (0.95 - Qmin 1 (x / ti) * 0.25)).
  { apply reads_sub; [apply reads_Fin|].
    apply reads_mul; [|apply reads_Fin].
    apply reads_min; [apply reads_Fin|].
    apply reads_div; [apply reads_Fin | exact Hi |].
    intros E. rewrite E in Hpos. apply (Qlt_irrefl 0 Hpos). }
  rewrite (guard_reads _ _ _ Hc).
  apply reads_max; [apply reads_Fin | exact Hc].
Qed.

End Classify.

(** ** Confidence within a bracket *)

Lemma classify_bracket (T : Thresholds) (ti ts tw tr x : Q) :
  thresholdsRead T ti ts tw tr ->
  0 < ti -> ti < ts -> ts < tw -> tw < tr ->
  exists c,
    classify T (Fin x) = (labelOf (bracket T (Fin x)), c) /\
    reads c (confidenceOf ti ts tw tr (bracket T (Fin x)) x).
Proof.
  intros HT H0 H1 H2 H3.
  destruct (Qlt_le_dec tr x) as [Hr|Hr].
  { rewrite (bracket_running T ti ts tw tr HT x Hr).
    apply (classify_running T ti ts tw tr HT x Hr). lra. }
  destruct (Qlt_le_dec tw x) as [Hw|Hw].
  { rewrite (bracket_walking T ti ts tw tr HT x Hr Hw).
    apply (classify_walking T ti ts tw tr HT x Hr Hw H3). }
  destruct (Qlt_le_dec ts x) as [Hs|Hs].
  { rewrite (bracket_standing T ti ts tw tr HT x Hr Hw Hs).
    apply (classify_standing T ti ts tw tr HT x Hr Hw Hs H2). }
  destruct (Qlt_le_dec ti x) as [Hi|Hi].
  { rewrite (bracket_light T ti ts tw tr HT x Hr Hw Hs Hi).
    apply (classify_light T ti ts tw tr HT x Hr Hw Hs Hi H1). }
  rewrite (bracket_idle T ti ts tw tr HT x Hr Hw Hs Hi).
  apply (classify_idle T ti ts tw tr HT x Hr Hw Hs Hi H0).
Qed.

Lemma Qdiv_le_mono (a b c : Q) : 0 < c -> a <= b -> a / c <= b / c.
Proof.
  intros Hc Hab. unfold Qdiv. apply Qmult_le_compat_r; [exact Hab|].
  apply Qlt_le_weak. apply Qinv_lt_0_compat. exact Hc.
Qed.

Lemma rising_mono (base slope lo d a b : Q) :
  0 < d -> 0 <= slope -> a <= b ->
  base + (a - lo) / d * slope <= base + (b - lo) / d * slope.
Proof.
  intros Hd Hs Hab.
  assert (H : (a - lo) / d <= (b - lo) / d) by (apply Qdiv_le_mono; [exact Hd | lra]).
  assert (H' : (a - lo) / d * slope <= (b - lo) / d * slope)
    by (apply Qmult_le_compat_r; assumption).
  lra.
Qed.

(** In the four brackets above idle the confidence does not fall as the
    score rises; in the idle bracket it does not rise. *)
Lemma confidenceOf_monotone (ti ts tw tr : Q) (b : Bracket) (x y : Q) :
  0 < ti -> ti < ts -> ts < tw -> tw < tr -> x <= y ->
  match b with
  | BIdle => confidenceOf ti ts tw tr b y <= confidenceOf ti ts tw tr b x
  | _ => confidenceOf ti ts tw tr b x <= confidenceOf ti ts tw tr b y
  end.
Proof.
  intros H0 H1 H2 H3 Hxy. destruct b; cbn [confidenceOf].
  - apply Q.max_le_compat_l.
    assert (H : Qmin 1 (x / ti) <= Qmin 1 (y / ti))
      by (apply Q.min_le_compat_l; apply Qdiv_le_mono; assumption).
    assert (H' : Qmin 1 (x / ti) * 0.25 <= Qmin 1 (y / ti) * 0.25)
      by (apply Qmult_le_compat_r; [exact H | lra]).
    lra.
  - apply Q.min_le_compat_l. apply rising_mono; lra.
  - apply Q.min_le_compat_l. apply rising_mono; lra.
  - apply Q.min_le_compat_l. apply rising_mono; lra.
  - apply Q.min_le_compat_l. apply rising_mono; lra.
Qed.

Lemma scaled_bounds (s : Q) :
  0 <= s -> s <= 1 ->
  0 < scaled 0.5 0.6 s /\ scaled 0.5 0.6 s < scaled 2 0.6 s /\
  scaled 2 0.6 s < scaled 8 0.4 s /\ scaled 8 0.4 s < scaled 20 0.3 s.
Proof. unfold scaled. intros H0 H1. repeat split; lra. Qed.

(** C6.  Each of the four thresholds of a tick is its base value times
    [1 + (1 - sensitivity) * k], with k = 0.6 for idle and standing, 0.4 for
    walking and 0.3 for running; and of two sensitivities the lower one gives
    thresholds at least as high. *)
Theorem C6_thresholds_scaling (s1 s2 : Q) :
  0 <= s1 -> s1 <= s2 -> s2 <= 1 ->
  let T1 := adjustThresholds (Fin s1) in
  let T2 := adjustThresholds (Fin s2) in
  (reads (MOVEMENT_THRESHOLD_IDLE T1) (0.5 * (1 + (1 - s1) * 0.6)) /\
   reads (MOVEMENT_THRESHOLD_STANDING T1) (2 * (1 + (1 - s1) * 0.6)) /\
   reads (MOVEMENT_THRESHOLD_WALKING T1) (8 * (1 + (1 - s1) * 0.4)) /\
   reads (MOVEMENT_THRESHOLD_RUNNING T1) (20 * (1 + (1 - s1) * 0.3))) /\
  (reads (MOVEMENT_THRESHOLD_IDLE T2) (0.5 * (1 + (1 - s2) * 0.6)) /\
   reads (MOVEMENT_THRESHOLD_STANDING T2) (2 * (1 + (1 - s2) * 0.6)) /\
   reads (MOVEMENT_THRESHOLD_WALKING T2) (8 * (1 + (1 - s2) * 0.4)) /\
   reads (MOVEMENT_THRESHOLD_RUNNING T2) (20 * (1 + (1 - s2) * 0.3))) /\
  le (MOVEMENT_THRESHOLD_IDLE T2) (MOVEMENT_THRESHOLD_IDLE T1) = true /\
  le (MOVEMENT_THRESHOLD_STANDING T2) (MOVEMENT_THRESHOLD_STANDING T1) = true /\
  le (MOVEMENT_THRESHOLD_WALKING T2) (MOVEMENT_THRESHOLD_WALKING T1) = true /\
  le (MOVEMENT_THRESHOLD_RUNNING T2) (MOVEMENT_THRESHOLD_RUNNING T1) = true.
Proof.
  intros H0 H12 H1 T1 T2.
  pose proof (adjustThresholds_reads s1) as R1.
  pose proof (adjustThresholds_reads s2) as R2.
  fold T1 in R1. fold T2 in R2.
  split; [exact R1|]. split; [exact R2|].
  destruct R1 as (I1 & S1 & W1 & U1), R2 as (I2 & S2 & W2 & U2).
  repeat split.
  - apply (le_reads _ _ _ _ I2 I1). apply scaled_antitone; lra.
  - apply (le_reads _ _ _ _ S2 S1). apply scaled_antitone; lra.
  - apply (le_reads _ _ _ _ W2 W1). apply scaled_antitone; lra.
  - apply (le_reads _ _ _ _ U2 U1). apply scaled_antitone; lra.
Qed.

Lemma C6_thresholds_scaling_witness :
  le (MOVEMENT_THRESHOLD_RUNNING (adjustThresholds (Fin 1)))
     (MOVEMENT_THRESHOLD_RUNNING (adjustThresholds (Fin 0.5))) = true.
Proof.
  apply (C6_thresholds_scaling 0.5 1); unfold Qle; simpl; lia.
Defined.

(** C5, as the code has it.  For a sensitivity in [0,1] and two scores
    [a < b] of the same bracket (the same branch of the classification), the
    label is the same and the confidence of [a] is at most that of [b] in
    the running, walking and the two standing brackets; in the idle bracket
    the confidence of [b] is at most that of [a]. *)
Theorem C5_confidence_monotone_in_bracket (s a b : Q) :
  0 <= s -> s <= 1 -> a < b ->
  let T := adjustThresholds (Fin s) in
  bracket T (Fin a) = bracket T (Fin b) ->
  fst (classify T (Fin a)) = fst (classify T (Fin b)) /\
  match bracket T (Fin a) with
  | BIdle => le (snd (classify T (Fin b))) (snd (classify T (Fin a))) = true
  | _ => le (snd (classify T (Fin a))) (snd (classify T (Fin b))) = true
  end.
Proof.
  intros Hs0 Hs1 Hab T Hbr.
  pose proof (adjustThresholds_reads s) as HT. fold T in HT.
  destruct (scaled_bounds s Hs0 Hs1) as (B0 & B1 & B2 & B3).
  destruct (classify_bracket T _ _ _ _ a HT B0 B1 B2 B3) as (ca & Ea & Ra).
  destruct (classify_bracket T _ _ _ _ b HT B0 B1 B2 B3) as (cb & Eb & Rb).
  rewrite Ea, Eb. cbn [fst snd]. rewrite <- Hbr in *.
  split; [reflexivity|].
  pose proof (confidenceOf_monotone _ _ _ _ (bracket T (Fin a)) a b
                B0 B1 B2 B3 (Qlt_le_weak _ _ Hab)) as M.
  destruct (bracket T (Fin a));
    first [ apply (le_reads _ _ _ _ Ra Rb); exact M
          | apply (le_reads _ _ _ _ Rb Ra); exact M ].
Qed.

Lemma C5_confidence_monotone_in_bracket_witness :
  le (snd (classify (adjustThresholds (Fin 1)) (Fin 9)))
     (snd (classify (adjustThresholds (Fin 1)) (Fin 10))) = true.
Proof.
  assert (H0 : 0 <= 1) by (unfold Qle; simpl; lia).
  assert (H1 : 1 <= 1) by (unfold Qle; simpl; lia).
  assert (H2 : 9 < 10) by (unfold Qlt; simpl; lia).
  exact (proj2 (C5_confidence_monotone_in_bracket 1 9 10 H0 H1 H2 eq_refl)).
Defined.

(** C5 as the spec words it fails: two scores with the label STANDING, one
    in each of its two brackets, and two scores of the idle bracket, have
    their confidences in the opposite order. *)
Lemma C5_counterexample :
  let T := adjustThresholds (Fin 1) in
  (lt (Fin 2) (Fin 3) = true /\
   fst (classify T (Fin 2)) = STANDING /\ fst (classify T (Fin 3)) = STANDING /\
   num_eqb (snd (classify T (Fin 2))) (Fin 0.82) = true /\
   le (snd (classify T (Fin 2))) (snd (classify T (Fin 3))) = false) /\
  (lt (Fin 0) (Fin 0.5) = true /\
   fst (classify T (Fin 0)) = IDLE /\ fst (classify T (Fin 0.5)) = IDLE /\
   num_eqb (snd (classify T (Fin 0))) (Fin 0.95) = true /\
   num_eqb (snd (classify T (Fin 0.5))) (Fin 0.7) = true /\
   le (snd (classify T (Fin 0))) (snd (classify T (Fin 0.5))) = false).
Proof. vm_compute. repeat split; reflexivity. Qed.

(** ** The tick, step by step *)

Lemma _calculateVariance_finite (arr : list num) :
  isFinite (_calculateVariance arr) = true.
Proof.
  unfold _calculateVariance.
  destruct (length arr <? 2)%nat; [reflexivity|].
  destruct (length (filter isFinite arr) <? 2)%nat; [reflexivity|].
  cbv zeta.
  match goal with |- isFinite (if isFinite ?v then _ else _) = true =>
    destruct (isFinite v) eqn:E; [exact E | reflexivity] end.
Qed.

Section TickFacts.

Variable sqrtQ : Q -> Q.

Lemma totalMovement_finite (buffer : list Sample) :
  isFinite (totalMovement sqrtQ buffer) = true.
Proof.
  unfold totalMovement. cbv zeta.
  rewrite !_calculateVariance_finite.
  pose proof (_calculateVariance_finite (accelWithoutGravity sqrtQ buffer)) as Ha.
  pose proof (_calculateVariance_finite (gyroMagnitudes sqrtQ buffer)) as Hg.
  destruct (_calculateVariance (accelWithoutGravity sqrtQ buffer)); try discriminate.
  destruct (_calculateVariance (gyroMagnitudes sqrtQ buffer)); try discriminate.
  reflexivity.
Qed.

Lemma latest_notifyListeners (w : World) :
  latestActivityState (fst (notifyListeners w)) = latestActivityState w.
Proof.
  unfold notifyListeners.
  destruct (notifyLoop (listeners w) (latestActivityState w) (delivered w)).
  reflexivity.
Qed.

Lemma latest_afterNotify (r : World * option string) :
  latestActivityState (fst (afterNotify r)) = latestActivityState (fst r).
Proof. unfold afterNotify. destruct (snd r); reflexivity. Qed.

Lemma classifyWindow_eq (now nowFired : Z) (theSettings : Settings)
    (buffer : list Sample) (this : HARModelService) (w : World) :
  classifyWindow sqrtQ now nowFired theSettings buffer this w =
  result (serviceOf sqrtQ now nowFired theSettings buffer this)
         (afterNotify (notifyListeners
                         (publish w (publishedOf sqrtQ now theSettings buffer this)))).
Proof.
  unfold classifyWindow, serviceOf, publishedOf, firedOf, sessionOf, historyOf,
    smoothedOf, rawOf, thresholdsOf.
  cbv zeta. rewrite (totalMovement_finite buffer). reflexivity.
Qed.

Lemma classifyWindow_service (now nowFired : Z) (theSettings : Settings)
    (buffer : list Sample) (this : HARModelService) (w : World) :
  fst (fst (classifyWindow sqrtQ now nowFired theSettings buffer this w)) =
  serviceOf sqrtQ now nowFired theSettings buffer this.
Proof. rewrite classifyWindow_eq. reflexivity. Qed.

Lemma classifyWindow_published (now nowFired : Z) (theSettings : Settings)
    (buffer : list Sample) (this : HARModelService) (w : World) :
  latestActivityState
    (snd (fst (classifyWindow sqrtQ now nowFired theSettings buffer this w))) =
  publishedOf sqrtQ now theSettings buffer this.
Proof.
  rewrite classifyWindow_eq. unfold result. cbn [fst snd].
  rewrite latest_afterNotify, latest_notifyListeners. reflexivity.
Qed.

Lemma predictActivity_classifies (now nowFired : Z) (sensorData : SensorData)
    (this : HARModelService) (w : World) (theSettings : Settings) :
  classifies sensorData this -> settings this = Some theSettings ->
  predictActivity sqrtQ now nowFired (Some sensorData) this w =
  classifyWindow sqrtQ now nowFired theSettings
    (pushSample (sensorDataBuffer this) (readSample sensorData)) this w.
Proof.
  intros (Ha & Hm & _ & Hfull) Hs. unfold predictActivity.
  unfold accepted in Ha. rewrite Ha, Hs, Hm.
  destruct (Nat.ltb_spec
              (length (pushSample (sensorDataBuffer this) (readSample sensorData)))
              SENSOR_DATA_BUFFER_SIZE) as [Hlt|Hge]; [lia | reflexivity].
Qed.

End TickFacts.

(** ** Rejected messages *)

Lemma invalidField_rejects (sensorData : SensorData) (field : Field) :
  invalidField sensorData field = true ->
  existsb (invalidField sensorData) requiredFields = true.
Proof.
  intros H. apply existsb_exists. exists field. split; [|exact H].
  unfold requiredFields. destruct field; simpl; tauto.
Qed.

(** C3.  A message in which one of ax, ay, az, gx, gy, gz is missing, is not
    a number or is not finite leaves everything as it was: the service
    object (buffer, counters), the published state and the log of callback
    calls are unchanged, and the call returns the published state. *)
Theorem C3_invalid_sample_is_noop (sqrtQ : Q -> Q) (now nowFired : Z)
    (sensorData : SensorData) (field : Field)
    (this : HARModelService) (w : World) :
  match sensorData field with
  | JNumber x => isFinite x = false
  | JUndefined | JOther => True
  end ->
  predictActivity sqrtQ now nowFired (Some sensorData) this w =
  (this, w, Returned (latestActivityState w)).
Proof.
  intros H. unfold predictActivity.
  rewrite (invalidField_rejects sensorData field); [reflexivity|].
  unfold invalidField. destruct (sensorData field); [reflexivity | | reflexivity].
  rewrite H. reflexivity.
Qed.

Lemma C3_invalid_sample_is_noop_witness :
  let sensorData : SensorData :=
    fun field => match field with f_gy => JNumber NaN | _ => JNumber (Fin 1) end in
  let this := _refreshSettings (Some {| detectionSensitivity := Fin 0.5 |}) constructed in
  let w := {| listeners := []; latestActivityState := initialActivityState;
              delivered := [] |} in
  predictActivity sqrtQ_floor 1700000000000 1700000000000 (Some sensorData) this w =
  (this, w, Returned initialActivityState).
Proof.
  intros sensorData this w.
  apply (C3_invalid_sample_is_noop sqrtQ_floor _ _ sensorData f_gy this w).
  reflexivity.
Defined.

(** ** Two decimals *)

Lemma round2_monotone (q r : Q) : q <= r -> round2 q <= round2 r.
Proof.
  intros H. unfold round2.
  assert (F : (Qfloor (q * 100 + 0.5) <= Qfloor (r * 100 + 0.5))%Z)
    by (apply Qfloor_resp_le; lra).
  unfold Qle. cbn [Qnum Qden]. lia.
Qed.

Lemma toFixed2_reads (x : num) (q : Q) :
  reads x q -> 0 <= q -> reads (toFixed2 x) (round2 q).
Proof.
  destruct x as [p| | |]; cbn [reads]; intros Hx Hq; try contradiction.
  unfold toFixed2.
  assert (E : p * 100 + 0.5 == q * 100 + 0.5) by (rewrite Hx; reflexivity).
  destruct (p ?= 0) eqn:C.
  - apply reads_fin. unfold round2. rewrite (Qfloor_comp _ _ E). reflexivity.
  - exfalso. rewrite <- Qlt_alt in C. lra.
  - apply reads_fin. unfold round2. rewrite (Qfloor_comp _ _ E). reflexivity.
Qed.

(** ** Smoothing *)

Lemma Activity_eqb_eq (a b : Activity) : Activity_eqb a b = true <-> a = b.
Proof. destruct a, b; simpl; split; intros H; try reflexivity; discriminate. Qed.

Lemma Activity_eqb_neq (a b : Activity) : Activity_eqb a b = false <-> a <> b.
Proof.
  destruct a, b; simpl; split; intros H; try reflexivity; try discriminate;
    try (exfalso; apply H; reflexivity).
Qed.

Lemma needsSmoothing_suppressed (lastActivity activity : Activity) (count : nat) :
  needsSmoothing lastActivity activity count = true <->
  suppressed lastActivity activity count.
Proof.
  unfold needsSmoothing, suppressed.
  rewrite !orb_true_iff, !andb_true_iff, !Activity_eqb_eq, !Nat.ltb_lt.
  tauto.
Qed.

Lemma suppressed_differs (lastActivity activity : Activity) (count : nat) :
  suppressed lastActivity activity count -> activity <> lastActivity.
Proof.
  intros [(H1 & H2 & _)|[(H1 & H2 & _)|[(H1 & H2 & _)|(H1 & H2 & _)]]];
    rewrite H1, H2; discriminate.
Qed.

Lemma smoothActivity_same (lastActivity : Activity) (count : nat) (confidence : num) :
  smoothActivity lastActivity count lastActivity confidence =
  {| smoothedActivity := lastActivity; smoothedConfidence := confidence;
     nextLastActivity := lastActivity; nextChangeCount := 0 |}.
Proof.
  unfold smoothActivity.
  rewrite (proj2 (Activity_eqb_eq lastActivity lastActivity) eq_refl). reflexivity.
Qed.

Lemma smoothActivity_suppressed (lastActivity activity : Activity) (count : nat)
    (confidence : num) :
  suppressed lastActivity activity (S count) ->
  smoothActivity lastActivity count activity confidence =
  {| smoothedActivity := lastActivity;
     smoothedConfidence := Math_max (Fin 0.3) (sub confidence (Fin 0.3));
     nextLastActivity := lastActivity; nextChangeCount := S count |}.
Proof.
  intros H. unfold smoothActivity.
  rewrite (proj2 (Activity_eqb_neq activity lastActivity) (suppressed_differs _ _ _ H)).
  cbn [negb]. cbv zeta.
  rewrite (proj2 (needsSmoothing_suppressed _ _ _) H). reflexivity.
Qed.

Lemma smoothActivity_accepted (lastActivity activity : Activity) (count : nat)
    (confidence : num) :
  activity <> lastActivity -> ~ suppressed lastActivity activity (S count) ->
  smoothActivity lastActivity count activity confidence =
  {| smoothedActivity := activity; smoothedConfidence := confidence;
     nextLastActivity := activity; nextChangeCount := 0 |}.
Proof.
  intros Hd H. unfold smoothActivity.
  rewrite (proj2 (Activity_eqb_neq activity lastActivity) Hd).
  cbn [negb]. cbv zeta.
  destruct (needsSmoothing lastActivity activity (S count)) eqn:E; [|reflexivity].
  exfalso. apply H. apply needsSmoothing_suppressed. exact E.
Qed.

Lemma smoothActivity_last (lastActivity activity : Activity) (count : nat)
    (confidence : num) :
  nextLastActivity (smoothActivity lastActivity count activity confidence) =
  smoothedActivity (smoothActivity lastActivity count activity confidence).
Proof.
  unfold smoothActivity.
  destruct (Activity_eqb activity lastActivity) eqn:E; cbn [negb].
  - apply Activity_eqb_eq in E. rewrite E. reflexivity.
  - cbv zeta. destruct (needsSmoothing lastActivity activity (S count)); reflexivity.
Qed.

(** [nearlyFull] and [quietModule] are what [start()] and 24 messages of a
    device at rest leave. *)
Lemma nearlyFull_reached :
  feed sqrtQ_floor (turning 1699999997600 (repeat 0 24)) started =
  (nearlyFull, quietModule).
Proof. vm_compute. reflexivity. Qed.

Lemma nearlyFull_classifies (g : Q) :
  classifies (reading 0 0 9.8 g 0 0) nearlyFull.
Proof.
  unfold classifies, accepted. split; [reflexivity|].
  split; [reflexivity|]. split; [discriminate|].
  vm_compute. apply le_n.
Qed.

(** C4, as the code has it.  On a classification tick the raw activity is
    compared with [lastActivity], the activity the service accepted on its
    latest classification tick (IDLE before the first one): not with the
    published one, which is CALIBRATING on the first tick of a window and
    IDLE after [stop()].  When they are equal the raw activity and confidence
    are published and the count is 0.  When they differ the count is
    incremented; on a suppressed transition (idle and standing either way
    with the count below 3, standing and walking either way with the count
    below 2) [lastActivity] is published again, with the raw confidence less
    0.3 and not below 0.3, and the incremented count is kept; on any other
    transition the raw activity and confidence are published, [lastActivity]
    becomes the raw activity and the count is 0.  A published confidence is
    printed with two decimals.  After the tick [lastActivity] is the
    published activity. *)
Theorem C4_hysteresis (sqrtQ : Q -> Q) (now nowFired : Z) (sensorData : SensorData)
    (this : HARModelService) (w : World) (theSettings : Settings) :
  classifies sensorData this -> settings this = Some theSettings ->
  let buffer := pushSample (sensorDataBuffer this) (readSample sensorData) in
  let score := totalMovement sqrtQ buffer in
  let validScore := if isFinite score then score else Fin 0 in
  let raw := classify (adjustThresholds (detectionSensitivity theSettings))
                      validScore in
  let count := S (activityChangeCount this) in
  let after := predictActivity sqrtQ now nowFired (Some sensorData) this w in
  let this' := fst (fst after) in
  let state := latestActivityState (snd (fst after)) in
  (fst raw = lastActivity this ->
     name state = fst raw /\ confidence state = toFixed2 (snd raw) /\
     lastActivity this' = fst raw /\ activityChangeCount this' = 0%nat) /\
  (suppressed (lastActivity this) (fst raw) count ->
     name state = lastActivity this /\
     confidence state = toFixed2 (Math_max (Fin 0.3) (sub (snd raw) (Fin 0.3))) /\
     lastActivity this' = lastActivity this /\ activityChangeCount this' = count) /\
  (fst raw <> lastActivity this -> ~ suppressed (lastActivity this) (fst raw) count ->
     name state = fst raw /\ confidence state = toFixed2 (snd raw) /\
     lastActivity this' = fst raw /\ activityChangeCount this' = 0%nat) /\
  lastActivity this' = name state.
Proof.
  intros Hc Hs buffer score validScore raw count after this' state.
  assert (Hstate : state = publishedOf sqrtQ now theSettings buffer this).
  { unfold state, after. rewrite (predictActivity_classifies _ _ _ _ _ _ _ Hc Hs).
    apply classifyWindow_published. }
  assert (Hthis : this' = serviceOf sqrtQ now nowFired theSettings buffer this).
  { unfold this', after. rewrite (predictActivity_classifies _ _ _ _ _ _ _ Hc Hs).
    apply classifyWindow_service. }
  assert (Hraw : raw = rawOf sqrtQ theSettings buffer).
  { unfold raw, validScore, score, rawOf, thresholdsOf.
    rewrite totalMovement_finite. reflexivity. }
  rewrite Hstate, Hthis.
  unfold publishedOf, serviceOf; cbv zeta;
    cbn [name confidence lastActivity activityChangeCount].
  unfold smoothedOf. rewrite <- Hraw.
  split; [|split; [|split]].
  - intros Hsame. rewrite Hsame, smoothActivity_same. repeat split.
  - intros Hsup. rewrite (smoothActivity_suppressed _ _ _ _ Hsup).
    cbn [smoothedActivity smoothedConfidence nextLastActivity nextChangeCount].
    repeat split.
  - intros Hdiff Hnot. rewrite (smoothActivity_accepted _ _ _ _ Hdiff Hnot).
    repeat split.
  - apply smoothActivity_last.
Qed.

Lemma C4_hysteresis_witness :
  let after :=
    predictActivity sqrtQ_floor 1700000000000 1700000000000
                    (Some (reading 0 0 9.8 1 0 0)) nearlyFull quietModule in
  name (latestActivityState (snd (fst after))) = lastActivity nearlyFull /\
  lastActivity (fst (fst after)) = lastActivity nearlyFull /\
  activityChangeCount (fst (fst after)) = S (activityChangeCount nearlyFull).
Proof.
  destruct (proj1 (proj2
    (C4_hysteresis sqrtQ_floor 1700000000000 1700000000000 (reading 0 0 9.8 1 0 0)
       nearlyFull quietModule {| detectionSensitivity := Fin 1 |}
       (nearlyFull_classifies 1) eq_refl))) as (H1 & _ & H2 & H3).
  - left. split; [reflexivity|]. split; [vm_compute; reflexivity | cbn; lia].
  - split; [exact H1 | split; [exact H2 | exact H3]].
Defined.

(** C4 as the spec words it fails.  [nearlyFull] and [quietModule] are the
    service and the module after 24 messages of a device at rest: the last
    published activity is CALIBRATING.  The 25th message, of a device turning
    at 1 rad/s, is classified STANDING.  CALIBRATING to STANDING is none of
    the suppressed transitions, yet STANDING is not published: the tick
    publishes IDLE, the [lastActivity] the constructor left, with the
    confidence 0.32 (the raw one less 0.3), and keeps the count 1. *)
Lemma C4_counterexample :
  let buffer := pushSample (sensorDataBuffer nearlyFull)
                           (readSample (reading 0 0 9.8 1 0 0)) in
  let raw := classify (adjustThresholds (Fin 1)) (totalMovement sqrtQ_floor buffer) in
  let after :=
    predictActivity sqrtQ_floor 1700000000000 1700000000000
                    (Some (reading 0 0 9.8 1 0 0)) nearlyFull quietModule in
  feed sqrtQ_floor (turning 1699999997600 (repeat 0 24)) started
    = (nearlyFull, quietModule) /\
  name (latestActivityState quietModule) = CALIBRATING /\
  fst raw = STANDING /\
  name (latestActivityState (snd (fst after))) = IDLE /\
  num_eqb (confidence (latestActivityState (snd (fst after)))) (Fin 0.32) = true /\
  activityChangeCount (fst (fst after)) = 1%nat.
Proof. vm_compute. repeat split. Qed.

(** ** Broadcast *)

Lemma notifyLoop_returns (ls : list Listener) (s : ActivityState)
    (log : list (nat * ActivityState)) :
  (forall l, In l ls -> react l s = None) ->
  notifyLoop ls s log = (log ++ map (fun l => (lid l, s)) ls, None).
Proof.
  revert log. induction ls as [|l ls IH]; intros log H; cbn [notifyLoop map].
  - rewrite app_nil_r. reflexivity.
  - rewrite (H l (or_introl eq_refl)). unfold push.
    rewrite IH; [|intros l' Hl'; apply H; right; exact Hl'].
    rewrite <- app_assoc. reflexivity.
Qed.

(** The loop ends at the first callback that throws: the callbacks before it
    and the thrower are called, none after it, and the exception leaves. *)
Lemma notifyLoop_throws (before after : list Listener) (thrower : Listener)
    (s : ActivityState) (e : string) (log : list (nat * ActivityState)) :
  (forall l, In l before -> react l s = None) ->
  react thrower s = Some e ->
  notifyLoop (before ++ thrower :: after) s log =
  (log ++ map (fun l => (lid l, s)) (before ++ [thrower]), Some e).
Proof.
  revert log. induction before as [|l ls IH]; intros log H He;
    cbn [notifyLoop map app].
  - rewrite He. reflexivity.
  - rewrite (H l (or_introl eq_refl)). unfold push.
    rewrite IH; [|intros l' Hl'; apply H; right; exact Hl' | exact He].
    rewrite <- app_assoc. reflexivity.
Qed.

(** C8, on the code.  With a first subscriber that throws and a second that
    does not, the broadcast of [notifyListeners] calls the first only and
    lets the exception leave: the second subscriber is not called, and
    [stop()], which broadcasts, ends with the exception. *)
Theorem C8_listener_exception_propagates :
  notifyListeners twoSubscribers =
    ({| listeners := [throwing; returning];
        latestActivityState := initialActivityState;
        delivered := [(1%nat, initialActivityState)] |},
     Some "listener failed"%string) /\
  snd (stop constructed twoSubscribers) = Thrown "listener failed"%string /\
  delivered (snd (fst (stop constructed twoSubscribers))) =
    [(1%nat, initialActivityState)].
Proof. repeat split. Qed.

(** ** Sessions *)

(** What [stop()] changes of the service object, and what it keeps. *)
Lemma stop_service (this : HARModelService) (w : World) :
  let this' := fst (fst (stop this w)) in
  sensorDataBuffer this' = [] /\
  isMonitoring this' = false /\
  movementHistory this' = movementHistory this /\
  highMovementDuration this' = highMovementDuration this /\
  walkingSessionActive this' = walkingSessionActive this /\
  consecutiveStillReadings this' = consecutiveStillReadings this /\
  lastActivity this' = lastActivity this /\
  activityChangeCount this' = activityChangeCount this /\
  lastSuddenStopTime this' = lastSuddenStopTime this.
Proof.
  unfold stop. destruct (notifyListeners _). cbn. repeat split.
Qed.

Lemma stop_published (this : HARModelService) (w : World) :
  latestActivityState (snd (fst (stop this w))) = initialActivityState.
Proof.
  unfold stop.
  pose proof (latest_notifyListeners (publish w initialActivityState)) as H.
  unfold initialActivityState in *.
  destruct (notifyListeners _). cbn in *. exact H.
Qed.

(** C7, on the code.  A service is started, receives 8.5 seconds of brisk
    movement and is stopped.  After [stop()] the window is empty and the
    published state is IDLE and inactive, but the movement history keeps its
    61 scores and the walking-session counters keep their values; restarted
    with the device at rest, the service raises SUDDEN_STOP on the third
    classification of the new session, from the scores of the session
    before. *)
Theorem C7_stop_keeps_movement_history :
  let moved := feed sqrtQ_floor (turning 1700000000000 briskTurning) started in
  let stopped := fst (stop (fst moved) (snd moved)) in
  let restarted := fst (start (fst stopped) (snd stopped)) in
  let rested := feed sqrtQ_floor (turning 1700000060000 (repeat 0 27)) restarted in
  sensorDataBuffer (fst stopped) = [] /\
  latestActivityState (snd stopped) = initialActivityState /\
  length (movementHistory (fst moved)) = 61%nat /\
  movementHistory (fst stopped) = movementHistory (fst moved) /\
  highMovementDuration (fst stopped) = 61%nat /\
  walkingSessionActive (fst stopped) = true /\
  anomaly (latestActivityState (snd rested)) =
    Some {| type := SUDDEN_STOP; severity := HIGH |}.
Proof. vm_compute. repeat split. Qed.

(** ** Calibration *)

Lemma realLabel_iff (a : Activity) : realLabel a <-> a <> CALIBRATING.
Proof.
  unfold realLabel. destruct a; split; intros H; try discriminate; try tauto.
  destruct H as [H|[H|[H|H]]]; discriminate.
Qed.

Lemma classify_realLabel (T : Thresholds) (x : num) : realLabel (fst (classify T x)).
Proof.
  unfold classify, realLabel.
  repeat match goal with
         | |- context [if gt ?a ?b then _ else _] => destruct (gt a b)
         end; cbn [fst]; tauto.
Qed.

Lemma smoothActivity_realLabel (lastActivity activity : Activity) (count : nat)
    (confidence : num) :
  realLabel lastActivity -> realLabel activity ->
  realLabel (smoothedActivity (smoothActivity lastActivity count activity confidence)).
Proof.
  intros Hl Ha. unfold smoothActivity.
  destruct (negb (Activity_eqb activity lastActivity)); cbv zeta;
    [destruct (needsSmoothing lastActivity activity (S count))|]; cbn; assumption.
Qed.

Lemma length_pushSample (buffer : list Sample) (d : Sample) :
  (length buffer <= SENSOR_DATA_BUFFER_SIZE)%nat ->
  length (pushSample buffer d) = Nat.min (S (length buffer)) SENSOR_DATA_BUFFER_SIZE.
Proof.
  intros H. unfold pushSample, push, shift, SENSOR_DATA_BUFFER_SIZE in *. cbv zeta.
  rewrite length_app. cbn [length].
  destruct (Nat.ltb_spec 25 (length buffer + 1)) as [Hlt|Hge].
  - destruct buffer as [|x buffer]; cbn [app tl length] in *.
    + lia.
    + rewrite length_app. cbn [length]. lia.
  - rewrite length_app. cbn [length]. lia.
Qed.

Lemma pushSample_stays_full (buffer : list Sample) (d : Sample) :
  (SENSOR_DATA_BUFFER_SIZE <= length buffer)%nat ->
  (SENSOR_DATA_BUFFER_SIZE <= length (pushSample buffer d))%nat.
Proof.
  unfold pushSample, push, shift, SENSOR_DATA_BUFFER_SIZE. cbv zeta. intros H.
  destruct (Nat.ltb_spec 25 (length (buffer ++ [d]))) as [Hlt|Hge].
  - destruct buffer as [|x rest]; cbn [length] in H; [lia|].
    cbn [app tl]. rewrite length_app. cbn [length]. lia.
  - rewrite length_app. cbn [length]. lia.
Qed.

Lemma publishName_latest (activityName : Activity) (w : World) :
  let w' := fst (publishName activityName w) in
  name (latestActivityState w') = activityName /\
  (name (latestActivityState w) <> activityName ->
   confidence (latestActivityState w') = Fin 0.5) /\
  (name (latestActivityState w) = activityName ->
   latestActivityState w' = latestActivityState w).
Proof.
  unfold publishName. cbv zeta.
  destruct (Activity_eqb (name (latestActivityState w)) activityName) eqn:E; cbn [negb].
  - apply Activity_eqb_eq in E. cbn [fst]. repeat split; auto. intros H. contradiction.
  - apply Activity_eqb_neq in E.
    rewrite latest_afterNotify, latest_notifyListeners. cbn.
    repeat split; auto. intros H. contradiction.
Qed.

Section Calibration.

Variable sqrtQ : Q -> Q.
Variable theSettings : Settings.

Lemma deliver_rejected (now nowFired : Z) (m : option SensorData)
    (st : HARModelService * World) :
  match m with Some sensorData => acceptedb sensorData | None => false end = false ->
  deliver sqrtQ (now, nowFired, m) st = st.
Proof.
  intros H. unfold deliver, predictActivity. destruct st as [this w]. cbn [fst snd].
  destruct m as [sensorData|]; [|reflexivity].
  unfold acceptedb in H. apply negb_false_iff in H. rewrite H. reflexivity.
Qed.

Lemma deliver_accepted (now nowFired : Z) (sensorData : SensorData) (k : nat)
    (st : HARModelService * World) :
  acceptedb sensorData = true -> windowed theSettings k st ->
  calibrated theSettings (S k) (deliver sqrtQ (now, nowFired, Some sensorData) st).
Proof.
  intros Ha (Hm & Hs & Hlen & Hlast & Hconf).
  destruct st as [this w]. cbn [fst snd] in *.
  unfold acceptedb in Ha. apply negb_true_iff in Ha.
  assert (Hpush : length (pushSample (sensorDataBuffer this) (readSample sensorData))
                  = Nat.min (S k) SENSOR_DATA_BUFFER_SIZE).
  { rewrite length_pushSample; rewrite Hlen; unfold SENSOR_DATA_BUFFER_SIZE in *; lia. }
  unfold deliver, predictActivity. cbn [fst snd]. rewrite Ha, Hs, Hm. cbv zeta.
  destruct (Nat.ltb_spec
              (length (pushSample (sensorDataBuffer this) (readSample sensorData)))
              SENSOR_DATA_BUFFER_SIZE) as [Hlt|Hge].
  - (* still calibrating *)
    destruct (publishName_latest CALIBRATING w) as (Hn & Hc & Hsame).
    unfold calibrated, result, buffering. cbn [fst snd isMonitoring settings
      sensorDataBuffer lastActivity].
    repeat split; try assumption.
    + intros _.
      destruct (Activity_eqb (name (latestActivityState w)) CALIBRATING) eqn:E.
      * apply Activity_eqb_eq in E. rewrite (Hsame E). apply Hconf. exact E.
      * apply Activity_eqb_neq in E. apply Hc. exact E.
    + intros _. exact Hn.
    + intros Hk. rewrite Hpush in Hlt. unfold SENSOR_DATA_BUFFER_SIZE in *. lia.
  - (* the window is full *)
    rewrite classifyWindow_eq. unfold calibrated, result. cbn [fst snd].
    rewrite latest_afterNotify, latest_notifyListeners.
    unfold serviceOf, publishedOf. cbv zeta.
    cbn [isMonitoring settings sensorDataBuffer lastActivity latestActivityState
         publish name confidence].
    assert (Hsm : realLabel (smoothedActivity (smoothedOf sqrtQ theSettings
                    (pushSample (sensorDataBuffer this) (readSample sensorData)) this))).
    { unfold smoothedOf. apply smoothActivity_realLabel; [exact Hlast|].
      unfold rawOf. apply classify_realLabel. }
    repeat split; try assumption.
    + unfold smoothedOf. rewrite smoothActivity_last. exact Hsm.
    + intros E. apply realLabel_iff in Hsm. contradiction.
    + intros Hk. rewrite Hpush in Hge. unfold SENSOR_DATA_BUFFER_SIZE in *. lia.
    + intros _. exact Hsm.
Qed.

Lemma feed_calibrated (ds : list Delivery) (k : nat) (st : HARModelService * World) :
  calibrated theSettings k st ->
  calibrated theSettings (k + acceptedCount ds) (feed sqrtQ ds st).
Proof.
  revert k st. induction ds as [|[[now nowFired] m] ds IH]; intros k st H.
  - unfold acceptedCount. cbn. rewrite Nat.add_0_r. exact H.
  - unfold feed. cbn [fold_left]. fold (feed sqrtQ ds).
    unfold acceptedCount. cbn [filter snd].
    destruct (match m with Some sensorData => acceptedb sensorData | None => false end)
      eqn:E.
    + cbn [length]. fold (acceptedCount ds). rewrite Nat.add_succ_r.
      apply (IH (S k)). destruct m as [sensorData|]; [|discriminate].
      apply deliver_accepted; [assumption|].
      destruct H as (H1 & H2 & H3 & H4 & H5 & _).
      repeat split; assumption.
    + fold (acceptedCount ds). rewrite (deliver_rejected now nowFired m st E).
      apply IH. exact H.
Qed.

End Calibration.

Lemma deliver_unloaded (sqrtQ : Q -> Q) (now nowFired : Z) (sensorData : SensorData)
    (this : HARModelService) (w : World) :
  acceptedb sensorData = true -> isMonitoring this = true -> settings this = None ->
  deliver sqrtQ (now, nowFired, Some sensorData) (this, w) =
  (this, fst (publishName CALIBRATING w)).
Proof.
  intros Ha Hm Hs. unfold acceptedb in Ha. apply negb_true_iff in Ha.
  unfold deliver, predictActivity. cbn [fst snd]. rewrite Ha, Hs, Hm. reflexivity.
Qed.

Lemma feed_unloaded (sqrtQ : Q -> Q) (ds : list Delivery) (this : HARModelService)
    (w : World) :
  isMonitoring this = true -> settings this = None ->
  (name (latestActivityState w) = CALIBRATING ->
   confidence (latestActivityState w) = Fin 0.5) ->
  let state := latestActivityState (snd (feed sqrtQ ds (this, w))) in
  (name state = CALIBRATING -> confidence state = Fin 0.5) /\
  ((1 <= acceptedCount ds)%nat -> name state = CALIBRATING).
Proof.
  intros Hm Hs. revert w. induction ds as [|[[now nowFired] m] ds IH]; intros w Hc.
  - cbn. split; [exact Hc|]. unfold acceptedCount. cbn. lia.
  - unfold feed. cbn [fold_left]. fold (feed sqrtQ ds).
    unfold acceptedCount. cbn [filter snd].
    destruct (match m with Some sensorData => acceptedb sensorData | None => false end)
      eqn:E.
    + destruct m as [sensorData|]; [|discriminate].
      rewrite (deliver_unloaded sqrtQ now nowFired sensorData this w E Hm Hs).
      destruct (publishName_latest CALIBRATING w) as (Hn & Hnew & Hsame).
      assert (Hc' : name (latestActivityState (fst (publishName CALIBRATING w)))
                    = CALIBRATING ->
                    confidence (latestActivityState (fst (publishName CALIBRATING w)))
                    = Fin 0.5).
      { intros _.
        destruct (Activity_eqb (name (latestActivityState w)) CALIBRATING) eqn:El.
        - apply Activity_eqb_eq in El. rewrite (Hsame El). apply Hc. exact El.
        - apply Activity_eqb_neq in El. apply Hnew. exact El. }
      destruct (IH (fst (publishName CALIBRATING w)) Hc') as (A & B).
      split; [exact A|]. intros _. fold (acceptedCount ds) in *.
      destruct (Nat.eq_dec (acceptedCount ds) 0) as [Z0|Z0]; [|apply B; lia].
      clear A B IH.
      assert (Hkeep : forall ds' w',
                 acceptedCount ds' = 0%nat -> feed sqrtQ ds' (this, w') = (this, w')).
      { induction ds' as [|[[n1 n2] m'] ds' IHd]; intros w' H0; [reflexivity|].
        unfold feed. cbn [fold_left]. fold (feed sqrtQ ds').
        unfold acceptedCount in H0. cbn [filter snd] in H0.
        destruct (match m' with Some sd => acceptedb sd | None => false end) eqn:E';
          [cbn [length] in H0; discriminate|].
        rewrite (deliver_rejected sqrtQ n1 n2 m' (this, w') E'). apply IHd. exact H0. }
      pose proof (Hkeep ds (fst (publishName CALIBRATING w)) Z0) as K.
      unfold feed in K |- *. rewrite K. exact Hn.
    + rewrite (deliver_rejected sqrtQ now nowFired m (this, w) E).
      fold (acceptedCount ds). apply IH. exact Hc.
Qed.

(** C9, as the code has it.  On a service that monitors, after a feed of
    messages of which at least one was accepted: without settings the
    published activity is CALIBRATING with confidence 0.5, however many were
    accepted; with its settings loaded it is CALIBRATING with confidence 0.5
    while the messages the window held before, with those accepted, are
    fewer than 25, and one of IDLE, STANDING, WALKING, RUNNING once they are
    25 or more.  The window is emptied by [stop()] (and empty after the
    constructor), not by [start()]. *)
Theorem C9_calibrating_until_window_full (sqrtQ : Q -> Q)
    (ds : list Delivery) (this : HARModelService) (w : World) :
  isMonitoring this = true ->
  (length (sensorDataBuffer this) <= SENSOR_DATA_BUFFER_SIZE)%nat ->
  realLabel (lastActivity this) ->
  (name (latestActivityState w) = CALIBRATING ->
   confidence (latestActivityState w) = Fin 0.5) ->
  (1 <= acceptedCount ds)%nat ->
  let held := (length (sensorDataBuffer this) + acceptedCount ds)%nat in
  let state := latestActivityState (snd (feed sqrtQ ds (this, w))) in
  (settings this = None ->
   name state = CALIBRATING /\ confidence state = Fin 0.5) /\
  (settings this <> None ->
   ((held < SENSOR_DATA_BUFFER_SIZE)%nat ->
    name state = CALIBRATING /\ confidence state = Fin 0.5) /\
   ((SENSOR_DATA_BUFFER_SIZE <= held)%nat -> realLabel (name state))).
Proof.
  intros Hm Hlen Hl Hc Hn held state. split.
  - intros Hs.
    destruct (feed_unloaded sqrtQ ds this w Hm Hs Hc) as (A & B).
    cbn zeta in A, B. fold state in A, B.
    split; [apply B; exact Hn | apply A; apply B; exact Hn].
  - intros Hs. destruct (settings this) as [theSettings|] eqn:Es;
      [clear Hs | contradiction Hs; reflexivity].
    assert (H : calibrated theSettings held (feed sqrtQ ds (this, w))).
    { unfold held. clear held state.
      revert w Hc Hn.
      induction ds as [|[[now nowFired] m] ds IH]; intros w Hc Hn.
      - unfold acceptedCount in Hn. cbn in Hn. lia.
      - unfold feed. cbn [fold_left]. fold (feed sqrtQ ds).
        unfold acceptedCount in *. cbn [filter snd] in *.
        destruct (match m with Some sensorData => acceptedb sensorData | None => false end)
          eqn:E.
        + cbn [length] in *. fold (acceptedCount ds) in *.
          destruct m as [sensorData|]; [|discriminate].
          rewrite Nat.add_succ_r, <- Nat.add_succ_l.
          apply feed_calibrated. apply deliver_accepted; [exact E|].
          unfold windowed. cbn [fst snd].
          rewrite Nat.min_l by exact Hlen. repeat split; assumption.
        + rewrite (deliver_rejected sqrtQ now nowFired m (this, w) E).
          apply IH; assumption. }
    destruct H as (_ & _ & _ & _ & Hconf & Hcal & Hreal).
    fold state in Hconf, Hcal, Hreal. split.
    + intros Hk.
      assert (Hname : name state = CALIBRATING) by (apply Hcal; unfold held in *; lia).
      split; [exact Hname | apply Hconf; exact Hname].
    + exact Hreal.
Qed.

Lemma C9_calibrating_until_window_full_witness :
  let state :=
    latestActivityState
      (snd (feed sqrtQ_floor (turning 1700000000000 (repeat 0 24))
                 (fst started, snd started))) in
  name state = CALIBRATING /\ confidence state = Fin 0.5.
Proof.
  refine (proj1 (proj2
    (C9_calibrating_until_window_full sqrtQ_floor
       (turning 1700000000000 (repeat 0 24)) (fst started) (snd started)
       _ _ _ _ _) _) _).
  - reflexivity.
  - vm_compute. lia.
  - left. reflexivity.
  - intros H. vm_compute in H. discriminate H.
  - vm_compute. lia.
  - vm_compute. discriminate.
  - vm_compute. lia.
Defined.

(** C9 as the spec words it fails.  First, a service started before its
    settings are loaded is active, and after 30 accepted messages it still
    publishes CALIBRATING.  Second, [start()] called on a service that
    monitors with a full window leaves the window as it is: the first
    message accepted after it is classified, IDLE here, not CALIBRATING. *)
Lemma C9_counterexample :
  (let unloaded := fst (start constructed noSubscribers) in
   let ds := turning 1700000000000 (repeat 0 30) in
   isMonitoring (fst unloaded) = true /\
   acceptedCount ds = 30%nat /\
   name (latestActivityState (snd (feed sqrtQ_floor ds unloaded))) = CALIBRATING) /\
  (let running := feed sqrtQ_floor (turning 1700000000000 (repeat 0 30)) started in
   let restarted := fst (start (fst running) (snd running)) in
   let ds := turning 1700000003000 (repeat 0 1) in
   isMonitoring (fst restarted) = true /\
   length (sensorDataBuffer (fst restarted)) = 25%nat /\
   acceptedCount ds = 1%nat /\
   name (latestActivityState (snd (feed sqrtQ_floor ds restarted))) = IDLE).
Proof. vm_compute. repeat split. Qed.

(** ** The windows of the movement history *)

Lemma slice_windows (A : Type) (l : list A) :
  (50 <= length l)%nat ->
  slice (-3) None l = lastn 3 l /\
  slice (-20) (Some (-10)%Z) l = window 10 10 l /\
  slice (-50) (Some (-20)%Z) l = window 30 20 l.
Proof.
  intros H. unfold slice, relIndex, lastn, window. cbv zeta.
  cbn [Z.ltb Z.compare].
  replace (Z.to_nat (Z.max (Z.of_nat (length l) + -3) 0)) with (length l - 3)%nat by lia.
  replace (Z.to_nat (Z.max (Z.of_nat (length l) + -20) 0)) with (length l - 20)%nat by lia.
  replace (Z.to_nat (Z.max (Z.of_nat (length l) + -10) 0)) with (length l - 10)%nat by lia.
  replace (Z.to_nat (Z.max (Z.of_nat (length l) + -50) 0)) with (length l - 50)%nat by lia.
  replace (length l - (length l - 3))%nat with 3%nat by lia.
  replace (length l - 10 - (length l - 20))%nat with 10%nat by lia.
  replace (length l - 20 - (length l - 50))%nat with 30%nat by lia.
  replace (length l - (10 + 10))%nat with (length l - 20)%nat by lia.
  replace (length l - (30 + 20))%nat with (length l - 50)%nat by lia.
  repeat split.
  apply firstn_all2. rewrite length_skipn. lia.
Qed.

Lemma dropDetected_windows (T : Thresholds) (history : list num) :
  (50 <= length history)%nat ->
  (dropDetected T history = true <-> dropOnWindows T history).
Proof.
  intros H. unfold dropDetected, dropOnWindows. cbv zeta.
  destruct (slice_windows num history H) as (E1 & E2 & E3).
  rewrite E1, E2, E3. rewrite !andb_true_iff. tauto.
Qed.

Lemma suddenStop_guard (T : Thresholds) (history : list num) (session : Session)
    (timeSinceLastTrigger : Z) :
  suddenStop T history (sessionActive session) (duration session)
             timeSinceLastTrigger = true <->
  guardHolds T history session timeSinceLastTrigger.
Proof.
  unfold suddenStop, guardHolds.
  rewrite !andb_true_iff, !Nat.leb_le, Z.ltb_lt.
  split.
  - intros ((((H1 & H2) & H3) & H4) & H5).
    refine (conj H1 (conj H2 (conj H3 (conj H4 _)))).
    apply dropDetected_windows; assumption.
  - intros (H1 & H2 & H3 & H4 & H5).
    refine (conj (conj (conj (conj H1 H2) H3) H4) _).
    apply dropDetected_windows; assumption.
Qed.

Lemma trackSession_duration (activity : Activity) (h s : nat) (b : bool) :
  (duration (trackSession activity h s b) <= S h)%nat.
Proof.
  unfold trackSession. cbv zeta.
  destruct (Activity_eqb activity WALKING || Activity_eqb activity RUNNING);
    [cbn; lia|].
  destruct (Activity_eqb activity IDLE); [|cbn; lia].
  destruct (30 <? S s)%nat; cbn; lia.
Qed.

(** ** The anomaly of a tick *)

(** C2, as the code has it.  On a classification tick the published anomaly
    is SUDDEN_STOP of severity HIGH exactly when, on the values after the
    bookkeeping of the tick: the movement history holds at least 50 scores,
    a walking session is active, the count of high-movement ticks is at
    least 50, the cooldown since the last trigger is over, the relative drop
    from the prior window (10 scores ending 10 before the end) to the recent
    window (last 3 scores) exceeds 0.9, the long-term window (30 scores
    ending 20 before the end) and the prior window both average more than
    1.5 times the walking threshold, the prior window averages more than 0.8
    times the running threshold, and the recent window averages below twice
    the idle threshold.  Otherwise no anomaly is published; in particular
    none is when the prior window does not average more than 0.8 times the
    running threshold.  The cooldown is tested as more than 30000 ms, where
    the comment on the test says at least 30 seconds: off the instant of
    exactly 30000 ms the two agree, at that instant no anomaly is
    published. *)
Theorem C2_sudden_stop_guard (sqrtQ : Q -> Q) (now nowFired : Z)
    (sensorData : SensorData) (this : HARModelService) (w : World)
    (theSettings : Settings) :
  classifies sensorData this -> settings this = Some theSettings ->
  let T := adjustThresholds (detectionSensitivity theSettings) in
  let after := predictActivity sqrtQ now nowFired (Some sensorData) this w in
  let state := latestActivityState (snd (fst after)) in
  let history := movementHistory (fst (fst after)) in
  let session :=
    trackSession (name state) (highMovementDuration this)
                 (consecutiveStillReadings this) (walkingSessionActive this) in
  let guard := guardHolds T history session (now - lastSuddenStopTime this) in
  (anomaly state = Some {| type := SUDDEN_STOP; severity := HIGH |} <-> guard) /\
  (anomaly state = None <-> ~ guard) /\
  (gt (average (window 10 10 history))
      (mul (MOVEMENT_THRESHOLD_RUNNING T) (Fin 0.8)) = false ->
   anomaly state = None) /\
  ((now - lastSuddenStopTime this <> 30000)%Z ->
   (anomaly state = Some {| type := SUDDEN_STOP; severity := HIGH |} <->
    guardAsCommented T history session (now - lastSuddenStopTime this))) /\
  ((now - lastSuddenStopTime this = 30000)%Z -> anomaly state = None).
Proof.
  intros Hc Hs T after state history session guard.
  set (buffer := pushSample (sensorDataBuffer this) (readSample sensorData)).
  assert (Hstate : state = publishedOf sqrtQ now theSettings buffer this).
  { unfold state, after. rewrite (predictActivity_classifies _ _ _ _ _ _ _ Hc Hs).
    apply classifyWindow_published. }
  assert (Hhistory : history = historyOf sqrtQ buffer this).
  { unfold history, after. rewrite (predictActivity_classifies _ _ _ _ _ _ _ Hc Hs).
    rewrite classifyWindow_service. reflexivity. }
  assert (Hsession : session = sessionOf sqrtQ theSettings buffer this).
  { unfold session. rewrite Hstate. reflexivity. }
  assert (Hfired : firedOf sqrtQ now theSettings buffer this = true <-> guard).
  { unfold guard, firedOf. rewrite Hhistory, Hsession. apply suddenStop_guard. }
  assert (Hanomaly : anomaly state =
                     if firedOf sqrtQ now theSettings buffer this
                     then Some {| type := SUDDEN_STOP; severity := HIGH |} else None).
  { rewrite Hstate. reflexivity. }
  assert (Hcommented : (now - lastSuddenStopTime this <> 30000)%Z ->
            (guard <->
             guardAsCommented T history session (now - lastSuddenStopTime this))).
  { intros Hne. unfold guard, guardHolds, guardAsCommented.
    split; intros (H1 & H2 & H3 & H4 & H5);
      refine (conj H1 (conj H2 (conj H3 (conj _ H5)))); lia. }
  rewrite Hanomaly.
  destruct (firedOf sqrtQ now theSettings buffer this) eqn:E.
  - assert (G : guard) by (apply Hfired; reflexivity).
    split; [tauto|]. split; [|split; [|split]].
    + split; [discriminate | intros H; contradiction].
    + intros Hlow. exfalso.
      destruct G as (_ & _ & _ & _ & _ & _ & _ & G & _).
      fold T in G. fold history in G. rewrite G in Hlow. discriminate.
    + intros Hne. specialize (Hcommented Hne). tauto.
    + intros Heq. exfalso. destruct G as (_ & _ & _ & G & _). lia.
  - assert (G : ~ guard) by (intros G; apply Hfired in G; discriminate).
    split; [|split; [|split; [|split]]].
    + split; [discriminate | intros H; contradiction].
    + tauto.
    + reflexivity.
    + intros Hne. specialize (Hcommented Hne).
      split; [discriminate | intros H; apply Hcommented in H; contradiction].
    + reflexivity.
Qed.

Lemma C2_sudden_stop_guard_witness :
  let before := feed sqrtQ_floor (walkThenRest 25) started in
  let after :=
    predictActivity sqrtQ_floor 1700000011000 1700000011000
                    (Some (reading 0 0 9.8 0 0 0)) (fst before) (snd before) in
  let state := latestActivityState (snd (fst after)) in
  anomaly state = Some {| type := SUDDEN_STOP; severity := HIGH |} /\
  guardHolds (adjustThresholds (Fin 1)) (movementHistory (fst (fst after)))
    (trackSession (name state) (highMovementDuration (fst before))
                  (consecutiveStillReadings (fst before))
                  (walkingSessionActive (fst before)))
    (1700000011000 - lastSuddenStopTime (fst before)).
Proof.
  intros before after state.
  assert (Hc : classifies (reading 0 0 9.8 0 0 0) (fst before)).
  { unfold classifies, accepted. split; [reflexivity|].
    split; [vm_compute; reflexivity|]. split; [vm_compute; discriminate|].
    vm_compute. apply le_n. }
  assert (Hs : settings (fst before) = Some {| detectionSensitivity := Fin 1 |})
    by (vm_compute; reflexivity).
  assert (Hf : anomaly state = Some {| type := SUDDEN_STOP; severity := HIGH |})
    by (vm_compute; reflexivity).
  split; [exact Hf|].
  apply (proj1 (proj1
    (C2_sudden_stop_guard sqrtQ_floor 1700000011000 1700000011000
       (reading 0 0 9.8 0 0 0) (fst before) (snd before)
       {| detectionSensitivity := Fin 1 |} Hc Hs))).
  exact Hf.
Defined.

(** C10.  The anomaly a classification tick publishes is computed by that
    tick alone: it does not depend on the state published before, and it is
    present only when the guard holds on that tick.  After a tick that
    publishes an anomaly the next message accepted is classified too, and its
    tick publishes none. *)
Theorem C10_anomaly_one_tick_pulse (sqrtQ : Q -> Q)
    (now1 nowFired1 now2 nowFired2 : Z) (sensorData1 sensorData2 : SensorData)
    (this : HARModelService) (w w0 : World) (theSettings : Settings) :
  classifies sensorData1 this -> settings this = Some theSettings ->
  accepted sensorData2 ->
  let first := predictActivity sqrtQ now1 nowFired1 (Some sensorData1) this w in
  let this1 := fst (fst first) in
  let w1 := snd (fst first) in
  let second := predictActivity sqrtQ now2 nowFired2 (Some sensorData2) this1 w1 in
  anomaly (latestActivityState w1) =
    anomaly (latestActivityState
               (snd (fst (predictActivity sqrtQ now1 nowFired1 (Some sensorData1)
                                          this w0)))) /\
  (anomaly (latestActivityState w1) <> None ->
   guardHolds (adjustThresholds (detectionSensitivity theSettings))
     (movementHistory this1)
     (trackSession (name (latestActivityState w1)) (highMovementDuration this)
                   (consecutiveStillReadings this) (walkingSessionActive this))
     (now1 - lastSuddenStopTime this)) /\
  classifies sensorData2 this1 /\
  (anomaly (latestActivityState w1) <> None ->
   anomaly (latestActivityState (snd (fst second))) = None).
Proof.
  intros Hc Hs Ha2 first this1 w1 second.
  set (buffer := pushSample (sensorDataBuffer this) (readSample sensorData1)).
  assert (Hthis1 : this1 = serviceOf sqrtQ now1 nowFired1 theSettings buffer this).
  { unfold this1, first. rewrite (predictActivity_classifies _ _ _ _ _ _ _ Hc Hs).
    apply classifyWindow_service. }
  assert (Hw1 : latestActivityState w1 = publishedOf sqrtQ now1 theSettings buffer this).
  { unfold w1, first. rewrite (predictActivity_classifies _ _ _ _ _ _ _ Hc Hs).
    apply classifyWindow_published. }
  assert (Hc2 : classifies sensorData2 this1).
  { destruct Hc as (_ & Hm & _ & Hfull). rewrite Hthis1.
    unfold classifies, serviceOf. cbv zeta.
    cbn [isMonitoring settings sensorDataBuffer].
    split; [exact Ha2|]. split; [exact Hm|]. split; [rewrite Hs; discriminate|].
    apply pushSample_stays_full. exact Hfull. }
  split; [|split; [|split; [exact Hc2|]]].
  - rewrite Hw1. rewrite (predictActivity_classifies _ _ _ _ _ _ _ Hc Hs).
    rewrite classifyWindow_published. reflexivity.
  - intros Hfired. rewrite Hw1 in *. rewrite Hthis1.
    unfold publishedOf in *. cbn [anomaly name] in *.
    unfold serviceOf. cbv zeta. cbn [movementHistory].
    apply suddenStop_guard.
    destruct (firedOf sqrtQ now1 theSettings buffer this) eqn:E;
      [exact E | exfalso; apply Hfired; reflexivity].
  - intros Hfired.
    assert (Hs1 : settings this1 = Some theSettings) by (rewrite Hthis1; exact Hs).
    unfold second. rewrite (predictActivity_classifies _ _ _ _ _ _ _ Hc2 Hs1).
    rewrite classifyWindow_published. unfold publishedOf. cbn [anomaly].
    destruct (firedOf sqrtQ now2 theSettings
                (pushSample (sensorDataBuffer this1) (readSample sensorData2)) this1)
      eqn:E; [|reflexivity].
    exfalso. unfold firedOf in E. apply suddenStop_guard in E.
    destruct E as (_ & _ & Hd & _).
    unfold sessionOf in Hd.
    match type of Hd with
    | (50 <= duration (trackSession ?a ?h ?s ?b))%nat =>
        pose proof (trackSession_duration a h s b) as Hb
    end.
    assert (Hzero : highMovementDuration this1 = 0%nat).
    { rewrite Hthis1. unfold serviceOf. cbv zeta. cbn [highMovementDuration].
      rewrite Hw1 in Hfired. unfold publishedOf in Hfired. cbn [anomaly] in Hfired.
      destruct (firedOf sqrtQ now1 theSettings buffer this);
        [reflexivity | exfalso; apply Hfired; reflexivity]. }
    rewrite Hzero in Hb, Hd. lia.
Qed.

Lemma C10_anomaly_one_tick_pulse_witness :
  let before := feed sqrtQ_floor (walkThenRest 25) started in
  let first :=
    predictActivity sqrtQ_floor 1700000011000 1700000011000
                    (Some (reading 0 0 9.8 0 0 0)) (fst before) (snd before) in
  let second :=
    predictActivity sqrtQ_floor 1700000011100 1700000011100
                    (Some (reading 0 0 9.8 0 0 0)) (fst (fst first)) (snd (fst first)) in
  anomaly (latestActivityState (snd (fst first))) =
    Some {| type := SUDDEN_STOP; severity := HIGH |} /\
  anomaly (latestActivityState (snd (fst second))) = None.
Proof.
  intros before first second.
  assert (Hc : classifies (reading 0 0 9.8 0 0 0) (fst before)).
  { unfold classifies, accepted. split; [reflexivity|].
    split; [vm_compute; reflexivity|]. split; [vm_compute; discriminate|].
    vm_compute. apply le_n. }
  assert (Hs : settings (fst before) = Some {| detectionSensitivity := Fin 1 |})
    by (vm_compute; reflexivity).
  assert (Hf : anomaly (latestActivityState (snd (fst first))) =
               Some {| type := SUDDEN_STOP; severity := HIGH |})
    by (vm_compute; reflexivity).
  split; [exact Hf|].
  apply (proj2 (proj2 (proj2
    (C10_anomaly_one_tick_pulse sqrtQ_floor 1700000011000 1700000011000
       1700000011100 1700000011100 (reading 0 0 9.8 0 0 0) (reading 0 0 9.8 0 0 0)
       (fst before) (snd before) (snd before) {| detectionSensitivity := Fin 1 |}
       Hc Hs eq_refl)))).
  fold first. rewrite Hf. discriminate.
Defined.

(** C2 as the spec words it fails: in [interruptedWalk] the published
    activity is never WALKING or RUNNING for more than 31 consecutive ticks,
    and the last tick raises SUDDEN_STOP.  The count of high-movement ticks
    is kept over the ticks in between that are neither: it is no count of
    consecutive ticks. *)
Lemma C2_counterexample :
  let st := feed sqrtQ_floor interruptedWalk started in
  longestRun highMovement (published sqrtQ_floor interruptedWalk started) = 31%nat /\
  anomaly (latestActivityState (snd st)) =
    Some {| type := SUDDEN_STOP; severity := HIGH |}.
Proof. vm_compute. repeat split. Qed.

(** The instant the cooldown test misses.  On the tick of the 411th message
    of [twoStops], exactly 30000 ms after the last trigger, every condition
    holds as the specification and the comment of the code word them (at
    least 30 seconds since the last trigger), and no anomaly is published:
    the test is [timeSinceLastTrigger > 30000]. *)
Lemma cooldown_test_misses_30000 :
  let T := adjustThresholds (Fin 1) in
  let st := feed sqrtQ_floor twoStops started in
  length twoStops = 411%nat /\
  lastSuddenStopTime (fst st) = 1700000011000%Z /\
  suddenStopAsSpecified T (movementHistory (fst st)) (walkingSessionActive (fst st))
    (highMovementDuration (fst st))
    (1700000041000 - lastSuddenStopTime (fst st)) = true /\
  anomaly (latestActivityState (snd st)) = None.
Proof. vm_compute. repeat split. Qed.

(** The running-level condition of the guard is 0.8 times the running
    threshold, inside the WALKING bracket: in [walkThenRest 26] no published
    activity is RUNNING and no movement score exceeds the running threshold,
    and the drop to rest raises SUDDEN_STOP. *)
Lemma brisk_walk_raises_sudden_stop :
  let T := adjustThresholds (Fin 1) in
  let st := feed sqrtQ_floor (walkThenRest 26) started in
  forallb (fun s => negb (Activity_eqb (name s) RUNNING))
          (published sqrtQ_floor (walkThenRest 26) started) = true /\
  forallb (fun x => le x (MOVEMENT_THRESHOLD_RUNNING T)) (movementHistory (fst st))
    = true /\
  anomaly (latestActivityState (snd st)) =
    Some {| type := SUDDEN_STOP; severity := HIGH |}.
Proof. vm_compute. repeat split. Qed.

(** ** The movement score *)

Lemma Qcount_nonzero (l : list Q) : (1 <= length l)%nat -> ~ Qcount l == 0.
Proof.
  intros H E. unfold Qcount, Qeq in E. simpl in E. lia.
Qed.

Lemma fold_left_add_reads (xs : list num) (qs : list Q) :
  Forall2 reads xs qs ->
  forall acc a, reads acc a -> reads (fold_left add xs acc) (a + Qsum qs).
Proof.
  induction 1 as [|x q xs qs Hx Hxs IH]; intros acc a Ha; cbn [fold_left Qsum fold_right].
  - apply (reads_compat acc a); [exact Ha | ring].
  - apply (reads_compat _ (a + q + Qsum qs)).
    + apply IH. apply reads_add; assumption.
    + unfold Qsum. ring.
Qed.

Lemma fold_left_squares_reads (m : num) (mu : Q) (xs : list num) (qs : list Q) :
  reads m mu -> Forall2 reads xs qs ->
  forall acc a, reads acc a ->
  reads (fold_left (fun a b => add a (mul (sub b m) (sub b m))) xs acc)
        (a + Qsum (map (fun x => (x - mu) * (x - mu)) qs)).
Proof.
  intros Hm. induction 1 as [|x q xs qs Hx Hxs IH]; intros acc a Ha;
    cbn [fold_left map Qsum fold_right].
  - apply (reads_compat acc a); [exact Ha | ring].
  - apply (reads_compat _ (a + (q - mu) * (q - mu)
                           + Qsum (map (fun x => (x - mu) * (x - mu)) qs))).
    + apply IH. apply reads_add; [exact Ha|].
      apply reads_mul; apply reads_sub; assumption.
    + unfold Qsum. ring.
Qed.

Lemma filter_finite (xs : list num) (qs : list Q) :
  Forall2 reads xs qs -> filter isFinite xs = xs.
Proof.
  induction 1 as [|x q xs qs Hx Hxs IH]; cbn [filter]; [reflexivity|].
  rewrite (reads_finite x q Hx), IH. reflexivity.
Qed.

Lemma reads_count (xs : list num) (qs : list Q) :
  Forall2 reads xs qs -> reads (ofNat (length xs)) (Qcount qs).
Proof.
  intros H. unfold ofNat, Qcount. rewrite (Forall2_length H). apply reads_Fin.
Qed.

Lemma mean_reads (xs : list num) (qs : list Q) :
  Forall2 reads xs qs -> (1 <= length xs)%nat ->
  reads (div (fold_left add xs (Fin 0)) (ofNat (length xs))) (Qmean qs).
Proof.
  intros H Hlen. unfold Qmean.
  apply reads_div.
  - apply (reads_compat _ (0 + Qsum qs)); [|ring].
    apply fold_left_add_reads; [exact H | apply reads_Fin].
  - apply reads_count. exact H.
  - apply Qcount_nonzero. rewrite <- (Forall2_length H). exact Hlen.
Qed.

(** On at least two finite numbers [_calculateVariance] is the variance. *)
Lemma _calculateVariance_reads (xs : list num) (qs : list Q) :
  Forall2 reads xs qs -> (2 <= length xs)%nat ->
  reads (_calculateVariance xs) (Qvariance qs).
Proof.
  intros H Hlen. unfold _calculateVariance.
  rewrite (filter_finite xs qs H).
  destruct (Nat.ltb_spec (length xs) 2) as [Hlt|_]; [lia|].
  cbv zeta.
  assert (Hm : reads (div (fold_left add xs (Fin 0)) (ofNat (length xs))) (Qmean qs))
    by (apply mean_reads; [exact H | lia]).
  assert (Hv : reads (div (fold_left
                             (fun a b => add a
                                (mul (sub b (div (fold_left add xs (Fin 0))
                                                 (ofNat (length xs))))
                                     (sub b (div (fold_left add xs (Fin 0))
                                                 (ofNat (length xs))))))
                             xs (Fin 0))
                          (ofNat (length xs)))
                     (Qvariance qs)).
  { unfold Qvariance. apply reads_div.
    - apply (reads_compat _ (0 + Qsum (map (fun x => (x - Qmean qs) * (x - Qmean qs)) qs)));
        [|ring].
      apply fold_left_squares_reads; [exact Hm | exact H | apply reads_Fin].
    - apply reads_count. exact H.
    - apply Qcount_nonzero. rewrite <- (Forall2_length H). lia. }
  rewrite (guard_reads _ _ _ Hv). exact Hv.
Qed.

Lemma finite_Forall2 (xs : list num) :
  Forall (fun x => isFinite x = true) xs -> Forall2 reads xs (map valueOf xs).
Proof.
  induction 1 as [|x xs Hx Hxs IH]; cbn [map]; constructor.
  - apply finite_reads. exact Hx.
  - exact IH.
Qed.


Section MovementScore.

Variable sqrtQ : Q -> Q.








End MovementScore.



(** * The service in use: proofs *)

(** ** Variance and score *)

Lemma Qsum_nonneg (l : list Q) : Forall (fun q => 0 <= q) l -> 0 <= Qsum l.
Proof.
  induction 1 as [|q l Hq _ IH]; cbn [Qsum fold_right].
  - lra.
  - change (fold_right Qplus 0 l) with (Qsum l). lra.
Qed.

Lemma Qsquare_nonneg (y : Q) : 0 <= y * y.
Proof.
  destruct (Qlt_le_dec y 0) as [Hy|Hy].
  - assert (H : 0 <= (- y) * (- y)) by (apply Qmult_le_0_compat; lra).
    assert (E : (- y) * (- y) == y * y) by ring. lra.
  - apply Qmult_le_0_compat; exact Hy.
Qed.

Lemma Qvariance_nonneg (l : list Q) : 0 <= Qvariance l.
Proof.
  unfold Qvariance.
  assert (Hs : 0 <= Qsum (map (fun x => (x - Qmean l) * (x - Qmean l)) l)).
  { apply Qsum_nonneg. apply Forall_forall. intros q Hq.
    apply in_map_iff in Hq. destruct Hq as (x & <- & _).
    apply Qsquare_nonneg. }
  unfold Qdiv. apply Qmult_le_0_compat; [exact Hs|].
  apply Qinv_le_0_compat. unfold Qcount. rewrite <- (Zle_Qle 0). lia.
Qed.

Lemma filter_filter (A : Type) (p : A -> bool) (l : list A) :
  filter p (filter p l) = filter p l.
Proof.
  induction l as [|x l IH]; cbn; [reflexivity|].
  destruct (p x) eqn:Hp; cbn; [rewrite Hp, IH; reflexivity | exact IH].
Qed.

Lemma length_filter_le (A : Type) (p : A -> bool) (l : list A) :
  (length (filter p l) <= length l)%nat.
Proof. induction l as [|x l IH]; cbn; [lia|]. destruct (p x); cbn; lia. Qed.

Lemma _calculateVariance_filter (arr : list num) :
  _calculateVariance arr = _calculateVariance (filter isFinite arr).
Proof.
  unfold _calculateVariance. rewrite filter_filter.
  pose proof (length_filter_le _ isFinite arr) as Hle.
  destruct (length arr <? 2)%nat eqn:Ha.
  - apply Nat.ltb_lt in Ha.
    assert (Hf : (length (filter isFinite arr) <? 2)%nat = true) by (apply Nat.ltb_lt; lia).
    rewrite Hf. reflexivity.
  - destruct (length (filter isFinite arr) <? 2)%nat; reflexivity.
Qed.

Lemma filter_isFinite_Forall (arr : list num) :
  Forall (fun x => isFinite x = true) (filter isFinite arr).
Proof. apply Forall_forall. intros x Hx. apply filter_In in Hx. tauto. Qed.

Lemma _calculateVariance_few (arr : list num) :
  (length (filter isFinite arr) < 2)%nat -> _calculateVariance arr = Fin 0.
Proof.
  intros H. unfold _calculateVariance.
  destruct (length arr <? 2)%nat; [reflexivity|].
  apply Nat.ltb_lt in H. rewrite H. reflexivity.
Qed.

Lemma _calculateVariance_valid (arr : list num) :
  (2 <= length (filter isFinite arr))%nat ->
  reads (_calculateVariance arr) (Qvariance (map valueOf (filter isFinite arr))).
Proof.
  intros H. rewrite _calculateVariance_filter.
  apply _calculateVariance_reads; [|exact H].
  apply finite_Forall2, filter_isFinite_Forall.
Qed.

Lemma _calculateVariance_nonneg (arr : list num) :
  exists q, reads (_calculateVariance arr) q /\ 0 <= q.
Proof.
  destruct (Nat.lt_ge_cases (length (filter isFinite arr)) 2) as [H|H].
  - exists 0. rewrite _calculateVariance_few by exact H. split; [apply reads_Fin | lra].
  - eexists. split; [apply _calculateVariance_valid; exact H | apply Qvariance_nonneg].
Qed.

Lemma totalMovement_nonneg (sqrtQ : Q -> Q) (buffer : list Sample) :
  exists q, reads (totalMovement sqrtQ buffer) q /\ 0 <= q.
Proof.
  unfold totalMovement.
  destruct (_calculateVariance_nonneg (accelWithoutGravity sqrtQ buffer)) as (a & Ha & Ha0).
  destruct (_calculateVariance_nonneg (gyroMagnitudes sqrtQ buffer)) as (g & Hg & Hg0).
  rewrite (guard_reads _ _ _ Ha), (guard_reads _ _ _ Hg).
  exists (a * 15 + g * 85). split.
  - apply reads_add; apply reads_mul; try assumption; apply reads_Fin.
  - nra.
Qed.

(** ** The shape of a tick *)

Lemma listeners_notifyListeners (w : World) :
  listeners (fst (notifyListeners w)) = listeners w.
Proof.
  unfold notifyListeners.
  destruct (notifyLoop (listeners w) (latestActivityState w) (delivered w)).
  reflexivity.
Qed.

Lemma publishName_world (activityName : Activity) (w : World) :
  let w' := fst (publishName activityName w) in
  listeners w' = listeners w /\
  (latestActivityState w' = latestActivityState w \/
   latestActivityState w' =
     {| name := activityName; confidence := Fin 0.5;
        isProtectionActive := isProtectionActive (latestActivityState w);
        anomaly := anomaly (latestActivityState w) |}).
Proof.
  unfold publishName.
  destruct (negb (Activity_eqb (name (latestActivityState w)) activityName)); cbn.
  - unfold afterNotify.
    destruct (snd (notifyListeners (publish w _))); cbn [fst];
      rewrite listeners_notifyListeners, latest_notifyListeners; cbn; auto.
  - auto.
Qed.

Lemma published_world (w : World) (s : ActivityState) :
  let w' := fst (afterNotify (notifyListeners (publish w s))) in
  listeners w' = listeners w /\ latestActivityState w' = s.
Proof.
  cbn zeta. rewrite latest_afterNotify, latest_notifyListeners.
  split; [|reflexivity].
  unfold afterNotify. destruct (snd (notifyListeners (publish w s))); cbn [fst];
    rewrite listeners_notifyListeners; reflexivity.
Qed.

Lemma acceptedb_accepted (sensorData : SensorData) :
  acceptedb sensorData = true <-> accepted sensorData.
Proof.
  unfold acceptedb, accepted.
  destruct (existsb (invalidField sensorData) requiredFields); cbn; split; congruence.
Qed.

(** The four ways a message leaves [predictActivity]: rejected; accepted
    while the service is stopped or has no settings; buffered; classified. *)
Lemma deliver_cases (sqrtQ : Q -> Q) (now nowFired : Z) (m : option SensorData)
    (st : HARModelService * World) :
  let this := fst st in
  let w := snd st in
  let st' := deliver sqrtQ (now, nowFired, m) st in
  (match m with Some sensorData => acceptedb sensorData | None => false end = false /\
   st' = st) \/
  (exists sensorData,
     m = Some sensorData /\ acceptedb sensorData = true /\
     ((settings this = None /\ isMonitoring this = true /\
       st' = (this, fst (publishName CALIBRATING w))) \/
      (isMonitoring this = false /\ st' = (this, fst (publishName IDLE w))) \/
      (exists theSettings,
         settings this = Some theSettings /\ isMonitoring this = true /\
         let buffer := pushSample (sensorDataBuffer this) (readSample sensorData) in
         (((length buffer < SENSOR_DATA_BUFFER_SIZE)%nat /\
           st' = (buffering buffer this, fst (publishName CALIBRATING w))) \/
          ((SENSOR_DATA_BUFFER_SIZE <= length buffer)%nat /\
           st' = (serviceOf sqrtQ now nowFired theSettings buffer this,
                  fst (afterNotify
                         (notifyListeners
                            (publish w (publishedOf sqrtQ now theSettings buffer this)))))))))).
Proof.
  destruct st as [this w]. cbn zeta. cbn [fst snd].
  unfold deliver. cbn [fst snd].
  destruct m as [sensorData|]; [|left; split; reflexivity].
  unfold predictActivity, acceptedb.
  destruct (existsb (invalidField sensorData) requiredFields) eqn:Hv; cbn [negb].
  - left. split; reflexivity.
  - right. exists sensorData. split; [reflexivity|].
    split; [rewrite Hv; reflexivity|].
    destruct (settings this) as [theSettings|] eqn:Hs.
    + destruct (isMonitoring this) eqn:Hm.
      * right. right. exists theSettings. split; [reflexivity|]. split; [reflexivity|].
        cbn zeta.
        destruct (length (pushSample (sensorDataBuffer this) (readSample sensorData))
                    <? SENSOR_DATA_BUFFER_SIZE)%nat eqn:Hl.
        -- left. apply Nat.ltb_lt in Hl. split; [exact Hl|]. reflexivity.
        -- right. apply Nat.ltb_ge in Hl. split; [exact Hl|].
           rewrite classifyWindow_eq. reflexivity.
      * right. left. split; reflexivity.
    + destruct (isMonitoring this) eqn:Hm.
      * left. repeat split; reflexivity.
      * right. left. split; reflexivity.
Qed.

(** ** What every call keeps *)

Lemma readSample_finite (sensorData : SensorData) :
  acceptedb sensorData = true -> finiteSample (readSample sensorData).
Proof.
  unfold acceptedb, requiredFields, invalidField, finiteSample, readSample, numberOf.
  cbn [existsb ax ay az gx gy gz]. intros H.
  destruct (sensorData f_ax) as [|[]|]; cbn in H; try discriminate;
  destruct (sensorData f_ay) as [|[]|]; cbn in H; try discriminate;
  destruct (sensorData f_az) as [|[]|]; cbn in H; try discriminate;
  destruct (sensorData f_gx) as [|[]|]; cbn in H; try discriminate;
  destruct (sensorData f_gy) as [|[]|]; cbn in H; try discriminate;
  destruct (sensorData f_gz) as [|[]|]; cbn in H; try discriminate.
  repeat split.
Qed.

Lemma Forall_tl (A : Type) (P : A -> Prop) (l : list A) : Forall P l -> Forall P (tl l).
Proof. intros H. destruct H; cbn; [constructor | assumption]. Qed.

Lemma Forall_pushSample (P : Sample -> Prop) (buffer : list Sample) (d : Sample) :
  Forall P buffer -> P d -> Forall P (pushSample buffer d).
Proof.
  intros Hb Hd. unfold pushSample, push, shift.
  assert (H : Forall P (buffer ++ [d])) by (apply Forall_app; split; [assumption | repeat constructor; assumption]).
  destruct (SENSOR_DATA_BUFFER_SIZE <? length (buffer ++ [d]))%nat;
    [apply Forall_tl|]; exact H.
Qed.

Lemma Forall_pushMovement (P : num -> Prop) (history : list num) (x : num) :
  Forall P history -> P x -> Forall P (pushMovement history x).
Proof.
  intros Hb Hd. unfold pushMovement, push, shift.
  assert (H : Forall P (history ++ [x])) by (apply Forall_app; split; [assumption | repeat constructor; assumption]).
  destruct (100 <? length (history ++ [x]))%nat; [apply Forall_tl|]; exact H.
Qed.

Lemma length_pushMovement (history : list num) (x : num) :
  (length history <= 100)%nat ->
  length (pushMovement history x) = Nat.min (S (length history)) 100.
Proof.
  intros H. unfold pushMovement, push, shift.
  destruct (100 <? length (history ++ [x]))%nat eqn:E.
  - apply Nat.ltb_lt in E. rewrite length_app in E. cbn in E.
    destruct history as [|y history]; cbn in *; [lia|].
    rewrite length_app. cbn. lia.
  - apply Nat.ltb_ge in E. rewrite length_app in *. cbn in *. lia.
Qed.

Lemma trackSession_long (activity : Activity) (h s : nat) (b : bool) :
  (b = true -> (30 < h)%nat) ->
  sessionActive (trackSession activity h s b) = true ->
  (30 < duration (trackSession activity h s b))%nat.
Proof.
  intros Hb. unfold trackSession.
  destruct (Activity_eqb activity WALKING || Activity_eqb activity RUNNING).
  - cbn [sessionActive duration].
    destruct b; cbn [negb andb].
    + intros _. specialize (Hb eq_refl). lia.
    + destruct (30 <? S h)%nat eqn:E; [|discriminate].
      intros _. apply Nat.ltb_lt in E. exact E.
  - destruct (Activity_eqb activity IDLE).
    + destruct (30 <? S s)%nat; cbn [sessionActive duration]; [discriminate | exact Hb].
    + cbn [sessionActive duration]. exact Hb.
Qed.

Lemma consistent_atImport : consistent atImport.
Proof.
  constructor; cbn [atImport fst snd constructed noSubscribers sensorDataBuffer
                      isMonitoring movementHistory walkingSessionActive
                      highMovementDuration lastActivity latestActivityState
                      initialActivityState name confidence isProtectionActive anomaly].
  - cbn. lia.
  - constructor.
  - reflexivity.
  - cbn. lia.
  - constructor.
  - discriminate.
  - left. reflexivity.
  - reflexivity.
  - reflexivity.
  - discriminate.
  - intros H. contradiction H. reflexivity.
Qed.

Lemma consistent_publishName (activityName : Activity) (this : HARModelService)
    (w : World) :
  consistent (this, w) ->
  (isMonitoring this = false -> activityName = IDLE) ->
  consistent (this, fst (publishName activityName w)).
Proof.
  intros [] Hname. cbn [fst snd] in *.
  pose proof (publishName_latest activityName w) as (Hn & Hnew & Hold).
  pose proof (publishName_world activityName w) as (_ & Hw).
  cbn zeta in *.
  constructor; cbn [fst snd]; try assumption.
  - destruct Hw as [-> | ->]; cbn; assumption.
  - intros Hm. rewrite Hn. auto.
  - intros Hc. destruct (Activity_eqb (name (latestActivityState w)) activityName) eqn:E.
    + apply Activity_eqb_eq in E. rewrite (Hold E) in *. auto.
    + apply Activity_eqb_neq in E. auto.
  - destruct Hw as [-> | ->]; cbn; assumption.
Qed.

Lemma consistent_buffering (buffer : list Sample) (this : HARModelService) (w : World) :
  consistent (this, w) -> isMonitoring this = true ->
  (length buffer <= SENSOR_DATA_BUFFER_SIZE)%nat -> Forall finiteSample buffer ->
  consistent (buffering buffer this, w).
Proof.
  intros [] Hm Hl Hf. cbn [fst snd] in *.
  constructor; cbn [fst snd buffering sensorDataBuffer isMonitoring movementHistory
                      walkingSessionActive highMovementDuration lastActivity];
    try assumption.
  intros H. congruence.
Qed.

Lemma length_pushSample_le (buffer : list Sample) (d : Sample) :
  (length buffer <= SENSOR_DATA_BUFFER_SIZE)%nat ->
  (length (pushSample buffer d) <= SENSOR_DATA_BUFFER_SIZE)%nat.
Proof. intros H. rewrite length_pushSample by exact H. lia. Qed.

Lemma consistent_classified (sqrtQ : Q -> Q) (now nowFired : Z) (theSettings : Settings)
    (sensorData : SensorData) (this : HARModelService) (w : World) :
  consistent (this, w) -> isMonitoring this = true -> acceptedb sensorData = true ->
  let buffer := pushSample (sensorDataBuffer this) (readSample sensorData) in
  consistent
    (serviceOf sqrtQ now nowFired theSettings buffer this,
     fst (afterNotify
            (notifyListeners
               (publish w (publishedOf sqrtQ now theSettings buffer this))))).
Proof.
  intros [] Hm Ha buffer. cbn [fst snd] in *.
  pose proof (published_world w (publishedOf sqrtQ now theSettings buffer this)) as (_ & Hw).
  cbn zeta in Hw.
  constructor; cbn [fst snd]; rewrite ?Hw;
    cbn [serviceOf sensorDataBuffer isMonitoring movementHistory walkingSessionActive
           highMovementDuration lastActivity publishedOf name confidence
           isProtectionActive anomaly].
  - apply length_pushSample_le. assumption.
  - apply Forall_pushSample; [assumption | apply readSample_finite; exact Ha].
  - congruence.
  - unfold historyOf. rewrite length_pushMovement by assumption. lia.
  - unfold historyOf. apply Forall_pushMovement; [assumption|].
    apply totalMovement_nonneg.
  - destruct (firedOf sqrtQ now theSettings buffer this); [discriminate|].
    unfold sessionOf. apply trackSession_long. assumption.
  - unfold smoothedOf. rewrite smoothActivity_last.
    apply smoothActivity_realLabel; [assumption | apply classify_realLabel].
  - reflexivity.
  - congruence.
  - intros Hc. exfalso.
    assert (Hr : realLabel (smoothedActivity (smoothedOf sqrtQ theSettings buffer this))).
    { unfold smoothedOf. apply smoothActivity_realLabel; [assumption | apply classify_realLabel]. }
    apply realLabel_iff in Hr. contradiction.
  - destruct (firedOf sqrtQ now theSettings buffer this).
    + intros _. split; reflexivity.
    + intros H. contradiction H. reflexivity.
Qed.

Lemma consistent_deliver (sqrtQ : Q -> Q) (d : Delivery) (st : HARModelService * World) :
  consistent st -> consistent (deliver sqrtQ d st).
Proof.
  intros H. destruct d as [[now nowFired] m].
  destruct (deliver_cases sqrtQ now nowFired m st)
    as [(_ & ->) | (sensorData & -> & Ha & [(Hs & Hm & ->) | [(Hm & ->) | (theSettings & Hs & Hm & Hc)]])].
  - exact H.
  - destruct st as [this w]. cbn [fst snd] in *.
    apply consistent_publishName; [exact H | congruence].
  - destruct st as [this w]. cbn [fst snd] in *.
    apply consistent_publishName; [exact H | reflexivity].
  - destruct st as [this w]. cbn [fst snd] in *. cbn zeta in Hc.
    destruct Hc as [(Hl & ->) | (Hl & ->)].
    + apply consistent_publishName; [|cbn; congruence].
      apply consistent_buffering; [exact H | exact Hm | lia |].
      apply Forall_pushSample; [apply (window_finite _ H) | apply readSample_finite; exact Ha].
    + apply consistent_classified; assumption.
Qed.

Lemma consistent_start (st : HARModelService * World) :
  consistent st -> consistent (fst (start (fst st) (snd st))).
Proof.
  intros []. destruct st as [this w]. cbn [fst snd] in *.
  unfold start.
  pose proof (latest_notifyListeners
                (publish w {| name := name (latestActivityState w);
                              confidence := confidence (latestActivityState w);
                              isProtectionActive := true;
                              anomaly := anomaly (latestActivityState w) |})) as Hw.
  destruct (notifyListeners _) as [w2 exn]. cbn [fst snd] in *.
  constructor; cbn [fst snd sensorDataBuffer isMonitoring movementHistory
                      walkingSessionActive highMovementDuration lastActivity];
    rewrite ?Hw; cbn [publish latestActivityState name confidence isProtectionActive anomaly];
    try assumption; try reflexivity; try discriminate.
Qed.

Lemma consistent_stop (st : HARModelService * World) :
  consistent st -> consistent (fst (stop (fst st) (snd st))).
Proof.
  intros []. destruct st as [this w]. cbn [fst snd] in *.
  unfold stop.
  pose proof (latest_notifyListeners
                (publish w {| name := IDLE; confidence := Fin 1;
                              isProtectionActive := false; anomaly := None |})) as Hw.
  destruct (notifyListeners _) as [w2 exn]. cbn [fst snd] in *.
  constructor; cbn [fst snd sensorDataBuffer isMonitoring movementHistory
                      walkingSessionActive highMovementDuration lastActivity];
    rewrite ?Hw; cbn [publish latestActivityState name confidence isProtectionActive anomaly];
    try assumption; try reflexivity; try discriminate.
  - cbn. lia.
  - constructor.
  - intros H. contradiction H. reflexivity.
Qed.

Lemma consistent_call (sqrtQ : Q -> Q) (c : Call) (st : HARModelService * World) :
  consistent st -> consistent (call sqrtQ c st).
Proof.
  intros H. destruct c; cbn [call].
  - apply consistent_start. exact H.
  - apply consistent_stop. exact H.
  - destruct H. constructor; assumption.
  - apply consistent_deliver. exact H.
  - destruct H. constructor; assumption.
  - destruct H. constructor; assumption.
Qed.

Lemma consistent_calls (sqrtQ : Q -> Q) (cs : list Call) (st : HARModelService * World) :
  consistent st -> consistent (calls sqrtQ cs st).
Proof.
  revert st. induction cs as [|c cs IH]; intros st H; cbn; [exact H|].
  apply IH, consistent_call, H.
Qed.

(** ** The range of the confidence *)

Lemma progress_nonneg (x lo d : Q) : 0 < d -> lo <= x -> 0 <= (x - lo) / d.
Proof. intros Hd Hx. apply Qle_shift_div_l; [exact Hd | lra]. Qed.

Lemma rising_bounds (cap base slope p : Q) :
  base <= cap -> 0 <= slope -> 0 <= p ->
  base <= Qmin cap (base + p * slope) /\ Qmin cap (base + p * slope) <= cap.
Proof.
  intros Hc Hs Hp. split.
  - apply Q.min_glb; [exact Hc|].
    assert (0 <= p * slope) by (apply Qmult_le_0_compat; assumption). lra.
  - apply Q.le_min_l.
Qed.

Lemma classify_confidence (theSettings : Settings) (x : num) :
  sensible theSettings -> nonNegative x ->
  exists c, reads (snd (classify (thresholdsOf theSettings) x)) c /\
            0.45 <= c /\ c <= 0.95.
Proof.
  intros (s & Hs & Hs0 & Hs1) (q & Hq & Hq0).
  unfold thresholdsOf.
  destruct (detectionSensitivity theSettings) as [a| | |]; try contradiction.
  cbn [reads] in Hs.
  assert (Ha0 : 0 <= a) by lra. assert (Ha1 : a <= 1) by lra.
  destruct x as [v| | |]; try contradiction. cbn [reads] in Hq.
  assert (Hv : 0 <= v) by lra.
  pose proof (adjustThresholds_reads a) as HT.
  pose proof (scaled_bounds a Ha0 Ha1) as (Hi & His & Hsw & Hwr).
  set (T := adjustThresholds (Fin a)) in *.
  set (ti := scaled 0.5 0.6 a) in *. set (ts := scaled 2 0.6 a) in *.
  set (tw := scaled 8 0.4 a) in *. set (tr := scaled 20 0.3 a) in *.
  destruct (Qlt_le_dec tr v) as [Hr|Hr].
  { destruct (classify_running T ti ts tw tr HT v Hr) as (c & E & Hc); [lra|].
    exists (Qmin 0.95 (0.75 + (v - tr) / tr * 0.2)). rewrite E. split; [exact Hc|].
    destruct (rising_bounds 0.95 0.75 0.2 ((v - tr) / tr)) as (L & U);
      [lra | lra | apply progress_nonneg; lra |]. lra. }
  destruct (Qlt_le_dec tw v) as [Hw|Hw].
  { destruct (classify_walking T ti ts tw tr HT v Hr Hw Hwr) as (c & E & Hc).
    exists (Qmin 0.92 (0.65 + (v - tw) / (tr - tw) * 0.27)). rewrite E. split; [exact Hc|].
    destruct (rising_bounds 0.92 0.65 0.27 ((v - tw) / (tr - tw))) as (L & U);
      [lra | lra | apply progress_nonneg; lra |]. lra. }
  destruct (Qlt_le_dec ts v) as [Hst|Hst].
  { destruct (classify_standing T ti ts tw tr HT v Hr Hw Hst Hsw) as (c & E & Hc).
    exists (Qmin 0.88 (0.55 + (v - ts) / (tw - ts) * 0.33)). rewrite E. split; [exact Hc|].
    destruct (rising_bounds 0.88 0.55 0.33 ((v - ts) / (tw - ts))) as (L & U);
      [lra | lra | apply progress_nonneg; lra |]. lra. }
  destruct (Qlt_le_dec ti v) as [Hl|Hl].
  { destruct (classify_light T ti ts tw tr HT v Hr Hw Hst Hl His) as (c & E & Hc).
    exists (Qmin 0.82 (0.45 + (v - ti) / (ts - ti) * 0.37)). rewrite E. split; [exact Hc|].
    destruct (rising_bounds 0.82 0.45 0.37 ((v - ti) / (ts - ti))) as (L & U);
      [lra | lra | apply progress_nonneg; lra |]. lra. }
  destruct (classify_idle T ti ts tw tr HT v Hr Hw Hst Hl Hi) as (c & E & Hc).
  exists (Qmax 0.7 (0.95 - Qmin 1 (v / ti) * 0.25)). rewrite E. split; [exact Hc|].
  assert (Hm : 0 <= Qmin 1 (v / ti)).
  { apply Q.min_glb; [lra|]. apply Qle_shift_div_l; [exact Hi | lra]. }
  split.
  - pose proof (Q.le_max_l 0.7 (0.95 - Qmin 1 (v / ti) * 0.25)). lra.
  - apply Q.max_lub; lra.
Qed.

Lemma smoothActivity_confidence (lastActivity activity : Activity) (count : nat)
    (confidence : num) (c : Q) :
  reads confidence c -> 0.45 <= c -> c <= 0.95 ->
  exists c', reads (smoothedConfidence
                      (smoothActivity lastActivity count activity confidence)) c' /\
             0.3 <= c' /\ c' <= 0.95.
Proof.
  intros Hc L U. unfold smoothActivity.
  destruct (negb (Activity_eqb activity lastActivity));
    [destruct (needsSmoothing lastActivity activity (S count))|];
    cbn [smoothedConfidence]; try (exists c; repeat split; [exact Hc | lra | lra]).
  exists (Qmax 0.3 (c - 0.3)). split.
  - apply reads_max; [apply reads_Fin | apply reads_sub; [exact Hc | apply reads_Fin]].
  - split; [apply Q.le_max_l | apply Q.max_lub; lra].
Qed.

Lemma round2_bounds (c : Q) : 0.3 <= c -> c <= 0.95 -> 0.3 <= round2 c /\ round2 c <= 0.95.
Proof.
  intros L U.
  pose proof (round2_monotone _ _ L) as HL. pose proof (round2_monotone _ _ U) as HU.
  assert (E1 : round2 0.3 == 0.3) by reflexivity.
  assert (E2 : round2 0.95 == 0.95) by reflexivity.
  lra.
Qed.

Lemma publishedOf_confidence (sqrtQ : Q -> Q) (now : Z) (theSettings : Settings)
    (buffer : list Sample) (this : HARModelService) :
  sensible theSettings ->
  exists c, reads (confidence (publishedOf sqrtQ now theSettings buffer this)) c /\
            0.3 <= c /\ c <= 0.95.
Proof.
  intros Hs. cbn [publishedOf confidence]. unfold smoothedOf, rawOf.
  destruct (classify_confidence theSettings (totalMovement sqrtQ buffer) Hs
              (totalMovement_nonneg sqrtQ buffer)) as (c & Hc & L & U).
  destruct (smoothActivity_confidence (lastActivity this)
              (fst (classify (thresholdsOf theSettings) (totalMovement sqrtQ buffer)))
              (activityChangeCount this) _ c Hc L U) as (c' & Hc' & L' & U').
  exists (round2 c'). split.
  - apply toFixed2_reads; [exact Hc' | lra].
  - apply round2_bounds; assumption.
Qed.

Lemma confidenceInRange_publishName (activityName : Activity) (w : World) :
  confidenceInRange (latestActivityState w) ->
  confidenceInRange (latestActivityState (fst (publishName activityName w))).
Proof.
  intros H. destruct (publishName_world activityName w) as (_ & [-> | ->]);
    [exact H|].
  exists 0.5. cbn [confidence]. split; [apply reads_Fin | lra].
Qed.

Lemma confidenceInRange_deliver (sqrtQ : Q -> Q) (d : Delivery)
    (st : HARModelService * World) :
  (forall theSettings, settings (fst st) = Some theSettings -> sensible theSettings) ->
  confidenceInRange (latestActivityState (snd st)) ->
  settings (fst (deliver sqrtQ d st)) = settings (fst st) /\
  confidenceInRange (latestActivityState (snd (deliver sqrtQ d st))).
Proof.
  intros Hset H. destruct d as [[now nowFired] m].
  destruct (deliver_cases sqrtQ now nowFired m st)
    as [(_ & ->) | (sensorData & -> & Ha & [(Hs & Hm & ->) | [(Hm & ->) | (theSettings & Hs & Hm & Hc)]])];
    cbn [fst snd].
  - split; [reflexivity | exact H].
  - split; [reflexivity | apply confidenceInRange_publishName; exact H].
  - split; [reflexivity | apply confidenceInRange_publishName; exact H].
  - cbn zeta in Hc. destruct Hc as [(Hl & ->) | (Hl & ->)]; cbn [fst snd].
    + split; [reflexivity | apply confidenceInRange_publishName; exact H].
    + split; [reflexivity|].
      destruct (published_world (snd st)
                  (publishedOf sqrtQ now theSettings
                     (pushSample (sensorDataBuffer (fst st)) (readSample sensorData))
                     (fst st))) as (_ & ->).
      destruct (publishedOf_confidence sqrtQ now theSettings
                  (pushSample (sensorDataBuffer (fst st)) (readSample sensorData))
                  (fst st) (Hset _ Hs)) as (c & Hc & L & U).
      exists c. split; [exact Hc | lra].
Qed.

Lemma confidenceInRange_call (sqrtQ : Q -> Q) (c : Call) (st : HARModelService * World) :
  sensibleCall c ->
  (forall theSettings, settings (fst st) = Some theSettings -> sensible theSettings) ->
  confidenceInRange (latestActivityState (snd st)) ->
  (forall theSettings,
     settings (fst (call sqrtQ c st)) = Some theSettings -> sensible theSettings) /\
  confidenceInRange (latestActivityState (snd (call sqrtQ c st))).
Proof.
  intros Hc Hset H. destruct st as [this w].
  destruct c as [| |newSettings|d|callback|callback]; cbn [call fst snd] in *.
  - unfold start.
    pose proof (latest_notifyListeners
                  (publish w {| name := name (latestActivityState w);
                                confidence := confidence (latestActivityState w);
                                isProtectionActive := true;
                                anomaly := anomaly (latestActivityState w) |})) as Hw.
    destruct (notifyListeners _) as [w2 exn]. cbn [fst snd settings] in *.
    split; [exact Hset|]. rewrite Hw. exact H.
  - unfold stop.
    pose proof (latest_notifyListeners
                  (publish w {| name := IDLE; confidence := Fin 1;
                                isProtectionActive := false; anomaly := None |})) as Hw.
    destruct (notifyListeners _) as [w2 exn]. cbn [fst snd settings] in *.
    split; [exact Hset|]. rewrite Hw. exists 1. cbn. split; [reflexivity | lra].
  - split; [|exact H]. cbn [_refreshSettings settings]. intros theSettings E.
    subst newSettings. exact Hc.
  - destruct (confidenceInRange_deliver sqrtQ d (this, w) Hset H) as (E & H').
    split; [|exact H']. rewrite E. exact Hset.
  - split; [exact Hset | exact H].
  - split; [exact Hset | exact H].
Qed.

(** ** The window over a feed *)

Lemma pushSample_lastn (buffer : list Sample) (d : Sample) :
  (length buffer <= SENSOR_DATA_BUFFER_SIZE)%nat ->
  pushSample buffer d = lastn SENSOR_DATA_BUFFER_SIZE (buffer ++ [d]).
Proof.
  intros H. unfold pushSample, push, shift, lastn, SENSOR_DATA_BUFFER_SIZE in *.
  rewrite length_app. cbn [length].
  destruct (25 <? length buffer + 1)%nat eqn:E.
  - apply Nat.ltb_lt in E.
    replace (length buffer + 1 - 25)%nat with 1%nat by lia. reflexivity.
  - apply Nat.ltb_ge in E.
    replace (length buffer + 1 - 25)%nat with 0%nat by lia. reflexivity.
Qed.

Lemma length_lastn (A : Type) (n : nat) (l : list A) :
  length (lastn n l) = Nat.min n (length l).
Proof. unfold lastn. rewrite length_skipn. lia. Qed.

Lemma lastn_lastn_app (A : Type) (n : nat) (l r : list A) :
  lastn n (lastn n l ++ r) = lastn n (l ++ r).
Proof.
  unfold lastn at 1 3. rewrite !length_app, length_lastn.
  destruct (Nat.le_gt_cases (length l) n) as [H|H].
  - unfold lastn. replace (length l - n)%nat with 0%nat by lia. cbn [skipn].
    replace (Nat.min n (length l)) with (length l) by lia. reflexivity.
  - replace (Nat.min n (length l) + length r - n)%nat with (length r) by lia.
    replace (length l + length r - n)%nat with (length r + (length l - n))%nat by lia.
    rewrite <- skipn_skipn. f_equal.
    unfold lastn. rewrite skipn_app.
    replace (length l - n - length l)%nat with 0%nat by lia. reflexivity.
Qed.

Lemma fold_pushSample_lastn (samples buffer : list Sample) :
  (length buffer <= SENSOR_DATA_BUFFER_SIZE)%nat ->
  fold_left pushSample samples buffer =
  lastn SENSOR_DATA_BUFFER_SIZE (buffer ++ samples).
Proof.
  revert buffer. induction samples as [|d samples IH]; intros buffer H; cbn [fold_left].
  - rewrite app_nil_r. unfold lastn.
    replace (length buffer - SENSOR_DATA_BUFFER_SIZE)%nat with 0%nat by lia. reflexivity.
  - rewrite IH by (apply length_pushSample_le; exact H).
    rewrite pushSample_lastn by exact H.
    rewrite lastn_lastn_app, <- app_assoc. reflexivity.
Qed.

(** A message on a service that monitors with its settings loaded: the
    window takes it if it is accepted; the flag and the settings stay. *)
Lemma deliver_monitoring (sqrtQ : Q -> Q) (d : Delivery) (st : HARModelService * World)
    (theSettings : Settings) :
  isMonitoring (fst st) = true -> settings (fst st) = Some theSettings ->
  let st' := deliver sqrtQ d st in
  isMonitoring (fst st') = true /\ settings (fst st') = Some theSettings /\
  sensorDataBuffer (fst st') =
    fold_left pushSample (samplesOf [d]) (sensorDataBuffer (fst st)).
Proof.
  intros Hm Hs. destruct d as [[now nowFired] m]. cbn zeta.
  unfold samplesOf. cbn [flat_map snd]. rewrite app_nil_r.
  destruct (deliver_cases sqrtQ now nowFired m st)
    as [(Hr & ->) | (sensorData & -> & Ha & [(Hs' & _ & _) | [(Hm' & _) | (s & Hs' & _ & Hc)]])];
    try congruence.
  - repeat split; try assumption.
    destruct m as [sensorData|]; [rewrite Hr|]; reflexivity.
  - rewrite Ha. cbn zeta in Hc. cbn [fold_left].
    destruct Hc as [(_ & ->) | (_ & ->)]; cbn [fst snd buffering serviceOf isMonitoring
                                                 settings sensorDataBuffer];
      repeat split; assumption.
Qed.

Lemma samplesOf_cons (d : Delivery) (ds : list Delivery) :
  samplesOf (d :: ds) = samplesOf [d] ++ samplesOf ds.
Proof. unfold samplesOf. cbn [flat_map]. rewrite app_nil_r. reflexivity. Qed.

Lemma feed_monitoring (sqrtQ : Q -> Q) (ds : list Delivery)
    (st : HARModelService * World) (theSettings : Settings) :
  isMonitoring (fst st) = true -> settings (fst st) = Some theSettings ->
  let st' := feed sqrtQ ds st in
  isMonitoring (fst st') = true /\ settings (fst st') = Some theSettings /\
  sensorDataBuffer (fst st') =
    fold_left pushSample (samplesOf ds) (sensorDataBuffer (fst st)).
Proof.
  revert st. induction ds as [|d ds IH]; intros st Hm Hs; cbn zeta.
  - cbn. auto.
  - cbn [feed fold_left].
    destruct (deliver_monitoring sqrtQ d st theSettings Hm Hs) as (Hm' & Hs' & Hb).
    destruct (IH (deliver sqrtQ d st) Hm' Hs') as (Hm'' & Hs'' & Hb'').
    unfold feed in *. cbn zeta in *.
    repeat split; try assumption.
    rewrite Hb'', Hb, (samplesOf_cons d ds), fold_left_app. reflexivity.
Qed.

Lemma length_samplesOf (ds : list Delivery) : length (samplesOf ds) = acceptedCount ds.
Proof.
  unfold samplesOf, acceptedCount.
  induction ds as [|[[now nowFired] m] ds IH]; cbn [flat_map filter snd length];
    [reflexivity|].
  rewrite length_app, IH.
  destruct m as [sensorData|]; [destruct (acceptedb sensorData)|]; reflexivity.
Qed.

(** ** A stopped service, and a service without settings *)

Lemma publishName_same (activityName : Activity) (w : World) :
  name (latestActivityState w) = activityName ->
  fst (publishName activityName w) = w.
Proof.
  intros H. unfold publishName. rewrite H.
  assert (E : Activity_eqb activityName activityName = true) by (apply Activity_eqb_eq; reflexivity).
  rewrite E. reflexivity.
Qed.

Lemma deliver_stopped (sqrtQ : Q -> Q) (d : Delivery) (st : HARModelService * World) :
  isMonitoring (fst st) = false -> name (latestActivityState (snd st)) = IDLE ->
  deliver sqrtQ d st = st.
Proof.
  intros Hm Hn. destruct d as [[now nowFired] m].
  destruct (deliver_cases sqrtQ now nowFired m st)
    as [(_ & E) | (sensorData & _ & _ & [(_ & Hm' & _) | [(_ & E) | (s & _ & Hm' & _)]])];
    try congruence.
  rewrite E, publishName_same by exact Hn. destruct st; reflexivity.
Qed.

Lemma feed_stopped (sqrtQ : Q -> Q) (ds : list Delivery) (st : HARModelService * World) :
  isMonitoring (fst st) = false -> name (latestActivityState (snd st)) = IDLE ->
  feed sqrtQ ds st = st.
Proof.
  intros Hm Hn. induction ds as [|d ds IH]; cbn [feed fold_left]; [reflexivity|].
  rewrite deliver_stopped by assumption. exact IH.
Qed.

Lemma deliver_without_settings (sqrtQ : Q -> Q) (d : Delivery)
    (st : HARModelService * World) :
  isMonitoring (fst st) = true -> settings (fst st) = None ->
  let st' := deliver sqrtQ d st in
  fst st' = fst st /\
  snd st' =
    match snd d with
    | Some sensorData =>
        if acceptedb sensorData then fst (publishName CALIBRATING (snd st)) else snd st
    | None => snd st
    end.
Proof.
  intros Hm Hs. destruct d as [[now nowFired] m]. cbn zeta. cbn [snd].
  destruct (deliver_cases sqrtQ now nowFired m st)
    as [(Hr & ->) | (sensorData & -> & Ha & [(_ & _ & ->) | [(Hm' & _) | (s & Hs' & _)]])];
    try congruence.
  - split; [reflexivity|].
    destruct m as [sensorData|]; [rewrite Hr|]; reflexivity.
  - rewrite Ha. split; reflexivity.
Qed.

(** ** Ticks that raise no anomaly *)

Lemma firedOf_guard (sqrtQ : Q -> Q) (now : Z) (theSettings : Settings)
    (buffer : list Sample) (this : HARModelService) :
  firedOf sqrtQ now theSettings buffer this = true ->
  (50 <= length (historyOf sqrtQ buffer this))%nat /\
  (50 <= S (highMovementDuration this))%nat /\
  (30000 < now - lastSuddenStopTime this)%Z.
Proof.
  unfold firedOf. intros H. apply suddenStop_guard in H.
  destruct H as (Hh & _ & Hd & Ht & _).
  pose proof (trackSession_duration
                (smoothedActivity (smoothedOf sqrtQ theSettings buffer this))
                (highMovementDuration this) (consecutiveStillReadings this)
                (walkingSessionActive this)) as Hle.
  unfold sessionOf in Hd. repeat split; [exact Hh | lia | exact Ht].
Qed.

Lemma length_historyOf (sqrtQ : Q -> Q) (buffer : list Sample) (this : HARModelService) :
  (length (historyOf sqrtQ buffer this) <= S (length (movementHistory this)))%nat.
Proof.
  unfold historyOf, pushMovement, push, shift.
  destruct (100 <? _)%nat.
  - destruct (movementHistory this); cbn; [lia|]. rewrite length_app. cbn. lia.
  - rewrite length_app. cbn. lia.
Qed.

Lemma deliver_quiet (sqrtQ : Q -> Q) (now nowFired : Z) (m : option SensorData)
    (st : HARModelService * World) :
  anomaly (latestActivityState (snd st)) = None ->
  cannotFire now (fst st) ->
  let st' := deliver sqrtQ (now, nowFired, m) st in
  anomaly (latestActivityState (snd st')) = None /\
  lastSuddenStopTime (fst st') = lastSuddenStopTime (fst st) /\
  let k := if match m with Some sensorData => acceptedb sensorData | None => false end
           then 1%nat else 0%nat in
  (highMovementDuration (fst st') <= highMovementDuration (fst st) + k)%nat /\
  (length (movementHistory (fst st')) <= length (movementHistory (fst st)) + k)%nat.
Proof.
  intros Hn Hq. cbn zeta.
  destruct (deliver_cases sqrtQ now nowFired m st)
    as [(Hr & ->) | (sensorData & -> & Ha & Hc)].
  - repeat split; try assumption; lia.
  - rewrite Ha.
    assert (Hp : forall a, anomaly (latestActivityState (fst (publishName a (snd st)))) = None).
    { intros a. destruct (publishName_world a (snd st)) as (_ & [-> | ->]); exact Hn. }
    destruct Hc as [(_ & _ & ->) | [(_ & ->) | (theSettings & _ & _ & Hc)]];
      cbn [fst snd].
    + repeat split; try apply Hp; lia.
    + repeat split; try apply Hp; lia.
    + cbn zeta in Hc. destruct Hc as [(_ & ->) | (_ & ->)]; cbn [fst snd].
      * cbn [buffering lastSuddenStopTime highMovementDuration movementHistory].
        repeat split; try apply Hp; lia.
      * set (buffer := pushSample (sensorDataBuffer (fst st)) (readSample sensorData)).
        destruct (published_world (snd st) (publishedOf sqrtQ now theSettings buffer (fst st)))
          as (_ & ->).
        cbn [serviceOf publishedOf anomaly lastSuddenStopTime highMovementDuration
               movementHistory].
        pose proof (length_historyOf sqrtQ buffer (fst st)) as Hlen.
        destruct (firedOf sqrtQ now theSettings buffer (fst st)) eqn:Hf.
        -- exfalso. apply firedOf_guard in Hf. destruct Hf as (Hh & Hd & Ht).
           destruct Hq as [Hq | [Hq | Hq]]; lia.
        -- repeat split; try lia.
           unfold sessionOf.
           pose proof (trackSession_duration
                         (smoothedActivity (smoothedOf sqrtQ theSettings buffer (fst st)))
                         (highMovementDuration (fst st))
                         (consecutiveStillReadings (fst st))
                         (walkingSessionActive (fst st))). lia.
Qed.

Lemma acceptedCount_cons (d : Delivery) (ds : list Delivery) :
  acceptedCount (d :: ds) = (acceptedCount [d] + acceptedCount ds)%nat.
Proof.
  unfold acceptedCount. cbn [filter].
  destruct (match snd d with Some sensorData => acceptedb sensorData | None => false end);
    reflexivity.
Qed.

(** ** Thresholds that are not numbers *)

Lemma classify_NaN (x : num) :
  classify (adjustThresholds NaN) x = (IDLE, Fin (19 # 20)).
Proof. destruct x; reflexivity. Qed.

Lemma suddenStop_NaN (history : list num) (active : bool) (duration : nat) (t : Z) :
  suddenStop (adjustThresholds NaN) history active duration t = false.
Proof.
  unfold suddenStop, dropDetected.
  assert (E : forall a, gt a (mul (MOVEMENT_THRESHOLD_WALKING (adjustThresholds NaN)) (Fin 1.5))
                        = false) by (intros a; destruct a; reflexivity).
  rewrite !E. rewrite ?andb_false_r. reflexivity.
Qed.

(** ** Consecutive ticks *)

Lemma smoothRun_same (activity : Activity) (confidences : list num) :
  smoothRun activity 0 (map (fun c => (activity, c)) confidences) =
  repeat activity (length confidences).
Proof.
  induction confidences as [|c cs IH]; cbn [map smoothRun repeat length fst snd];
    [reflexivity|].
  rewrite smoothActivity_same. cbn [smoothedActivity nextLastActivity nextChangeCount].
  rewrite IH. reflexivity.
Qed.

(** ** Subscribers *)

Lemma notifyLoop_called (ls : list Listener) (s : ActivityState)
    (log : list (nat * ActivityState)) :
  exists called rest,
    ls = called ++ rest /\
    fst (notifyLoop ls s log) = log ++ map (fun l => (lid l, s)) called.
Proof.
  revert log. induction ls as [|l ls IH]; intros log; cbn [notifyLoop].
  - exists [], []. split; [reflexivity|]. cbn. rewrite app_nil_r. reflexivity.
  - destruct (react l s).
    + exists [l], ls. split; reflexivity.
    + destruct (IH (push log (lid l, s))) as (called & rest & -> & E).
      exists (l :: called), rest. split; [reflexivity|].
      rewrite E. unfold push. rewrite <- app_assoc. reflexivity.
Qed.

(** ** The sensor feed *)

Lemma combinedData_accepted (accel gyro : sensorService.Measurement) :
  sensorService.finiteMeasurement accel -> sensorService.finiteMeasurement gyro ->
  acceptedb (sensorService.combinedData accel gyro) = true.
Proof.
  intros (a1 & a2 & a3 & E1 & E2 & E3) (g1 & g2 & g3 & E4 & E5 & E6).
  unfold acceptedb, requiredFields, invalidField, sensorService.combinedData.
  cbn [existsb]. rewrite E1, E2, E3, E4, E5, E6. reflexivity.
Qed.

Lemma finiteMeasurement_zero :
  sensorService.finiteMeasurement
    {| sensorService.x := JNumber (Fin 0); sensorService.y := JNumber (Fin 0);
       sensorService.z := JNumber (Fin 0) |}.
Proof. exists 0, 0, 0. repeat split. Qed.

Lemma messages_accepted (isGyroAvailable : bool) (es : list sensorService.Event)
    (s : sensorService.Readings) :
  Forall sensorService.finiteEvent es ->
  sensorService.finiteMeasurement (sensorService.lastAccel s) ->
  sensorService.finiteMeasurement (sensorService.lastGyro s) ->
  Forall (fun m => acceptedb m = true) (sensorService.messages isGyroAvailable es s) /\
  length (sensorService.messages isGyroAvailable es s) =
    length (filter (sensorService.sends isGyroAvailable) es).
Proof.
  intros Hes. revert s. induction Hes as [|e es He _ IH]; intros s Ha Hg.
  - cbn. split; [constructor | reflexivity].
  - cbn [sensorService.messages filter].
    destruct e as [m|m]; cbn [sensorService.onEvent sensorService.sends];
      cbn [sensorService.finiteEvent] in He; destruct isGyroAvailable; cbn [negb].
    + destruct (IH {| sensorService.lastAccel := m;
                      sensorService.lastGyro := sensorService.lastGyro s |} He Hg)
        as (H1 & H2). split; assumption.
    + destruct (IH {| sensorService.lastAccel := m;
                      sensorService.lastGyro := sensorService.lastGyro s |} He Hg)
        as (H1 & H2).
      split; [constructor; [|exact H1] | cbn [length]; rewrite H2; reflexivity].
      apply combinedData_accepted; [exact He | apply finiteMeasurement_zero].
    + destruct (IH {| sensorService.lastAccel := sensorService.lastAccel s;
                      sensorService.lastGyro := m |} Ha He)
        as (H1 & H2).
      split; [constructor; [|exact H1] | cbn [length]; rewrite H2; reflexivity].
      apply combinedData_accepted; assumption.
    + destruct (IH s Ha Hg) as (H1 & H2). split; assumption.
Qed.


(** ** The activity screen *)

Lemma slice_first_five (A : Type) (l : list A) : slice 0 (Some 5%Z) l = firstn 5 l.
Proof.
  unfold slice, relIndex.
  change (0 <? 0)%Z with false. change (5 <? 0)%Z with false.
  change (Z.to_nat 0) with 0%nat. change (Z.to_nat 5) with 5%nat. cbv iota.
  rewrite Nat.min_0_l, Nat.sub_0_r. cbn [skipn].
  destruct (Nat.le_gt_cases 5 (length l)) as [H|H].
  - rewrite Nat.min_l by exact H. reflexivity.
  - rewrite Nat.min_r by lia. rewrite !firstn_all2 by lia. reflexivity.
Qed.

Lemma nonNegative_atLeastZero (x : num) : nonNegative x -> atLeastZero x.
Proof.
  intros (q & Hq & H0). destruct x as [v| | |]; try contradiction.
  cbn [reads] in Hq. cbn [atLeastZero]. lra.
Qed.

(** * Properties of the service in use *)

(** X1.  Whatever calls are made on the service and its module after the
    module is evaluated, the window never holds more than 25 messages and the
    movement history never more than 100 scores. *)
Theorem window_and_history_stay_bounded (sqrtQ : Q -> Q) (cs : list Call) :
  let this := fst (calls sqrtQ cs atImport) in
  (length (sensorDataBuffer this) <= SENSOR_DATA_BUFFER_SIZE)%nat /\
  (length (movementHistory this) <= 100)%nat.
Proof.
  pose proof (consistent_calls sqrtQ cs atImport consistent_atImport) as [].
  split; assumption.
Qed.

(** X2.  Whatever calls are made, every message in the window has six finite
    fields and no score of the movement history is [NaN] or negative.  (A
    score is pushed as computed, before the test that replaces a score that
    is not finite by 0 for the classification.) *)
Theorem window_is_finite_and_scores_are_not_negative (sqrtQ : Q -> Q) (cs : list Call) :
  let this := fst (calls sqrtQ cs atImport) in
  Forall finiteSample (sensorDataBuffer this) /\
  Forall atLeastZero (movementHistory this).
Proof.
  pose proof (consistent_calls sqrtQ cs atImport consistent_atImport) as [].
  split; [assumption|].
  eapply Forall_impl; [|eassumption]. apply nonNegative_atLeastZero.
Qed.

(** X3.  The published [isProtectionActive] flag always equals the service's
    [isMonitoring]; and while the service is stopped its window is empty and
    the published activity is IDLE. *)
Theorem published_flag_tracks_monitoring (sqrtQ : Q -> Q) (cs : list Call) :
  let st := calls sqrtQ cs atImport in
  isProtectionActive (latestActivityState (snd st)) = isMonitoring (fst st) /\
  (isMonitoring (fst st) = false ->
   sensorDataBuffer (fst st) = [] /\ name (latestActivityState (snd st)) = IDLE).
Proof.
  pose proof (consistent_calls sqrtQ cs atImport consistent_atImport) as [].
  cbn zeta. split; [assumption|]. intros H. split; auto.
Qed.

Lemma published_flag_tracks_monitoring_witness :
  let st := calls sqrtQ_floor [CallStart; CallStop] atImport in
  sensorDataBuffer (fst st) = [] /\ name (latestActivityState (snd st)) = IDLE.
Proof.
  apply (published_flag_tracks_monitoring sqrtQ_floor [CallStart; CallStop]).
  reflexivity.
Defined.

(** X4.  A walking session is active only once more than 30 high-movement
    ticks are counted; and while a raised anomaly is the published one, the
    count is back at 0 and the session is over. *)
Theorem walking_session_needs_31_ticks (sqrtQ : Q -> Q) (cs : list Call) :
  let st := calls sqrtQ cs atImport in
  (walkingSessionActive (fst st) = true -> (30 < highMovementDuration (fst st))%nat) /\
  (anomaly (latestActivityState (snd st)) <> None ->
   highMovementDuration (fst st) = 0%nat /\ walkingSessionActive (fst st) = false).
Proof.
  pose proof (consistent_calls sqrtQ cs atImport consistent_atImport) as [].
  split; assumption.
Qed.

Lemma walking_session_needs_31_ticks_witness :
  let st := calls sqrtQ_floor
              (CallRefreshSettings (Some {| detectionSensitivity := Fin 1 |})
               :: CallStart
               :: map CallPredictActivity (turning 1700000000000 (alternate 56 0.19 1.1)))
              atImport in
  (30 < highMovementDuration (fst st))%nat.
Proof.
  apply (walking_session_needs_31_ticks sqrtQ_floor).
  vm_compute. reflexivity.
Defined.

(** X5.  As long as the settings loaded carry a sensitivity from 0 to 1, the
    published confidence is a number from 0.3 to 1, it is 0.5 whenever the
    published activity is CALIBRATING, and a tick that classifies publishes a
    confidence from 0.3 to 0.95. *)
Theorem published_confidence_range (sqrtQ : Q -> Q) (cs : list Call) :
  Forall sensibleCall cs ->
  let st := calls sqrtQ cs atImport in
  let s := latestActivityState (snd st) in
  confidenceInRange s /\ (name s = CALIBRATING -> confidence s = Fin 0.5) /\
  (forall (now nowFired : Z) (sensorData : SensorData),
     classifies sensorData (fst st) ->
     exists c,
       reads (confidence
                (latestActivityState
                   (snd (fst (predictActivity sqrtQ now nowFired (Some sensorData)
                                              (fst st) (snd st)))))) c /\
       0.3 <= c /\ c <= 0.95).
Proof.
  intros Hcs. cbn zeta.
  assert (H : forall st,
             (forall theSettings,
                settings (fst st) = Some theSettings -> sensible theSettings) ->
             confidenceInRange (latestActivityState (snd st)) ->
             (forall theSettings,
                settings (fst (calls sqrtQ cs st)) = Some theSettings ->
                sensible theSettings) /\
             confidenceInRange (latestActivityState (snd (calls sqrtQ cs st)))).
  { induction Hcs as [|c cs Hc _ IH]; intros st Hset Hr; cbn [calls fold_left].
    - split; assumption.
    - destruct (confidenceInRange_call sqrtQ c st Hc Hset Hr) as (Hset' & Hr').
      apply IH; assumption. }
  destruct (H atImport) as (Hset & Hr).
  - cbn. discriminate.
  - exists 1. cbn. split; [reflexivity | lra].
  - split; [exact Hr|]. split.
    + pose proof (consistent_calls sqrtQ cs atImport consistent_atImport) as [].
      assumption.
    + intros now nowFired sensorData Hc.
      assert (Es : exists theSettings,
                 settings (fst (calls sqrtQ cs atImport)) = Some theSettings).
      { destruct Hc as (_ & _ & Hne & _).
        destruct (settings (fst (calls sqrtQ cs atImport))) as [theSettings|];
          [exists theSettings; reflexivity | contradiction Hne; reflexivity]. }
      destruct Es as (theSettings & Es).
      rewrite (predictActivity_classifies sqrtQ now nowFired sensorData _ _
                 theSettings Hc Es).
      rewrite classifyWindow_published.
      apply publishedOf_confidence. apply Hset. exact Es.
Qed.

Lemma published_confidence_range_witness :
  let cs := CallRefreshSettings (Some {| detectionSensitivity := Fin 0.5 |})
            :: CallStart
            :: map CallPredictActivity (turning 1700000000000 (alternate 30 0.19 1.1)) in
  confidenceInRange (latestActivityState (snd (calls sqrtQ_floor cs atImport))).
Proof.
  cbn zeta.
  refine (proj1 (published_confidence_range sqrtQ_floor _ _)).
  apply Forall_cons.
  - exists 0.5. split; [reflexivity | split; lra].
  - apply Forall_cons; [exact I|].
    apply Forall_forall. intros c Hc. apply in_map_iff in Hc.
    destruct Hc as (d & <- & _). exact I.
Defined.

(** X6.  On a service that monitors with its settings loaded, the window
    after a feed holds the last 25 of the messages it held before followed by
    the accepted messages of the feed, in their order. *)
Theorem window_holds_last_25_accepted (sqrtQ : Q -> Q) (ds : list Delivery)
    (this : HARModelService) (w : World) (theSettings : Settings) :
  isMonitoring this = true -> settings this = Some theSettings ->
  (length (sensorDataBuffer this) <= SENSOR_DATA_BUFFER_SIZE)%nat ->
  sensorDataBuffer (fst (feed sqrtQ ds (this, w))) =
  lastn SENSOR_DATA_BUFFER_SIZE (sensorDataBuffer this ++ samplesOf ds).
Proof.
  intros Hm Hs Hl.
  destruct (feed_monitoring sqrtQ ds (this, w) theSettings Hm Hs) as (_ & _ & E).
  cbn [fst] in E. rewrite E. apply fold_pushSample_lastn. exact Hl.
Qed.

Lemma window_holds_last_25_accepted_witness :
  let ds := turning 1700000000000 (alternate 30 0.19 1.1) in
  sensorDataBuffer (fst (feed sqrtQ_floor ds (fst started, snd started))) =
  lastn SENSOR_DATA_BUFFER_SIZE (sensorDataBuffer (fst started) ++ samplesOf ds).
Proof.
  cbn zeta.
  apply (window_holds_last_25_accepted sqrtQ_floor _ (fst started) (snd started)
           {| detectionSensitivity := Fin 1 |}).
  - reflexivity.
  - reflexivity.
  - cbn. lia.
Defined.

(** X7.  Once [stop()] has run, messages that still arrive change nothing:
    the object and the module keep their state, no subscriber is called, and
    the published state stays IDLE with confidence 1, inactive, no anomaly. *)
Theorem stopped_service_ignores_feed (sqrtQ : Q -> Q) (ds : list Delivery)
    (this : HARModelService) (w : World) :
  let stopped := fst (stop this w) in
  feed sqrtQ ds stopped = stopped /\
  latestActivityState (snd (feed sqrtQ ds stopped)) = initialActivityState.
Proof.
  cbn zeta.
  assert (E : feed sqrtQ ds (fst (stop this w)) = fst (stop this w)).
  { apply feed_stopped.
    - apply stop_service.
    - rewrite stop_published. reflexivity. }
  rewrite E. split; [reflexivity | apply stop_published].
Qed.

(** X8.  While the service monitors without settings (the load has not
    resolved, or it failed), no message is buffered and the object does not
    change; the first accepted message publishes CALIBRATING, the later ones
    publish nothing. *)
Theorem without_settings_nothing_is_buffered (sqrtQ : Q -> Q) (ds : list Delivery)
    (this : HARModelService) (w : World) :
  isMonitoring this = true -> settings this = None ->
  let st' := feed sqrtQ ds (this, w) in
  fst st' = this /\
  snd st' = (if (0 <? acceptedCount ds)%nat then fst (publishName CALIBRATING w) else w) /\
  ((1 <= acceptedCount ds)%nat -> name (latestActivityState (snd st')) = CALIBRATING).
Proof.
  intros Hm Hs. cbn zeta.
  assert (H : fst (feed sqrtQ ds (this, w)) = this /\
              snd (feed sqrtQ ds (this, w)) =
                (if (0 <? acceptedCount ds)%nat
                 then fst (publishName CALIBRATING w) else w)).
  { revert w. induction ds as [|d ds IH]; intros w; cbn [feed fold_left].
    - split; reflexivity.
    - destruct (deliver_without_settings sqrtQ d (this, w) Hm Hs) as (E1 & E2).
      cbn zeta in *. cbn [fst snd] in *.
      destruct (deliver sqrtQ d (this, w)) as [this1 w1]. cbn [fst snd] in *. subst this1.
      destruct (IH w1) as (F1 & F2). unfold feed in *. split; [exact F1|].
      rewrite F2, (acceptedCount_cons d ds). subst w1.
      unfold acceptedCount at 2. cbn [filter].
      destruct (snd d) as [sensorData|]; [destruct (acceptedb sensorData)|];
        cbn [length Nat.add]; try reflexivity.
      change (0 <? S ?n)%nat with true. cbv iota.
      destruct (0 <? acceptedCount ds)%nat; [|reflexivity].
      apply publishName_same. apply publishName_latest. }
  destruct H as (H1 & H2). repeat split; [exact H1 | exact H2 |].
  intros Ha. rewrite H2.
  destruct (0 <? acceptedCount ds)%nat eqn:E; [apply publishName_latest|].
  apply Nat.ltb_ge in E. lia.
Qed.

Lemma without_settings_nothing_is_buffered_witness :
  let unloaded := fst (start constructed noSubscribers) in
  let ds := turning 1700000000000 (alternate 30 0.19 1.1) in
  fst (feed sqrtQ_floor ds (fst unloaded, snd unloaded)) = fst unloaded.
Proof.
  cbn zeta.
  refine (proj1 (without_settings_nothing_is_buffered sqrtQ_floor _
                   (fst (fst (start constructed noSubscribers)))
                   (snd (fst (start constructed noSubscribers))) _ _));
    reflexivity.
Defined.

(** X9.  The stored defaults carry no [detectionSensitivity]: as long as the
    stored item has none either, the object [loadSettings] returns has none,
    all four thresholds of the engine are [NaN], every window is classified
    IDLE with confidence 0.95 whatever the movement, and no tick raises the
    anomaly. *)
Theorem absent_sensitivity_classifies_idle (sqrtQ : Q -> Q) (now nowFired : Z)
    (sensorData : SensorData) (this : HARModelService) (w : World)
    (stored : storageService.Stored) (o : storageService.SettingsObject) :
  storageService.loadSettings stored = Returned o ->
  match stored with
  | storageService.Item parsed => storageService.detectionSensitivity parsed = None
  | _ => True
  end ->
  classifies sensorData this -> settings this = Some (settingsRead o) ->
  let buffer := pushSample (sensorDataBuffer this) (readSample sensorData) in
  let state :=
    latestActivityState
      (snd (fst (predictActivity sqrtQ now nowFired (Some sensorData) this w))) in
  thresholdsOf (settingsRead o) =
    {| MOVEMENT_THRESHOLD_IDLE := NaN; MOVEMENT_THRESHOLD_STANDING := NaN;
       MOVEMENT_THRESHOLD_WALKING := NaN; MOVEMENT_THRESHOLD_RUNNING := NaN |} /\
  fst (rawOf sqrtQ (settingsRead o) buffer) = IDLE /\
  reads (snd (rawOf sqrtQ (settingsRead o) buffer)) 0.95 /\
  anomaly state = None /\
  (name state = IDLE \/ (lastActivity this = STANDING /\ name state = STANDING)).
Proof.
  intros Hload Hstored Hc Hs. cbn zeta.
  assert (Hn : detectionSensitivity (settingsRead o) = NaN).
  { destruct stored as [|parsed|]; cbn in Hload; try discriminate;
      injection Hload as <-; cbn; [reflexivity|].
    rewrite Hstored. reflexivity. }
  rewrite (predictActivity_classifies sqrtQ now nowFired sensorData this w _ Hc Hs).
  rewrite classifyWindow_published.
  unfold thresholdsOf, rawOf, thresholdsOf. rewrite Hn.
  split; [reflexivity|]. rewrite classify_NaN. cbn [fst snd].
  split; [reflexivity|]. split; [reflexivity|].
  cbn [publishedOf anomaly name]. unfold firedOf, thresholdsOf. rewrite Hn.
  rewrite suddenStop_NaN. split; [reflexivity|].
  unfold smoothedOf, rawOf, thresholdsOf. rewrite Hn, classify_NaN. cbn [fst snd].
  unfold smoothActivity, needsSmoothing.
  destruct (lastActivity this); cbn [Activity_eqb negb andb orb smoothedActivity];
    try (left; reflexivity).
  destruct (S (activityChangeCount this) <? 3)%nat; cbn [smoothedActivity];
    [right; split; reflexivity | left; reflexivity].
Qed.

Lemma absent_sensitivity_classifies_idle_witness :
  let this := _refreshSettingsFrom storageService.NoItem nearlyFull in
  anomaly (latestActivityState
             (snd (fst (predictActivity sqrtQ_floor 1700000000000 1700000000000
                          (Some (reading 0 0 9.8 3 0 0)) this quietModule)))) = None.
Proof.
  cbn zeta.
  refine (proj1 (proj2 (proj2 (proj2
            (absent_sensitivity_classifies_idle sqrtQ_floor 1700000000000 1700000000000
               (reading 0 0 9.8 3 0 0)
               (_refreshSettingsFrom storageService.NoItem nearlyFull) quietModule
               storageService.NoItem storageService.defaultSettings
               eq_refl I _ eq_refl))))).
  unfold classifies, accepted.
  refine (conj eq_refl (conj eq_refl (conj _ _))).
  - discriminate.
  - apply Nat.leb_le. reflexivity.
Defined.

(** X10.  Over a feed whose clock readings stay within 30000 ms of the last
    trigger, no tick raises the anomaly and the time of the last trigger
    stays: the cooldown holds over any number of messages, whatever the
    movement history and the walking session. *)
Theorem cooldown_blocks_trigger (sqrtQ : Q -> Q) (ds : list Delivery)
    (this : HARModelService) (w : World) :
  anomaly (latestActivityState w) = None ->
  Forall (fun d : Delivery => (fst (fst d) - lastSuddenStopTime this <= 30000)%Z) ds ->
  Forall (fun s => anomaly s = None) (published sqrtQ ds (this, w)) /\
  lastSuddenStopTime (fst (feed sqrtQ ds (this, w))) = lastSuddenStopTime this.
Proof.
  intros Hn Hds.
  assert (H : forall st,
             anomaly (latestActivityState (snd st)) = None ->
             lastSuddenStopTime (fst st) = lastSuddenStopTime this ->
             Forall (fun s => anomaly s = None) (published sqrtQ ds st) /\
             lastSuddenStopTime (fst (feed sqrtQ ds st)) = lastSuddenStopTime this).
  { induction Hds as [|[[now nowFired] m] ds Hd _ IH]; intros st Ha Ht;
      cbn [published feed fold_left].
    - split; [constructor | exact Ht].
    - cbn [fst] in Hd.
      destruct (deliver_quiet sqrtQ now nowFired m st Ha) as (Ha' & Ht' & _).
      { left. rewrite Ht. exact Hd. }
      cbn zeta in *.
      destruct (IH (deliver sqrtQ (now, nowFired, m) st) Ha') as (F1 & F2);
        [congruence|].
      split; [constructor; assumption | exact F2]. }
  apply H; [exact Hn | reflexivity].
Qed.

Lemma cooldown_blocks_trigger_witness :
  let T := adjustThresholds (Fin 1) in
  let before := feed sqrtQ_floor (firstn 112 twoStops) started in
  let rest := skipn 112 twoStops in
  let after := feed sqrtQ_floor rest (fst before, snd before) in
  (lastSuddenStopTime (fst before) = 1700000011000%Z /\
   length rest = 299%nat /\
   suddenStopAsSpecified T (movementHistory (fst after)) (walkingSessionActive (fst after))
     (highMovementDuration (fst after)) 30000 = true) /\
  Forall (fun s => anomaly s = None)
         (published sqrtQ_floor rest (fst before, snd before)) /\
  lastSuddenStopTime (fst after) = lastSuddenStopTime (fst before).
Proof.
  cbn zeta. split; [vm_compute; repeat split|].
  apply (cooldown_blocks_trigger sqrtQ_floor (skipn 112 twoStops)
           (fst (feed sqrtQ_floor (firstn 112 twoStops) started))
           (snd (feed sqrtQ_floor (firstn 112 twoStops) started))).
  - vm_compute. reflexivity.
  - assert (E : lastSuddenStopTime
                   (fst (feed sqrtQ_floor (firstn 112 twoStops) started))
                 = 1700000011000%Z) by (vm_compute; reflexivity).
    rewrite E. apply Forall_forall. intros d Hd.
    assert (Hb : forallb
                   (fun d : Delivery => (fst (fst d) - 1700000011000 <=? 30000)%Z)
                   (skipn 112 twoStops) = true) by (vm_compute; reflexivity).
    rewrite forallb_forall in Hb. specialize (Hb d Hd). apply Z.leb_le in Hb.
    exact Hb.
Defined.

(** X11.  The anomaly takes 50 ticks to arm: over a feed that, with the
    count of high-movement ticks (or with the scores of the movement history)
    it starts from, cannot reach 50, no tick raises the anomaly. *)
Theorem trigger_needs_fifty_ticks (sqrtQ : Q -> Q) (ds : list Delivery)
    (this : HARModelService) (w : World) :
  anomaly (latestActivityState w) = None ->
  (highMovementDuration this + acceptedCount ds < 50)%nat \/
  (length (movementHistory this) + acceptedCount ds < 50)%nat ->
  Forall (fun s => anomaly s = None) (published sqrtQ ds (this, w)).
Proof.
  intros Hn Hk.
  assert (H : forall st,
             anomaly (latestActivityState (snd st)) = None ->
             (highMovementDuration (fst st) + acceptedCount ds < 50)%nat \/
             (length (movementHistory (fst st)) + acceptedCount ds < 50)%nat ->
             Forall (fun s => anomaly s = None) (published sqrtQ ds st)).
  { clear. induction ds as [|d ds IH]; intros st Ha Hk; cbn [published].
    - constructor.
    - rewrite (acceptedCount_cons d ds) in Hk.
      assert (E : acceptedCount [d] =
                  if match snd d with
                     | Some sensorData => acceptedb sensorData
                     | None => false
                     end then 1%nat else 0%nat).
      { unfold acceptedCount. cbn [filter].
        destruct (match snd d with Some sensorData => acceptedb sensorData | None => false end);
          reflexivity. }
      rewrite E in Hk. destruct d as [[now nowFired] m]. cbn [snd] in *.
      destruct (match m with Some sensorData => acceptedb sensorData | None => false end)
        eqn:Hm.
      + destruct (deliver_quiet sqrtQ now nowFired m st Ha) as (Ha' & _ & Hd & Hh).
        { right. lia. }
        cbn zeta in *. rewrite Hm in Hd, Hh.
        constructor; [exact Ha'|]. apply IH; [exact Ha'|]. lia.
      + rewrite (deliver_rejected sqrtQ now nowFired m st Hm).
        constructor; [exact Ha|]. apply IH; [exact Ha|]. lia. }
  apply H; assumption.
Qed.

Lemma trigger_needs_fifty_ticks_witness :
  Forall (fun s => anomaly s = None)
         (published sqrtQ_floor (turning 1700000000000 (alternate 49 0.19 1.1))
                    (fst started, snd started)).
Proof.
  apply (trigger_needs_fifty_ticks sqrtQ_floor _ (fst started) (snd started)).
  - reflexivity.
  - left. vm_compute. lia.
Defined.

(** X12.  [_calculateVariance] leaves the entries that are not finite out of
    the computation: its result is that of the finite entries alone, and 0
    when there are fewer than two of them; it is always a finite number that
    is not negative. *)
Theorem variance_skips_non_finite (arr : list num) :
  _calculateVariance arr = _calculateVariance (filter isFinite arr) /\
  ((length (filter isFinite arr) < 2)%nat -> _calculateVariance arr = Fin 0) /\
  nonNegative (_calculateVariance arr).
Proof.
  split; [apply _calculateVariance_filter|].
  split; [apply _calculateVariance_few | apply _calculateVariance_nonneg].
Qed.

Lemma variance_skips_non_finite_witness :
  _calculateVariance [NaN; Fin 3; PInf; NInf] = Fin 0.
Proof.
  apply (variance_skips_non_finite [NaN; Fin 3; PInf; NInf]).
  cbn. lia.
Defined.

(** X13.  The movement score of any window is not [NaN] and not negative,
    and it is 0 for a window of fewer than two messages. *)
Theorem movement_score_nonnegative (sqrtQ : Q -> Q) (buffer : list Sample) :
  atLeastZero (totalMovement sqrtQ buffer) /\
  ((length buffer < 2)%nat -> totalMovement sqrtQ buffer = Fin 0).
Proof.
  split; [apply nonNegative_atLeastZero, totalMovement_nonneg|].
  intros H. unfold totalMovement.
  pose proof (length_filter_le _ isFinite (accelWithoutGravity sqrtQ buffer)) as Ha.
  pose proof (length_filter_le _ isFinite (gyroMagnitudes sqrtQ buffer)) as Hg.
  unfold accelWithoutGravity in Ha. unfold accelWithoutGravity.
  unfold gyroMagnitudes, accelMagnitudes in *. rewrite !length_map in *.
  rewrite !_calculateVariance_few
    by (unfold accelWithoutGravity, gyroMagnitudes, accelMagnitudes;
        rewrite ?length_map; lia).
  reflexivity.
Qed.

Lemma movement_score_nonnegative_witness :
  totalMovement sqrtQ_floor [restingSample] = Fin 0.
Proof.
  apply (movement_score_nonnegative sqrtQ_floor [restingSample]).
  cbn. lia.
Defined.

(** X14.  [subscribeToActivity] calls the callback at once with the current
    state; the function it returns removes the callback and nothing else,
    keeping the order of the others, so that no later notification calls it;
    subscribing and unsubscribing a callback that was not subscribed leaves
    the list as it was. *)
Theorem unsubscribed_listener_is_not_called (callback : Listener) (w : World) :
  let subscribed := fst (subscribeToActivity callback w) in
  let w' := unsubscribe callback w in
  delivered subscribed = delivered w ++ [(lid callback, latestActivityState w)] /\
  listeners subscribed = listeners w ++ [callback] /\
  (forall l, In l (listeners w') <-> In l (listeners w) /\ lid l <> lid callback) /\
  (exists called,
     delivered (fst (notifyListeners w')) =
       delivered w ++ map (fun l => (lid l, latestActivityState w)) called /\
     Forall (fun l => lid l <> lid callback) called) /\
  (Forall (fun l => lid l <> lid callback) (listeners w) ->
   listeners (unsubscribe callback subscribed) = listeners w) /\
  (forall (before after : list Listener) (l : Listener),
     listeners w = before ++ l :: after -> lid l = lid callback ->
     Forall (fun l => lid l <> lid callback) before ->
     Forall (fun l => lid l <> lid callback) after ->
     listeners w' = before ++ after).
Proof.
  cbn zeta. split; [reflexivity|]. split; [reflexivity|].
  assert (Hin : forall l,
             In l (listeners (unsubscribe callback w)) <->
             In l (listeners w) /\ lid l <> lid callback).
  { intros l. cbn [unsubscribe listeners]. rewrite filter_In.
    rewrite negb_true_iff, Nat.eqb_neq. reflexivity. }
  assert (Hkeep : forall ls : list Listener,
             Forall (fun l => lid l <> lid callback) ls ->
             filter (fun listener => negb (lid listener =? lid callback)%nat) ls = ls).
  { intros ls Hall. induction Hall as [|l ls Hl _ IH]; cbn [filter]; [reflexivity|].
    apply Nat.eqb_neq in Hl. rewrite Hl. cbn [negb]. rewrite IH. reflexivity. }
  split; [exact Hin|]. split; [|split].
  - unfold notifyListeners.
    destruct (notifyLoop_called (listeners (unsubscribe callback w))
                (latestActivityState (unsubscribe callback w))
                (delivered (unsubscribe callback w))) as (called & rest & E & Hlog).
    destruct (notifyLoop _ _ _) as [log exn]. cbn [fst] in *.
    exists called. split; [exact Hlog|].
    apply Forall_forall. intros l Hl.
    destruct (proj1 (Hin l)) as (_ & Hne); [|exact Hne].
    rewrite E. apply in_or_app. left. exact Hl.
  - clear Hin. intros Hall.
    cbn [unsubscribe subscribeToActivity fst listeners]. unfold push.
    rewrite filter_app. cbn [filter]. rewrite Nat.eqb_refl. cbn [negb].
    rewrite app_nil_r. apply Hkeep. exact Hall.
  - clear Hin. intros before after l E El Hb Ha.
    cbn [unsubscribe listeners]. rewrite E, filter_app. cbn [filter].
    rewrite El, Nat.eqb_refl. cbn [negb].
    rewrite (Hkeep before Hb), (Hkeep after Ha). reflexivity.
Qed.

Lemma unsubscribed_listener_is_not_called_witness :
  let third := {| lid := 3; react := fun _ => None |} in
  let w := {| listeners := [returning; throwing; third];
              latestActivityState := initialActivityState; delivered := [] |} in
  listeners (unsubscribe throwing w) = [returning; third].
Proof.
  cbn zeta.
  refine (proj2 (proj2 (proj2 (proj2 (proj2
            (unsubscribed_listener_is_not_called throwing
               {| listeners := [returning; throwing; {| lid := 3; react := fun _ => None |}];
                  latestActivityState := initialActivityState; delivered := [] |})))))
            [returning] [{| lid := 3; react := fun _ => None |}] throwing
            eq_refl eq_refl _ _);
    repeat constructor; cbn; discriminate.
Defined.

(** X15.  When no subscribed callback throws, [notifyListeners] calls every
    subscriber once, in the order of subscription, with the published state,
    and returns; [start()] and [stop()] then return as well. *)
Theorem broadcast_reaches_every_listener (w : World) :
  (forall l s, In l (listeners w) -> react l s = None) ->
  notifyListeners w =
    ({| listeners := listeners w; latestActivityState := latestActivityState w;
        delivered := delivered w ++
                     map (fun l => (lid l, latestActivityState w)) (listeners w) |},
     None) /\
  (forall this, snd (start this w) = Returned tt) /\
  (forall this, snd (stop this w) = Returned tt).
Proof.
  intros H.
  assert (E : forall s,
             notifyListeners (publish w s) =
               ({| listeners := listeners w; latestActivityState := s;
                   delivered := delivered w ++ map (fun l => (lid l, s)) (listeners w) |},
                None)).
  { intros s. unfold notifyListeners. cbn [publish listeners latestActivityState delivered].
    rewrite notifyLoop_returns by (intros l Hl; apply H; exact Hl). reflexivity. }
  split.
  - unfold notifyListeners.
    rewrite notifyLoop_returns by (intros l Hl; apply H; exact Hl). reflexivity.
  - split; intros this; [unfold start | unfold stop]; cbn zeta; rewrite E; reflexivity.
Qed.

Lemma broadcast_reaches_every_listener_witness :
  let w := {| listeners := [returning]; latestActivityState := initialActivityState;
              delivered := [] |} in
  snd (stop constructed w) = Returned tt.
Proof.
  cbn zeta.
  refine (proj2 (proj2 (broadcast_reaches_every_listener
                          {| listeners := [returning];
                             latestActivityState := initialActivityState;
                             delivered := [] |} _)) constructed).
  intros l s [<- | []]. reflexivity.
Defined.

(** X16.  As long as the drivers report finite numbers, every message the
    sensor feed sends passes the validation of the engine; with a gyroscope
    one message is sent per gyroscope reading and none per accelerometer
    reading, without one a message is sent per accelerometer reading. *)
Theorem sensor_messages_are_accepted (isGyroAvailable : bool)
    (es : list sensorService.Event) :
  Forall sensorService.finiteEvent es ->
  let ms := sensorService.messages isGyroAvailable es sensorService.initial in
  Forall accepted ms /\
  length ms = length (filter (sensorService.sends isGyroAvailable) es).
Proof.
  intros Hes. cbn zeta.
  destruct (messages_accepted isGyroAvailable es sensorService.initial Hes
              finiteMeasurement_zero finiteMeasurement_zero) as (H1 & H2).
  split; [|exact H2].
  apply Forall_forall. intros m Hm. apply acceptedb_accepted.
  rewrite Forall_forall in H1. apply H1. exact Hm.
Qed.

Lemma sensor_messages_are_accepted_witness :
  let es :=
    [sensorService.AccelerometerData
       {| sensorService.x := JNumber (Fin 0); sensorService.y := JNumber (Fin 0);
          sensorService.z := JNumber (Fin 9.8) |};
     sensorService.GyroscopeData
       {| sensorService.x := JNumber (Fin 0.19); sensorService.y := JNumber (Fin 0);
          sensorService.z := JNumber (Fin 0) |}] in
  Forall accepted (sensorService.messages true es sensorService.initial).
Proof.
  cbn zeta.
  refine (proj1 (sensor_messages_are_accepted true _ _)).
  apply Forall_cons; [exists 0, 0, 9.8; repeat split|].
  apply Forall_cons; [exists 0.19, 0, 0; repeat split|].
  apply Forall_nil.
Defined.


(** X18.  A change of activity that lasts is published on its third
    consecutive tick between IDLE and STANDING, on its second between
    STANDING and WALKING, and at once otherwise; until then the activity
    published is the one before.  The count is of the ticks that differ from
    the activity before, whatever they propose: after one IDLE tick a
    change from STANDING to WALKING is published at once. *)
Theorem change_is_published_after_hold_ticks (from to : Activity)
    (confidences : list num) :
  from <> to ->
  let n := length confidences in
  smoothRun from 0 (map (fun c => (to, c)) confidences) =
    repeat from (Nat.min (holdTicks from to - 1) n) ++
    repeat to (n - (holdTicks from to - 1)) /\
  (forall c1 c2, smoothRun STANDING 0 [(IDLE, c1); (WALKING, c2)] = [STANDING; WALKING]).
Proof.
  intros Hne. cbn zeta. split; [|reflexivity].
  pose proof (smoothRun_same to) as Hsame.
  destruct from, to; try (contradiction Hne; reflexivity);
    destruct confidences as [|c1 [|c2 [|c3 cs]]];
    cbn [map smoothRun smoothActivity Activity_eqb negb needsSmoothing andb orb
           Nat.ltb Nat.leb fst snd smoothedActivity nextLastActivity nextChangeCount
           holdTicks Nat.sub Nat.min length repeat app];
    rewrite ?Hsame; cbn [length repeat]; rewrite ?Nat.sub_0_r; reflexivity.
Qed.

Lemma change_is_published_after_hold_ticks_witness :
  smoothRun IDLE 0 (map (fun c => (STANDING, c)) [Fin 0.5; Fin 0.6; Fin 0.7; Fin 0.8]) =
  [IDLE; IDLE; STANDING; STANDING].
Proof.
  refine (proj1 (change_is_published_after_hold_ticks IDLE STANDING
                   [Fin 0.5; Fin 0.6; Fin 0.7; Fin 0.8] _)).
  discriminate.
Defined.

(** X19.  The session bookkeeping over consecutive IDLE ticks: once more than
    30 of them are counted in a row the count of high-movement ticks is back
    at 0 and the walking session is over; up to 30 they change neither. *)
Theorem rest_ends_walking_session (n : nat) (s : Session) :
  let s' := sessionRun (repeat IDLE n) s in
  stillReadings s' = (stillReadings s + n)%nat /\
  ((stillReadings s + n <= 30)%nat ->
   duration s' = duration s /\ sessionActive s' = sessionActive s) /\
  ((30 < stillReadings s + n)%nat -> (1 <= n)%nat ->
   duration s' = 0%nat /\ sessionActive s' = false).
Proof.
  revert s. induction n as [|n IH]; intros s; cbn zeta.
  - cbn. repeat split; try lia.
  - cbn [repeat sessionRun fold_left].
    change (fold_left _ (repeat IDLE n) ?x) with (sessionRun (repeat IDLE n) x).
    set (s1 := trackSession IDLE (duration s) (stillReadings s) (sessionActive s)).
    destruct (IH s1) as (Hs & Hkeep & Hend).
    assert (H1 : stillReadings s1 = S (stillReadings s)).
    { unfold s1, trackSession. cbn [Activity_eqb orb].
      destruct (30 <? S (stillReadings s))%nat; reflexivity. }
    assert (H2 : (S (stillReadings s) <= 30)%nat ->
                 duration s1 = duration s /\ sessionActive s1 = sessionActive s).
    { intros Hle. unfold s1, trackSession. cbn [Activity_eqb orb].
      apply Nat.ltb_ge in Hle. rewrite Hle. split; reflexivity. }
    assert (H3 : (30 < S (stillReadings s))%nat ->
                 duration s1 = 0%nat /\ sessionActive s1 = false).
    { intros Hlt. unfold s1, trackSession. cbn [Activity_eqb orb].
      apply Nat.ltb_lt in Hlt. rewrite Hlt. split; reflexivity. }
    split; [lia|]. split.
    + intros Hle. destruct Hkeep as (Hd & Ha); [lia|].
      destruct H2 as (Hd1 & Ha1); [lia|]. split; congruence.
    + intros Hlt _. destruct n as [|n].
      * cbn [repeat sessionRun fold_left]. apply H3. lia.
      * destruct (Nat.le_gt_cases (stillReadings s1 + S n) 30) as [Hle|Hgt].
        -- lia.
        -- apply Hend; lia.
Qed.

Lemma rest_ends_walking_session_witness :
  let s := {| duration := 61; stillReadings := 0; sessionActive := true |} in
  duration (sessionRun (repeat IDLE 31) s) = 0%nat /\
  sessionActive (sessionRun (repeat IDLE 31) s) = false.
Proof.
  cbn zeta.
  apply (rest_ends_walking_session 31
           {| duration := 61; stillReadings := 0; sessionActive := true |}).
  - cbn. lia.
  - lia.
Defined.

Lemma In_firstn (A : Type) (n : nat) (l : list A) (x : A) :
  In x (firstn n l) -> In x l.
Proof.
  intros H. rewrite <- (firstn_skipn n l). apply in_or_app. left. exact H.
Qed.

Lemma last_cons (A : Type) (l : list A) (a d : A) : last (a :: l) d = last l a.
Proof.
  revert a d. induction l as [|x l IH]; intros a d; [reflexivity|].
  change (last (a :: x :: l) d) with (last (x :: l) d).
  rewrite (IH x d), (IH x a). reflexivity.
Qed.

(** X20.  The list of recent activities of the activity screen never holds
    more than 5 entries and never an entry CALIBRATING, whatever states the
    screen is called with; its ref holds the name of the last one. *)
Theorem recent_activities_bounded (us : list (Z * ActivityState)) :
  let s := ActivityDetectionScreen.updates us ActivityDetectionScreen.mounted in
  (length (ActivityDetectionScreen.recentActivities s) <= 5)%nat /\
  Forall (fun e => ActivityDetectionScreen.entryName e <> CALIBRATING)
         (ActivityDetectionScreen.recentActivities s) /\
  ActivityDetectionScreen.lastActivityRef s = last (map (fun u => name (snd u)) us) IDLE.
Proof.
  cbn zeta.
  assert (H : forall s,
             (length (ActivityDetectionScreen.recentActivities s) <= 5)%nat ->
             Forall (fun e => ActivityDetectionScreen.entryName e <> CALIBRATING)
                    (ActivityDetectionScreen.recentActivities s) ->
             let s' := ActivityDetectionScreen.updates us s in
             (length (ActivityDetectionScreen.recentActivities s') <= 5)%nat /\
             Forall (fun e => ActivityDetectionScreen.entryName e <> CALIBRATING)
                    (ActivityDetectionScreen.recentActivities s') /\
             ActivityDetectionScreen.lastActivityRef s' =
               last (map (fun u => name (snd u)) us)
                    (ActivityDetectionScreen.lastActivityRef s)).
  { induction us as [|u us IH]; intros s Hl Hf; cbn zeta.
    - cbn. auto.
    - cbn [ActivityDetectionScreen.updates fold_left].
      change (fold_left _ us ?x) with (ActivityDetectionScreen.updates us x).
      set (s1 := ActivityDetectionScreen.handleActivityUpdate (fst u) (snd u) s).
      assert (H1 : (length (ActivityDetectionScreen.recentActivities s1) <= 5)%nat /\
                   Forall (fun e => ActivityDetectionScreen.entryName e <> CALIBRATING)
                          (ActivityDetectionScreen.recentActivities s1)).
      { unfold s1, ActivityDetectionScreen.handleActivityUpdate.
        cbn [ActivityDetectionScreen.recentActivities].
        destruct (negb (Activity_eqb (name (snd u)) (ActivityDetectionScreen.lastActivityRef s)));
          cbn [andb]; [|split; assumption].
        destruct (Activity_eqb (name (snd u)) CALIBRATING) eqn:E; cbn [negb];
          [split; assumption|].
        rewrite slice_first_five. split.
        - rewrite length_firstn. lia.
        - apply Forall_forall. intros e He. apply In_firstn in He.
          destruct He as [<- | He].
          + cbn. apply Activity_eqb_neq. exact E.
          + rewrite Forall_forall in Hf. apply Hf. exact He. }
      destruct H1 as (Hl1 & Hf1).
      destruct (IH s1 Hl1 Hf1) as (A & B & C). cbn zeta in *.
      repeat split; [exact A | exact B |].
      rewrite C. cbn [map]. unfold s1. cbn [ActivityDetectionScreen.handleActivityUpdate
                                              ActivityDetectionScreen.lastActivityRef].
      symmetry. apply last_cons. }
  apply (H ActivityDetectionScreen.mounted).
  - cbn. lia.
  - constructor.
Qed.

(** ** The order of the activities *)

Lemma classify_label (T : Thresholds) (ti ts tw tr x : Q) :
  thresholdsRead T ti ts tw tr ->
  0 < ti -> ti < ts -> ts < tw -> tw < tr ->
  (tr < x /\ fst (classify T (Fin x)) = RUNNING) \/
  (x <= tr /\ tw < x /\ fst (classify T (Fin x)) = WALKING) \/
  (x <= tw /\ ti < x /\ fst (classify T (Fin x)) = STANDING) \/
  (x <= ti /\ fst (classify T (Fin x)) = IDLE).
Proof.
  intros HT Hi His Hsw Hwr.
  destruct (Qlt_le_dec tr x) as [Hr|Hr].
  { destruct (classify_running T ti ts tw tr HT x Hr) as (c & E & _); [lra|].
    left. rewrite E. split; [exact Hr | reflexivity]. }
  destruct (Qlt_le_dec tw x) as [Hw|Hw].
  { destruct (classify_walking T ti ts tw tr HT x Hr Hw Hwr) as (c & E & _).
    right. left. rewrite E. repeat split; assumption. }
  destruct (Qlt_le_dec ts x) as [Hs|Hs].
  { destruct (classify_standing T ti ts tw tr HT x Hr Hw Hs Hsw) as (c & E & _).
    right. right. left. rewrite E. repeat split; [assumption | lra]. }
  destruct (Qlt_le_dec ti x) as [Hl|Hl].
  { destruct (classify_light T ti ts tw tr HT x Hr Hw Hs Hl His) as (c & E & _).
    right. right. left. rewrite E. repeat split; [assumption | lra]. }
  destruct (classify_idle T ti ts tw tr HT x Hr Hw Hs Hl Hi) as (c & E & _).
  right. right. right. rewrite E. split; [assumption | reflexivity].
Qed.

(** X21.  For sensitivities from 0 to 1 the classification is monotone: more
    movement is never classified as a lower activity, and neither is the
    same movement at a higher sensitivity (IDLE below STANDING below WALKING
    below RUNNING). *)
Theorem classification_is_monotone (s1 s2 a b : Q) :
  0 <= s1 -> s1 <= s2 -> s2 <= 1 -> a <= b ->
  (rank (fst (classify (adjustThresholds (Fin s1)) (Fin a)))
   <= rank (fst (classify (adjustThresholds (Fin s2)) (Fin b))))%nat.
Proof.
  intros H0 H12 H1 Hab.
  assert (Ha0 : 0 <= s2) by lra. assert (Ha1 : s1 <= 1) by lra.
  pose proof (scaled_bounds s1 H0 Ha1) as (Hi1 & His1 & Hsw1 & Hwr1).
  pose proof (scaled_bounds s2 Ha0 H1) as (Hi2 & His2 & Hsw2 & Hwr2).
  assert (Li : scaled 0.5 0.6 s2 <= scaled 0.5 0.6 s1) by (apply scaled_antitone; lra).
  assert (Lw : scaled 8 0.4 s2 <= scaled 8 0.4 s1) by (apply scaled_antitone; lra).
  assert (Lr : scaled 20 0.3 s2 <= scaled 20 0.3 s1) by (apply scaled_antitone; lra).
  destruct (classify_label _ _ _ _ _ a (adjustThresholds_reads s1) Hi1 His1 Hsw1 Hwr1)
    as [(A1 & ->) | [(A1 & A2 & ->) | [(A1 & A2 & ->) | (A1 & ->)]]];
  destruct (classify_label _ _ _ _ _ b (adjustThresholds_reads s2) Hi2 His2 Hsw2 Hwr2)
    as [(B1 & ->) | [(B1 & B2 & ->) | [(B1 & B2 & ->) | (B1 & ->)]]];
  cbn [rank]; first [lia | exfalso; lra].
Qed.

Lemma classification_is_monotone_witness :
  (rank (fst (classify (adjustThresholds (Fin 0)) (Fin 9)))
   <= rank (fst (classify (adjustThresholds (Fin 1)) (Fin 9))))%nat.
Proof.
  apply (classification_is_monotone 0 1 9 9); lra.
Defined.

(** ** The settings hook *)

Lemma loadSettings_lacks (fails : bool) (item : option storageService.SettingsObject)
    (o : storageService.SettingsObject) :
  lacksSensitivity item ->
  storageService.loadSettings (useSettings.read fails item) = Returned o ->
  storageService.detectionSensitivity o = None.
Proof.
  intros Hi. unfold useSettings.read.
  destruct fails; [discriminate|].
  destruct item as [parsed|]; cbn [storageService.loadSettings]; intros [= <-].
  - cbn in *. rewrite Hi. reflexivity.
  - reflexivity.
Qed.

(** What the hook keeps while the sensitivity is left alone. *)
Lemma step_lacks (e : useSettings.Event) (h : useSettings.Hook) :
  useSettings.leavesSensitivity e ->
  lacksSensitivity (useSettings.item h) ->
  lacksSensitivity (useSettings.pending h) ->
  (useSettings.isLoading h = false -> useSettings.error h = None ->
   lacksSensitivity (Some (useSettings.settings h))) ->
  let h' := useSettings.step e h in
  lacksSensitivity (useSettings.item h') /\
  lacksSensitivity (useSettings.pending h') /\
  (useSettings.isLoading h' = false -> useSettings.error h' = None ->
   lacksSensitivity (Some (useSettings.settings h'))).
Proof.
  intros He Hi Hp Hs. cbn zeta.
  destruct e as [|readFails|c|writeFails|clearFails]; cbn [useSettings.step].
  - unfold useSettings.saveEffect. cbn. repeat split; try assumption. discriminate.
  - destruct (storageService.loadSettings (useSettings.read readFails (useSettings.item h)))
      as [storedSettings|msg] eqn:E.
    + apply loadSettings_lacks in E; [|exact Hi].
      unfold useSettings.saveEffect. cbn [useSettings.isLoading useSettings.error negb andb].
      destruct (useSettings.error h); cbn; repeat split; try assumption; try discriminate;
        intros; exact E.
    + unfold useSettings.saveEffect. cbn. repeat split; try assumption. discriminate.
  - assert (Hu : storageService.detectionSensitivity
                   (useSettings.updateSetting c (useSettings.settings h)) =
                 storageService.detectionSensitivity (useSettings.settings h)).
    { destruct c; cbn in He; try contradiction; reflexivity. }
    unfold useSettings.saveEffect.
    cbn [useSettings.isLoading useSettings.error useSettings.settings].
    destruct (useSettings.isLoading h) eqn:El; cbn [negb andb].
    + cbn. repeat split; try assumption. discriminate.
    + destruct (useSettings.error h) eqn:Ee;
        cbn [useSettings.item useSettings.pending useSettings.settings
               useSettings.isLoading useSettings.error lacksSensitivity].
      * repeat split; try assumption. discriminate.
      * rewrite Hu. specialize (Hs eq_refl eq_refl). cbn [lacksSensitivity] in Hs.
        repeat split; try assumption; intros; exact Hs.
  - destruct (useSettings.pending h) as [newSettings|] eqn:Ep.
    + cbn. repeat split; try assumption.
      destruct writeFails; [exact Hi | exact Hp].
    + repeat split; try assumption. rewrite Ep. exact I.
  - contradiction.
Qed.

(** X23.  The defaults of the storage carry no [detectionSensitivity], and
    the hook replaces its own (which carry 0.5) by what the storage returns.
    So from an installation whose stored item has none, and as long as the
    slider is not moved and the data are not cleared, no item the hook saves
    has one: whatever the engine loads reads as a sensitivity of [NaN], while
    the settings screen, once loaded, labels the sensitivity Medium. *)
Theorem sensitivity_is_never_stored (item : option storageService.SettingsObject)
    (es : list useSettings.Event) :
  lacksSensitivity item ->
  Forall useSettings.leavesSensitivity es ->
  let h := useSettings.run es (useSettings.mount item) in
  lacksSensitivity (useSettings.item h) /\
  (forall readFails o,
     storageService.loadSettings (useSettings.read readFails (useSettings.item h))
       = Returned o ->
     detectionSensitivity (settingsRead o) = NaN) /\
  (useSettings.isLoading h = false -> useSettings.error h = None ->
   SettingsScreen.getSensitivityLabel
     (storageService.detectionSensitivity (useSettings.settings h))
     = SettingsScreen.Medium).
Proof.
  intros Hi Hes. cbn zeta.
  assert (H : forall h,
             lacksSensitivity (useSettings.item h) ->
             lacksSensitivity (useSettings.pending h) ->
             (useSettings.isLoading h = false -> useSettings.error h = None ->
              lacksSensitivity (Some (useSettings.settings h))) ->
             let h' := useSettings.run es h in
             lacksSensitivity (useSettings.item h') /\
             lacksSensitivity (useSettings.pending h') /\
             (useSettings.isLoading h' = false -> useSettings.error h' = None ->
              lacksSensitivity (Some (useSettings.settings h')))).
  { induction Hes as [|e es He _ IH]; intros h H1 H2 H3; cbn zeta.
    - cbn. auto.
    - cbn [useSettings.run fold_left].
      destruct (step_lacks e h He H1 H2 H3) as (A & B & C).
      exact (IH (useSettings.step e h) A B C). }
  destruct (H (useSettings.mount item)) as (A & _ & C).
  - exact Hi.
  - exact I.
  - cbn. discriminate.
  - cbn zeta in *. split; [exact A|]. split.
    + intros readFails o E. apply loadSettings_lacks in E; [|exact A].
      unfold settingsRead. rewrite E. reflexivity.
    + intros Hl He. specialize (C Hl He). cbn in C. rewrite C. reflexivity.
Qed.

Lemma sensitivity_is_never_stored_witness :
  let es := [useSettings.FetchSettles false;
             useSettings.Update (useSettings.IsAutoDetectionEnabled true);
             useSettings.DebounceRuns false] in
  lacksSensitivity (useSettings.item (useSettings.run es (useSettings.mount None))).
Proof.
  cbn zeta.
  refine (proj1 (sensitivity_is_never_stored None _ I _)).
  repeat (apply Forall_cons; [exact I|]). apply Forall_nil.
Defined.
